(** * Nadex backtesting: KPI calculator, simplified backtest script, results loader

    A shallow embedding of [nadex_common/kpi_calculator.py],
    [notebooks/archive/backtest_simplified.py] and
    [nadex_common/backtest_results.py].

    Conventions of the embedding.
    - A pandas DataFrame is a list of row records in frame order. The frame
      handed to [aggregate_to_daily] carries its index labels with the rows
      ([Simplified.DataFrame]), since [.loc] selects by label; the other
      frames carry the default RangeIndex (their producer ends in
      [reset_index]), so a row label there is the row position.
    - A finite float is an exact rational ([Q]); rounding is not modelled.
      Equalities between computed amounts are therefore stated with [==].
    - The special values that pandas and numpy produce on purpose (NaN for a
      missing cell, the infinities of a division by zero) are explicit:
      [option Q] for a column that may hold NaN, [xnum] where infinities occur.
    - Dates are day numbers ([Z]); the [.days] of a difference is a
      subtraction. *)

From Stdlib Require Import String Ascii.
From Stdlib Require Import QArith Qabs Qminmax ZArith List Bool Lia Lqa.
From Stdlib Require Import Sorting.Sorted OrderedTypeEx.
Import ListNotations.

Open Scope Q_scope.

(** ** Comparisons and reductions shared by the modules *)

(** [x < y] as a boolean. *)
Definition Qltb (x y : Q) : bool := negb (Qle_bool y x).

(** [Series.sum()]. *)
Definition series_sum (l : list Q) : Q := fold_left Qplus l 0.

(** [counts P l n]: exactly [n] elements of [l] satisfy [P]. *)
Inductive counts {A} (P : A -> Prop) : list A -> nat -> Prop :=
| counts_nil : counts P [] O
| counts_in a l n : P a -> counts P l n -> counts P (a :: l) (S n)
| counts_out a l n : ~ P a -> counts P l n -> counts P (a :: l) n.

(** [Series.idxmin()] together with [Series.min()]: position and value of
    the first occurrence of the minimum; [None] on an empty series. *)
Fixpoint argmin (l : list Q) : option (nat * Q) :=
  match l with
  | [] => None
  | x :: t =>
      match argmin t with
      | None => Some (O, x)
      | Some (j, m) => if Qle_bool x m then Some (O, x) else Some (S j, m)
      end
  end.

Definition idxmin (l : list Q) : option nat := option_map fst (argmin l).

(** [Series.min()] and [Series.max()]; pandas answers NaN on an empty
    series, which no caller below reaches, and the model answers 0 there. *)
Definition series_min (l : list Q) : Q :=
  match argmin l with Some (_, m) => m | None => 0 end.

Definition qmax (a b : Q) : Q := if Qle_bool a b then b else a.

Definition series_max (l : list Q) : Q :=
  match l with
  | [] => 0
  | x :: t => fold_left qmax t x
  end.

(** [Series.cumsum()] and [Series.cummax()]. *)
Fixpoint cumsum_from (acc : Q) (l : list Q) : list Q :=
  match l with
  | [] => []
  | x :: t => (acc + x) :: cumsum_from (acc + x) t
  end.

Definition cumsum (l : list Q) : list Q :=
  match l with
  | [] => []
  | x :: t => x :: cumsum_from x t
  end.

Fixpoint cummax_from (m : Q) (l : list Q) : list Q :=
  match l with
  | [] => []
  | x :: t => qmax m x :: cummax_from (qmax m x) t
  end.

Definition cummax (l : list Q) : list Q :=
  match l with
  | [] => []
  | x :: t => x :: cummax_from x t
  end.

(** Element-wise difference of two aligned columns. *)
Fixpoint col_sub (a b : list Q) : list Q :=
  match a, b with
  | x :: a', y :: b' => (x - y) :: col_sub a' b'
  | _, _ => []
  end.

(** The sorted distinct values of a key column, as [groupby] orders its
    groups; [cmp] is the order of the key type. *)
Section GroupKeys.
Context {K : Type} (cmp : K -> K -> comparison).

Fixpoint insert_key (d : K) (l : list K) : list K :=
  match l with
  | [] => [d]
  | h :: t =>
      match cmp d h with
      | Lt => d :: l
      | Eq => l
      | Gt => h :: insert_key d t
      end
  end.

Definition group_keys (l : list K) : list K := fold_right insert_key [] l.

(** The strict order [cmp] decides. *)
Definition key_lt (a b : K) : Prop := cmp a b = Lt.
End GroupKeys.

(** ** kpi_calculator.py *)

Module Kpi.

(** A row of the trades frame: the columns [calculate_kpis] documents. *)
Record trade := mkTrade {
  Date : Z;
  pnl : Q;
  entry_cost : Q;
  in_the_money : Z
}.

(** A row of [trades_by_date]. *)
Record daily_row := mkDaily {
  d_Date : Z;
  d_pnl : Q;
  d_entry_cost : Q;
  cumulative_pnl : Q;
  running_max : Q;
  drawdown : Q
}.

(** The dictionary [calculate_kpis] returns. *)
Record kpis := mkKpis {
  win_rate : Q;
  total_trades : nat;
  wins : nat;
  losses : nat;
  gross_pnl : Q;
  commissions : Q;
  net_pnl : Q;
  max_drawdown : Q;
  max_drawdown_pct : Q;
  recovery_days : Z;
  date_start : option Z;
  date_end : option Z;
  daily_data : list daily_row
}.

(** [calculate_tier_entry_cost]: the three-tier pricer. *)
Definition calculate_tier_entry_cost (exp_value strike_price : Q) : Q :=
  let threshold := strike_price * (1 # 100) in
  let diff := exp_value - strike_price in
  if Qltb threshold diff then 75 # 10
  else if Qltb diff (- threshold) then 25 # 10
  else 5.

(** [trades.groupby('Date').agg({'pnl': 'sum', 'entry_cost': 'sum'})
    .reset_index()]: one row per distinct date, dates ascending, under a
    fresh RangeIndex. *)
Definition on_date (d : Z) (trades : list trade) : list trade :=
  filter (fun t => (Date t =? d)%Z) trades.

Definition groupby_date (trades : list trade) : list (Z * Q * Q) :=
  map (fun d =>
         let g := on_date d trades in
         (d, series_sum (map pnl g), series_sum (map entry_cost g)))
      (group_keys Z.compare (map Date trades)).

(** Gluing the columns of [trades_by_date] back into rows. *)
Fixpoint daily_rows (g : list (Z * Q * Q)) (cum rmax dd : list Q)
  : list daily_row :=
  match g, cum, rmax, dd with
  | (d, p, e) :: g', c :: cum', m :: rmax', x :: dd' =>
      mkDaily d p e c m x :: daily_rows g' cum' rmax' dd'
  | _, _, _, _ => []
  end.

(** [trades_by_date.sort_values('Date')]: a stable sort on the date. *)
Fixpoint insert_by_date (r : Z * Q * Q) (l : list (Z * Q * Q))
  : list (Z * Q * Q) :=
  match l with
  | [] => [r]
  | h :: t =>
      if (fst (fst r) <=? fst (fst h))%Z then r :: l
      else h :: insert_by_date r t
  end.

Definition sort_values_date (l : list (Z * Q * Q)) : list (Z * Q * Q) :=
  fold_right insert_by_date [] l.

Definition trades_by_date (trades : list trade) : list daily_row :=
  let g := sort_values_date (groupby_date trades) in
  let cum := cumsum (map (fun r => snd (fst r)) g) in
  let rmax := cummax cum in
  let dd := col_sub cum rmax in
  daily_rows g cum rmax dd.

(** The recovery loop: from the row of the worst drawdown on, the first
    row whose drawdown is back to [>= 0]. *)
Definition recovery (daily : list daily_row) : Z :=
  match idxmin (map drawdown daily) with
  | None => 0%Z
  | Some max_dd_idx =>
      let post_dd := skipn max_dd_idx daily in
      let recovered := filter (fun r => Qle_bool 0 (drawdown r)) post_dd in
      match recovered, nth_error daily max_dd_idx with
      | r :: _, Some r0 => (d_Date r - d_Date r0)%Z
      | _, _ => 0%Z
      end
  end.

Definition empty_kpis : kpis :=
  mkKpis 0 0 0 0 0 0 0 0 0 0%Z None None [].

Definition date_min (t : trade) (rest : list trade) : Z :=
  fold_left Z.min (map Date rest) (Date t).

Definition date_max (t : trade) (rest : list trade) : Z :=
  fold_left Z.max (map Date rest) (Date t).

Definition calculate_kpis (trades : list trade) (commission_per_contract : Q)
  : kpis :=
  match trades with
  | [] => empty_kpis
  | t0 :: rest =>
      let wins := filter (fun t => Qltb 0 (pnl t)) trades in
      let losses := filter (fun t => Qle_bool (pnl t) 0) trades in
      let total_trades := length trades in
      let win_count := length wins in
      let loss_count := length losses in
      let win_rate :=
        if (0 <? total_trades)%nat
        then inject_Z (Z.of_nat win_count) / inject_Z (Z.of_nat total_trades)
        else 0 in
      let gross_pnl := series_sum (map pnl trades) in
      let commissions :=
        inject_Z (Z.of_nat total_trades) * commission_per_contract in
      let net_pnl := gross_pnl - commissions in
      let daily := trades_by_date trades in
      let max_drawdown := series_min (map drawdown daily) in
      let peak := series_max (map running_max daily) in
      let max_drawdown_pct :=
        if Qltb 0 peak then max_drawdown / peak * 100 else 0 in
      mkKpis win_rate total_trades win_count loss_count
             gross_pnl commissions net_pnl
             max_drawdown max_drawdown_pct (recovery daily)
             (Some (date_min t0 rest)) (Some (date_max t0 rest))
             daily
  end.

Definition default_commission : Q := 1.

End Kpi.

(** ** Floats with their special values *)

(** A float cell: a finite value, an infinity or NaN. *)
Inductive xnum :=
| Fin (q : Q)
| PInf
| NInf
| NaN.

Definition xopp (a : xnum) : xnum :=
  match a with
  | Fin q => Fin (- q)
  | PInf => NInf
  | NInf => PInf
  | NaN => NaN
  end.

Definition xadd (a b : xnum) : xnum :=
  match a, b with
  | NaN, _ => NaN
  | _, NaN => NaN
  | Fin x, Fin y => Fin (x + y)
  | PInf, NInf => NaN
  | NInf, PInf => NaN
  | PInf, _ => PInf
  | _, PInf => PInf
  | NInf, _ => NInf
  | _, NInf => NInf
  end.

Definition xsub (a b : xnum) : xnum := xadd a (xopp b).

(** The infinity of sign [neg]. *)
Definition xinf (neg : bool) : xnum := if neg then NInf else PInf.

Definition xmul (a b : xnum) : xnum :=
  match a, b with
  | NaN, _ => NaN
  | _, NaN => NaN
  | Fin x, Fin y => Fin (x * y)
  | Fin x, PInf => if Qeq_bool x 0 then NaN else xinf (Qltb x 0)
  | PInf, Fin x => if Qeq_bool x 0 then NaN else xinf (Qltb x 0)
  | Fin x, NInf => if Qeq_bool x 0 then NaN else xinf (Qltb 0 x)
  | NInf, Fin x => if Qeq_bool x 0 then NaN else xinf (Qltb 0 x)
  | PInf, PInf => PInf
  | NInf, NInf => PInf
  | PInf, NInf => NInf
  | NInf, PInf => NInf
  end.

(** IEEE division. A rational zero carries no sign, so the sign of a zero
    divisor is an argument: [zneg] says that a divisor equal to zero is
    [-0.0]. *)
Definition xdiv (zneg : bool) (a b : xnum) : xnum :=
  match a, b with
  | NaN, _ => NaN
  | _, NaN => NaN
  | Fin x, Fin y =>
      if Qeq_bool y 0
      then if Qeq_bool x 0 then NaN else xinf (xorb (Qltb x 0) zneg)
      else Fin (x / y)
  | Fin _, _ => Fin 0
  | PInf, Fin y => xinf (if Qeq_bool y 0 then zneg else Qltb y 0)
  | NInf, Fin y => xinf (negb (if Qeq_bool y 0 then zneg else Qltb y 0))
  | _, _ => NaN
  end.

(** [a < b]; false as soon as one side is NaN. *)
Definition xltb (a b : xnum) : bool :=
  match a, b with
  | NaN, _ => false
  | _, NaN => false
  | Fin x, Fin y => Qltb x y
  | PInf, _ => false
  | NInf, NInf => false
  | NInf, _ => true
  | Fin _, PInf => true
  | Fin _, NInf => false
  end.

(** The same order as a proposition. *)
Definition xlt (a b : xnum) : Prop :=
  match a, b with
  | Fin x, Fin y => x < y
  | NInf, Fin _ => True
  | NInf, PInf => True
  | Fin _, PInf => True
  | _, _ => False
  end.

Definition xisnan (a : xnum) : bool :=
  match a with NaN => true | _ => false end.

(** A cell of a float column that may be missing. *)
Definition of_cell (c : option Q) : xnum :=
  match c with Some q => Fin q | None => NaN end.

(** [Series.sum()] and [Series.mean()] of a float column; both skip NaN. *)
Definition xsum (l : list xnum) : xnum :=
  fold_left xadd (filter (fun a => negb (xisnan a)) l) (Fin 0).

Definition xmean (l : list xnum) : xnum :=
  let kept := filter (fun a => negb (xisnan a)) l in
  xdiv false (xsum l) (Fin (inject_Z (Z.of_nat (length kept)))).

(** Python's two-argument [min] and [max]: the first argument stays unless
    the second compares strictly below (above) it. *)
Definition py_min (a b : xnum) : xnum := if xltb b a then b else a.
Definition py_max (a b : xnum) : xnum := if xltb a b then b else a.

(** ** Exceptions *)

Inductive exn :=
| ZeroDivisionError
| ValueError (msg : string)
| ClientError (code msg : string)
| ParserError (msg : string)
| FileNotFoundError (msg : string).

Definition res (A : Type) : Type := exn + A.

Definition ret {A} (a : A) : res A := inr a.
Definition raise {A} (e : exn) : res A := inl e.
Definition bind {A B} (m : res A) (k : A -> res B) : res B :=
  match m with
  | inl e => inl e
  | inr a => k a
  end.

Notation "x <- m ;; k" := (bind m (fun x => k))
  (at level 61, m at next level, right associativity).

Fixpoint mapM {A B} (f : A -> res B) (l : list A) : res (list B) :=
  match l with
  | [] => ret []
  | a :: t => b <- f a ;; bs <- mapM f t ;; ret (b :: bs)
  end.

(** Python's [/] on two [int]s: raises on a zero divisor. *)
Definition int_true_div (a b : nat) : res Q :=
  if (b =? 0)%nat then raise ZeroDivisionError
  else ret (inject_Z (Z.of_nat a) / inject_Z (Z.of_nat b)).

(** [Series.unique()] on a column of strings: first appearances, in order. *)
Fixpoint unique (l : list string) : list string :=
  match l with
  | [] => []
  | x :: t => x :: filter (fun y => negb (String.eqb y x)) (unique t)
  end.

(** ** backtest_simplified.py *)

Module Simplified.

(** A row of the historical price frame. [strike_distance] is the column
    [aggregate_to_daily] writes into its argument; [None] while the frame
    does not have it. *)
Record obs := mkObs {
  Ticker : string;
  Date : Z;
  ExpValue : Q;
  StrikePrice : Q;
  InTheMoney : Z;
  strike_distance : option Q
}.

(** The grouping key [(Ticker, Date)] and its lexicographic order. *)
Definition key : Type := string * Z.

Definition key_of (r : obs) : key := (Ticker r, Date r).

Definition key_cmp (a b : key) : comparison :=
  match String.compare (fst a) (fst b) with
  | Eq => Z.compare (snd a) (snd b)
  | c => c
  end.

Definition key_eqb (a b : key) : bool :=
  match key_cmp a b with Eq => true | _ => false end.

Definition key_leb (a b : key) : bool :=
  match key_cmp a b with Gt => false | _ => true end.

(** [raw_data['strike_distance'] = abs(Exp Value - Strike Price)]. *)
Definition with_strike_distance (r : obs) : obs :=
  mkObs (Ticker r) (Date r) (ExpValue r) (StrikePrice r) (InTheMoney r)
        (Some (Qabs (ExpValue r - StrikePrice r))).

(** [.drop('strike_distance', axis=1)]. *)
Definition drop_strike_distance (r : obs) : obs :=
  mkObs (Ticker r) (Date r) (ExpValue r) (StrikePrice r) (InTheMoney r) None.

(** Reading a cell of the column just assigned (no cell is missing). *)
Definition strike_distance_of (r : obs) : Q :=
  match strike_distance r with Some d => d | None => 0 end.

(** A frame of price rows: every row with its index label. Labels need not
    be distinct, nor be the positions of the rows. *)
Abbreviation label := Z.

Abbreviation DataFrame := (list (label * obs)).

Definition labels (t : DataFrame) : list label := map fst t.

Definition values (t : DataFrame) : list obs := map snd t.

(** The default index of a frame of [n] rows: [0, 1, ..., n-1]. *)
Definition RangeIndex (n : nat) : list label := map Z.of_nat (seq 0 n).

(** Rows under the default index, and [.reset_index(drop=True)]. *)
Definition DataFrame_of (rows : list obs) : DataFrame :=
  combine (RangeIndex (length rows)) rows.

Definition reset_index (t : DataFrame) : DataFrame := DataFrame_of (values t).

(** Assigning or dropping a column works row by row and keeps the labels. *)
Definition on_rows (f : obs -> obs) (t : DataFrame) : DataFrame :=
  map (fun ir => (fst ir, f (snd ir))) t.

(** [groupby(['Ticker','Date'])['strike_distance'].idxmin()] for the group
    of key [k]: the label of the first row of the group at minimal
    distance. *)
Definition group_idxmin (t : DataFrame) (k : key) : option label :=
  let g := filter (fun ir => key_eqb (key_of (snd ir)) k) t in
  match idxmin (map (fun ir => strike_distance_of (snd ir)) g) with
  | Some j => option_map fst (nth_error g j)
  | None => None
  end.

Definition opt_list {A} (o : option A) : list A :=
  match o with Some a => [a] | None => [] end.

Definition groupby_idxmin (t : DataFrame) : list label :=
  flat_map (fun k => opt_list (group_idxmin t k))
           (group_keys key_cmp (map key_of (values t))).

(** [raw_data.loc[idx]]: for every label of [idx], in the order of [idx],
    all the rows of the frame that carry this label, in the order of the
    frame. Every label of [idx] comes from the frame itself, so none is
    missing. *)
Definition loc (t : DataFrame) (idx : list label) : DataFrame :=
  flat_map (fun i => filter (fun ir => Z.eqb (fst ir) i) t) idx.

(** [sort_values(['Ticker','Date'])]: a stable sort on the key. *)
Fixpoint insert_row (r : label * obs) (l : DataFrame) : DataFrame :=
  match l with
  | [] => [r]
  | h :: t =>
      if key_leb (key_of (snd r)) (key_of (snd h)) then r :: l
      else h :: insert_row r t
  end.

Definition sort_values (l : DataFrame) : DataFrame :=
  fold_right insert_row [] l.

(** [aggregate_to_daily]. The first component is the argument frame as the
    call leaves it (it gains the [strike_distance] column); the second is
    what the call returns, or the exception of the progress message, whose
    average divides by the number of distinct tickers. *)
Definition select_closest (raw_data' : DataFrame) : DataFrame :=
  let idx := groupby_idxmin raw_data' in
  on_rows drop_strike_distance (loc raw_data' idx).

Definition aggregate_to_daily (raw_data : DataFrame)
  : DataFrame * res DataFrame :=
  let raw_data' := on_rows with_strike_distance raw_data in
  let daily_data := select_closest raw_data' in
  (raw_data',
   _ <- int_true_div (length daily_data)
                     (length (unique (map Ticker (values daily_data)))) ;;
   ret (reset_index (sort_values daily_data))).

(** The frame a call returns. *)
Definition daily_of (raw_data : DataFrame) : res DataFrame :=
  snd (aggregate_to_daily raw_data).

(** Where every label is carried by one row, the label that [idxmin] gives
    for the group of [k] designates one row: the first row of the group at
    minimal distance. [closest_rows] lists these rows, without the
    distance column, in increasing order of the keys. *)
Definition first_closest (rows : list obs) (k : key) : option obs :=
  let g := filter (fun r => key_eqb (key_of r) k) rows in
  match idxmin (map strike_distance_of g) with
  | Some j => nth_error g j
  | None => None
  end.

Definition closest_rows (rows : list obs) : list obs :=
  map drop_strike_distance
      (flat_map (fun k => opt_list (first_closest rows k))
                (group_keys key_cmp (map key_of rows))).

(** *** The indicator *)

(** [prices.diff()]: NaN in the first cell. *)
Fixpoint diff_from (prev : Q) (l : list Q) : list (option Q) :=
  match l with
  | [] => []
  | x :: t => Some (x - prev) :: diff_from x t
  end.

Definition diff (prices : list Q) : list (option Q) :=
  match prices with
  | [] => []
  | p :: t => None :: diff_from p t
  end.

(** [delta.where(delta > 0, 0)] and [delta.where(delta < 0, 0)]: a cell
    that fails the test, NaN included, becomes 0. *)
Definition where_pos (d : option Q) : Q :=
  match d with
  | Some v => if Qltb 0 v then v else 0
  | None => 0
  end.

Definition where_neg (d : option Q) : Q :=
  match d with
  | Some v => if Qltb v 0 then v else 0
  | None => 0
  end.

(** [.rolling(window=period).mean()]: NaN until the window is full. *)
Definition window (period i : nat) (l : list Q) : list Q :=
  firstn period (skipn (i + 1 - period) l).

Definition rolling_mean (period : nat) (l : list Q) : list (option Q) :=
  map (fun i =>
         if (period =? 0)%nat || (i + 1 <? period)%nat then None
         else Some (series_sum (window period i l)
                    / inject_Z (Z.of_nat period)))
      (seq 0 (length l)).

(** The last step of [calculate_rsi] on one date. A zero average loss is
    the negation of a zero mean, hence [-0.0]: the first division is told
    so. *)
Definition rsi_cell (gain loss : option Q) : xnum :=
  let rs := xdiv true (of_cell gain) (of_cell loss) in
  xsub (Fin 100) (xdiv false (Fin 100) (xadd (Fin 1) rs)).

Fixpoint rsi_cells (gain loss : list (option Q)) : list xnum :=
  match gain, loss with
  | g :: gain', l :: loss' => rsi_cell g l :: rsi_cells gain' loss'
  | _, _ => []
  end.

Definition rolling_gain (prices : list Q) (period : nat) : list (option Q) :=
  rolling_mean period (map where_pos (diff prices)).

Definition rolling_loss (prices : list Q) (period : nat) : list (option Q) :=
  map (option_map Qopp) (rolling_mean period (map where_neg (diff prices))).

Definition calculate_rsi (prices : list Q) (period : nat) : list xnum :=
  rsi_cells (rolling_gain prices period) (rolling_loss prices period).

(** A row of the frame [backtest_strategy] builds: the price row, the
    indicator, the signal (1 BUY, -1 SELL, 0 HOLD) and the three columns
    written for traded rows only (NaN elsewhere). *)
Record bt_row := mkBt {
  row : obs;
  rsi : xnum;
  signal : Z;
  entry_cost : xnum;
  probability_itm : xnum;
  pnl : xnum
}.

Definition signal_of (oversold overbought : Q) (r : xnum) : Z :=
  let s0 := 0%Z in
  let s1 := if xltb r (Fin oversold) then 1%Z else s0 in
  if xltb (Fin overbought) r then (-1)%Z else s1.

Fixpoint attach_rsi (oversold overbought : Q) (data : list obs)
         (rsis : list xnum) : list bt_row :=
  match data, rsis with
  | r :: data', x :: rsis' =>
      mkBt r x (signal_of oversold overbought x) NaN NaN NaN
      :: attach_rsi oversold overbought data' rsis'
  | _, _ => []
  end.

Definition generate_rsi_signals (data : list obs) (period : nat)
           (oversold overbought : Q) : list bt_row :=
  attach_rsi oversold overbought data
             (calculate_rsi (map ExpValue data) period).

Section Pricing.
(** [scipy.stats.norm.cdf] on finite arguments. *)
Variable norm_cdf : Q -> Q.
(** Whether the pricer receives Python [float]s (a zero divisor raises)
    or numpy scalars (a zero divisor gives an infinity or NaN). *)
Variable python_scalars : bool.

Definition norm_cdf_x (z : xnum) : xnum :=
  match z with
  | Fin q => Fin (norm_cdf q)
  | PInf => Fin 1
  | NInf => Fin 0
  | NaN => NaN
  end.

Definition true_div (a b : Q) : res xnum :=
  if Qeq_bool b 0 && python_scalars then raise ZeroDivisionError
  else ret (xdiv false (Fin a) (Fin b)).

Definition calculate_probability_itm (exp_value strike_price volatility : Q)
  : res xnum :=
  let volatility := if Qle_bool volatility 0 then 1 # 100 else volatility in
  z_score <- true_div (exp_value - strike_price)
                      (strike_price * volatility) ;;
  let prob := norm_cdf_x z_score in
  ret (py_max (Fin (5 # 100)) (py_min (Fin (95 # 100)) prob)).

Definition calculate_fair_entry_cost
           (exp_value strike_price max_payout volatility : Q)
  : res (xnum * xnum) :=
  prob_itm <- calculate_probability_itm exp_value strike_price volatility ;;
  let entry_cost := xmul (Fin max_payout) prob_itm in
  ret (entry_cost, prob_itm).

(** The body of the loop over [trades.index]: rows with a signal get
    their three columns. *)
Definition price_row (volatility : Q) (r : bt_row) : res bt_row :=
  if (signal r =? 0)%Z then ret r
  else
    cp <- calculate_fair_entry_cost (ExpValue (row r)) (StrikePrice (row r))
                                    10 volatility ;;
    let pnl := if (InTheMoney (row r) =? 1)%Z
               then xsub (Fin 10) (fst cp)
               else xopp (fst cp) in
    ret (mkBt (row r) (rsi r) (signal r) (fst cp) (snd cp) pnl).

Definition backtest_ticker (data : list obs) (rsi_period : nat)
           (oversold overbought volatility : Q) (ticker : string)
  : res (list bt_row) :=
  let ticker_data := filter (fun r => String.eqb (Ticker r) ticker) data in
  let ticker_data :=
    generate_rsi_signals ticker_data rsi_period oversold overbought in
  mapM (price_row volatility) ticker_data.

(** [pd.concat(all_results, ignore_index=True)]. *)
Definition pd_concat (frames : list (list bt_row)) : res (list bt_row) :=
  match frames with
  | [] => raise (ValueError "No objects to concatenate")
  | _ => ret (concat frames)
  end.

Definition backtest_strategy (data : list obs) (rsi_period : nat)
           (oversold overbought volatility : Q) : res (list bt_row) :=
  all_results <- mapM (backtest_ticker data rsi_period oversold overbought
                                       volatility)
                      (unique (map Ticker data)) ;;
  pd_concat all_results.
End Pricing.

(** The specification's reading of the pricer: the volatility it works
    with, and the clamp of a probability to [[lo, hi]]. *)
Definition effective_volatility (sigma : Q) : Q :=
  if Qlt_le_dec 0 sigma then sigma else 1 # 100.

Definition clamp (lo hi x : Q) : Q := Qmax lo (Qmin hi x).

(** A crude stand-in for the normal distribution function, for running the
    pricer on examples: the line through (0, 1/2) of slope 3/10, cut to
    [[0, 1]]. *)
Definition cdf_line (z : Q) : Q :=
  qmax 0 (if Qle_bool 1 ((1 # 2) + (3 # 10) * z) then 1
          else (1 # 2) + (3 # 10) * z).

(** The rows [backtest_results[backtest_results['signal'] != 0]]. *)
Definition traded (backtest_results : list bt_row) : list bt_row :=
  filter (fun r => negb (signal r =? 0)%Z) backtest_results.

(** The dictionary of [calculate_metrics], without [sharpe_ratio] (a
    square root of a variance, outside the rationals). *)
Record full_metrics := mkMetrics {
  total_trades : nat;
  winning_trades : nat;
  losing_trades : nat;
  win_rate : Q;
  total_pnl : xnum;
  avg_win : xnum;
  avg_loss : xnum;
  avg_entry_cost : xnum;
  total_capital : xnum;
  total_return_pct : xnum
}.

Inductive metrics :=
| NoTrades (total_trades : nat) (win_rate total_pnl : Q)
| Metrics (m : full_metrics).

Definition calculate_metrics (backtest_results : list bt_row) : metrics :=
  let trades := traded backtest_results in
  if (length trades =? 0)%nat then NoTrades 0 0 0
  else
    let wins := filter (fun r => xltb (Fin 0) (pnl r)) trades in
    let losses := filter (fun r => xltb (pnl r) (Fin 0)) trades in
    Metrics
      (mkMetrics
         (length trades) (length wins) (length losses)
         (inject_Z (Z.of_nat (length wins))
          / inject_Z (Z.of_nat (length trades)))
         (xsum (map pnl trades))
         (if (0 <? length wins)%nat then xmean (map pnl wins) else Fin 0)
         (if (0 <? length losses)%nat then xmean (map pnl losses) else Fin 0)
         (xmean (map entry_cost trades))
         (xsum (map entry_cost trades))
         (if xltb (Fin 0) (xsum (map entry_cost trades))
          then xmul (xdiv false (xsum (map pnl trades))
                                (xsum (map entry_cost trades)))
                    (Fin 100)
          else Fin 0)).

End Simplified.

(** ** backtest_results.py *)

Module Results.

Open Scope string_scope.

(** The body of a stored object. *)
Definition body : Type := string.

(** The blob store behind the S3 client: what [get_object] finds under a
    bucket and a key, if anything. *)
Definition s3_client : Type := string -> string -> option body.

(** The error of the client library for a key that is not in the store:
    its code, and the sentence the library makes of the code, the
    operation and the answer of the store. *)
Definition no_such_key : exn :=
  ClientError "NoSuchKey"
    "An error occurred (NoSuchKey) when calling the GetObject operation: The specified key does not exist.".

(** [s3_client.get_object(Bucket=bucket, Key=key)]: a missing key raises
    the client's error. *)
Definition get_object (s3 : s3_client) (bucket key : string) : res body :=
  match s3 bucket key with
  | Some b => ret b
  | None => raise no_such_key
  end.

(** [str(e)]. *)
Definition str_exn (e : exn) : string :=
  match e with
  | ZeroDivisionError => "division by zero"
  | ValueError msg => msg
  | ClientError code msg => msg
  | ParserError msg => msg
  | FileNotFoundError msg => msg
  end.

(** [try: ... except Exception as e: raise FileNotFoundError(f"Could not
    load {what} from {key}: {e}")]. *)
Definition or_not_found {A} (what key : string) (m : res A) : res A :=
  match m with
  | inl e =>
      raise (FileNotFoundError
               ("Could not load " ++ what ++ " from " ++ key ++ ": "
                ++ str_exn e))
  | inr a => ret a
  end.

Section Load.
(** Parsed tables and JSON values, and the decoding steps that follow
    [get_object] inside each [try] block ([pd.read_csv], [json.loads],
    the date conversions, the progress message); each may raise. *)
Variables frame json : Type.
Variable read_trades : body -> res frame.
Variable read_kpis : body -> res (list (string * json)).
Variable read_daily : body -> res frame.
(** [{}] and [datetime.now().isoformat()] as JSON values. *)
Variable empty_params : json.
Variable now_iso : json.

(** A value of the [kpis] dictionary after loading. *)
Inductive kpi_value :=
| JsonValue (j : json)
| FrameValue (f : frame).

Definition kpi_dict : Type := list (string * kpi_value).

(** [d[k] = v] and [d.pop(k, default)] on a dictionary kept in insertion
    order. *)
Fixpoint dict_set (k : string) (v : kpi_value) (d : kpi_dict) : kpi_dict :=
  match d with
  | [] => [(k, v)]
  | (k', v') :: t =>
      if String.eqb k' k then (k, v) :: t else (k', v') :: dict_set k v t
  end.

Fixpoint dict_pop (k : string) (default : kpi_value) (d : kpi_dict)
  : kpi_value * kpi_dict :=
  match d with
  | [] => (default, [])
  | (k', v') :: t =>
      if String.eqb k' k then (v', t)
      else let '(v, t') := dict_pop k default t in (v, (k', v') :: t')
  end.

Record BacktestResults := mkResults {
  trades : frame;
  kpis : kpi_dict;
  daily_metrics : frame;
  strategy_params : kpi_value;
  generated_at : kpi_value
}.

Definition load_from_s3 (s3 : s3_client) (bucket : string)
           (date : option string) (prefix : string) : res BacktestResults :=
  let folder :=
    match date with
    | Some d => if String.eqb d "" then "latest" else d
    | None => "latest"
    end in
  let folder_path := prefix ++ "/" ++ folder in
  let trades_key := folder_path ++ "/trades.csv" in
  trades <- or_not_found "trades" trades_key
              (obj <- get_object s3 bucket trades_key ;; read_trades obj) ;;
  let kpi_key := folder_path ++ "/kpi_summary.json" in
  kpis <- or_not_found "KPIs" kpi_key
            (obj <- get_object s3 bucket kpi_key ;; read_kpis obj) ;;
  let daily_key := folder_path ++ "/daily_metrics.csv" in
  daily_metrics <- or_not_found "daily metrics" daily_key
                     (obj <- get_object s3 bucket daily_key ;;
                      read_daily obj) ;;
  let kpis := dict_set "daily_data" (FrameValue daily_metrics)
                       (map (fun kv => (fst kv, JsonValue (snd kv))) kpis) in
  let '(strategy_params, kpis) :=
    dict_pop "strategy_params" (JsonValue empty_params) kpis in
  let '(generated_at, kpis) :=
    dict_pop "generated_at" (JsonValue now_iso) kpis in
  ret (mkResults trades kpis daily_metrics strategy_params generated_at).

(** The three keys of a saved run. *)
Definition run_folder (date : option string) (prefix : string) : string :=
  prefix ++ "/" ++ match date with
                   | Some d => if String.eqb d "" then "latest" else d
                   | None => "latest"
                   end.
End Load.

End Results.

(** ** Trends of a price series *)

(** Each price above (below) the one before. *)
Definition rising (prices : list Q) : Prop :=
  forall j a b, nth_error prices j = Some a ->
                nth_error prices (S j) = Some b -> a < b.

Definition falling (prices : list Q) : Prop :=
  forall j a b, nth_error prices j = Some a ->
                nth_error prices (S j) = Some b -> b < a.

(** ** Rows of a finished backtest *)

(** A traded row: a signal, and a finite pnl that is a gain of 0.50 to 9.50
    when the row settled in the money and a loss of 0.50 to 9.50
    otherwise. *)
Definition settled (b : Simplified.bt_row) : Prop :=
  Simplified.signal b <> 0%Z
  /\ exists w, Simplified.pnl b = Fin w
               /\ ((Simplified.InTheMoney (Simplified.row b) = 1%Z
                    /\ 1 # 2 <= w <= 19 # 2)
                   \/ (Simplified.InTheMoney (Simplified.row b) <> 1%Z
                       /\ - (19 # 2) <= w <= - (1 # 2))).

(** A row left as the signal stage made it: no signal, no price. *)
Definition held (b : Simplified.bt_row) : Prop :=
  Simplified.signal b = 0%Z /\ Simplified.entry_cost b = NaN
  /\ Simplified.probability_itm b = NaN /\ Simplified.pnl b = NaN.

(** ** backtest_results.py: saving, and loading from local files *)

Module Persist.
Import Results.

Open Scope string_scope.

(** [s3_client.put_object(Bucket=bucket, Key=key, Body=b, ...)]: the object
    under that bucket and key is replaced. *)
Definition put_object (s3 : s3_client) (bucket key : string) (b : body)
  : s3_client :=
  fun bucket' key' =>
    if String.eqb bucket' bucket && String.eqb key' key then Some b
    else s3 bucket' key'.

(** [saved_uris[k] = uri] on a dictionary of strings. *)
Fixpoint uris_set (k uri : string) (d : list (string * string))
  : list (string * string) :=
  match d with
  | [] => [(k, uri)]
  | (k', u') :: t =>
      if String.eqb k' k then (k, uri) :: t else (k', u') :: uris_set k uri t
  end.

(** [d.get(k)] on a dictionary with string keys. *)
Fixpoint dict_get {V} (k : string) (d : list (string * V)) : option V :=
  match d with
  | [] => None
  | (k', v) :: t => if String.eqb k' k then Some v else dict_get k t
  end.

(** Whether the string [b] ends with [a]. *)
Fixpoint ends_with (a b : string) : bool :=
  String.eqb a b
  || match b with
     | EmptyString => false
     | String _ b' => ends_with a b'
     end.

(** The three object names of a saved run. *)
Definition artifact_names : list string :=
  ["/trades.csv"; "/kpi_summary.json"; "/daily_metrics.csv"].

Section Save.
Variables frame json : Type.
(** [DataFrame.to_csv(index=False)] and [json.dumps(..., indent=2,
    default=str)]. *)
Variable to_csv : frame -> body.
Variable json_dumps : kpi_dict frame json -> body.
(** [strftime('%Y-%m-%d')] on a value that has the method; a value that
    does not have it is left alone. *)
Variable format_date : json -> json.
(** [datetime.now().strftime('%Y-%m-%d')]. *)
Variable today : string.

(** [del d[k]] and an update of the value under a key that is present. *)
Fixpoint dict_del (k : string) (d : kpi_dict frame json)
  : kpi_dict frame json :=
  match d with
  | [] => []
  | (k', v) :: t => if String.eqb k' k then t else (k', v) :: dict_del k t
  end.

Fixpoint dict_adjust (k : string)
         (f : kpi_value frame json -> kpi_value frame json)
         (d : kpi_dict frame json) : kpi_dict frame json :=
  match d with
  | [] => []
  | (k', v) :: t =>
      if String.eqb k' k then (k', f v) :: t else (k', v) :: dict_adjust k f t
  end.

(** A table has no [strftime]. *)
Definition strftime_value (v : kpi_value frame json) : kpi_value frame json :=
  match v with
  | JsonValue _ _ j => JsonValue frame json (format_date j)
  | FrameValue _ _ f => FrameValue frame json f
  end.

(** [_prepare_kpis_for_json]. *)
Definition prepare_kpis_for_json (self : BacktestResults frame json)
  : kpi_dict frame json :=
  let kpis := kpis frame json self in
  let kpis := dict_adjust "date_start" strftime_value kpis in
  let kpis := dict_adjust "date_end" strftime_value kpis in
  let kpis := dict_del "daily_data" kpis in
  let kpis := dict_set frame json "generated_at"
                       (generated_at frame json self) kpis in
  dict_set frame json "strategy_params" (strategy_params frame json self) kpis.

(** The body of the loop of [save_to_s3] over the folders. *)
Definition save_folder (self : BacktestResults frame json) (bucket : string)
           (kpis_serializable : kpi_dict frame json)
           (st : s3_client * list (string * string)) (folder_path : string)
  : s3_client * list (string * string) :=
  let s3 := fst st in
  let saved_uris := snd st in
  let trades_key := folder_path ++ "/trades.csv" in
  let s3 := put_object s3 bucket trades_key (to_csv (trades frame json self)) in
  let saved_uris := uris_set ("trades_" ++ folder_path)
                             ("s3://" ++ bucket ++ "/" ++ trades_key)
                             saved_uris in
  let kpi_key := folder_path ++ "/kpi_summary.json" in
  let s3 := put_object s3 bucket kpi_key (json_dumps kpis_serializable) in
  let saved_uris := uris_set ("kpis_" ++ folder_path)
                             ("s3://" ++ bucket ++ "/" ++ kpi_key)
                             saved_uris in
  let daily_key := folder_path ++ "/daily_metrics.csv" in
  let s3 := put_object s3 bucket daily_key
                       (to_csv (daily_metrics frame json self)) in
  let saved_uris := uris_set ("daily_" ++ folder_path)
                             ("s3://" ++ bucket ++ "/" ++ daily_key)
                             saved_uris in
  (s3, saved_uris).

(** The keys of the dictionary [paths]: the dated folder, then the
    [latest] folder unless it is the same key. *)
Definition save_paths (date prefix : string) (save_latest : bool)
  : list string :=
  (prefix ++ "/" ++ date)
    :: (if save_latest
        then if String.eqb (prefix ++ "/latest") (prefix ++ "/" ++ date)
             then [] else [prefix ++ "/latest"]
        else []).

(** [save_to_s3]: the store after the call, and the dictionary of URIs it
    returns. *)
Definition save_to_s3 (self : BacktestResults frame json) (s3 : s3_client)
           (bucket : string) (date : option string) (prefix : string)
           (save_latest : bool) : s3_client * list (string * string) :=
  let date := match date with None => today | Some d => d end in
  let kpis_serializable := prepare_kpis_for_json self in
  fold_left (save_folder self bucket kpis_serializable)
            (save_paths date prefix save_latest) (s3, []).

(** The store holds the three artifacts of [self] under a folder. *)
Definition holds_run (self : BacktestResults frame json) (s3 : s3_client)
           (bucket folder_path : string) : Prop :=
  s3 bucket (folder_path ++ "/trades.csv")
  = Some (to_csv (trades frame json self))
  /\ s3 bucket (folder_path ++ "/kpi_summary.json")
     = Some (json_dumps (prepare_kpis_for_json self))
  /\ s3 bucket (folder_path ++ "/daily_metrics.csv")
     = Some (to_csv (daily_metrics frame json self)).
End Save.

(** The local file system: what is found under a path. *)
Definition files : Type := string -> option body.

Section Local.
Variables frame json : Type.
(** [pd.read_csv] with the date conversion, and [json.load] with the date
    conversions, on the content of a file. *)
Variable read_trades : body -> res frame.
Variable read_kpis : body -> res (list (string * json)).
Variable read_daily : body -> res frame.
Variable empty_params : json.
Variable now_iso : json.
(** [Path(input_dir) / name], and the text of the error for a path that
    does not exist. *)
Variable path_join : string -> string -> string.
Variable no_such_file : string -> string.

(** Opening a path for reading. *)
Definition read_file (fs : files) (path : string) : res body :=
  match fs path with
  | Some b => ret b
  | None => raise (FileNotFoundError (no_such_file path))
  end.

Definition load_local (fs : files) (input_dir : string)
  : res (BacktestResults frame json) :=
  trades <- (obj <- read_file fs (path_join input_dir "trades.csv") ;;
             read_trades obj) ;;
  kpis <- (obj <- read_file fs (path_join input_dir "kpi_summary.json") ;;
           read_kpis obj) ;;
  daily_metrics <- (obj <- read_file fs
                                     (path_join input_dir "daily_metrics.csv") ;;
                    read_daily obj) ;;
  let kpis := dict_set frame json "daily_data"
                       (FrameValue frame json daily_metrics)
                       (map (fun kv => (fst kv, JsonValue frame json (snd kv)))
                            kpis) in
  let '(strategy_params, kpis) :=
    dict_pop frame json "strategy_params"
             (JsonValue frame json empty_params) kpis in
  let '(generated_at, kpis) :=
    dict_pop frame json "generated_at" (JsonValue frame json now_iso) kpis in
  ret (mkResults frame json trades kpis daily_metrics strategy_params
                 generated_at).
End Local.

End Persist.

(** ** kpi_html_generator.py *)

Module Dashboard.

Open Scope string_scope.

(** The keyword arguments handed to [template.render]. *)
Record context := mkContext {
  win_rate : Q;
  total_trades : nat;
  wins : nat;
  losses : nat;
  gross_pnl : Q;
  commissions : Q;
  net_pnl : Q;
  max_drawdown : Q;
  max_drawdown_pct : Q;
  recovery_days : Z;
  date_start : string;
  date_end : string;
  generated_time : string;
  win_rate_class : string;
  net_pnl_class : string;
  gross_pnl_class : string;
  dates_json : string;
  cumulative_pnl_json : string;
  drawdown_json : string;
  commission_per_contract : Q
}.

Section Render.
(** Jinja2: a loaded template, [env.get_template] for a directory and a
    name (it raises when there is no such template) and
    [template.render]. *)
Variable template : Type.
Variable get_template : string -> string -> res template.
Variable render : template -> context -> res string.
(** [get_template_path()] as a string. *)
Variable default_template_dir : string.
(** [json.dumps] of a list of strings and of a list of floats,
    [Series.round(2)] on one cell, the two [strftime] formats
    ['%Y-%m-%d'] and ['%b %d, %Y'], and the formatted current time. *)
Variable dumps_strings : list string -> string.
Variable dumps_floats : list Q -> string.
Variable round2 : Q -> Q.
Variable strftime_iso : Z -> string.
Variable strftime_long : Z -> string.
Variable now_str : string.

Definition css_class (good : bool) : string :=
  if good then "positive" else "negative".

(** [generate_html_dashboard] on the dictionary [calculate_kpis] returns
    (every key is present, so no default of [kpis.get] is used). *)
Definition generate_html_dashboard (kpis : Kpi.kpis)
           (commission_per_contract : Q) (template_name : string)
           (template_dir : option string) : res string :=
  let template_dir :=
    match template_dir with
    | None => default_template_dir
    | Some d => d
    end in
  template <- get_template template_dir template_name ;;
  let daily_data := Kpi.daily_data kpis in
  let series :=
    match daily_data with
    | [] => ("[]", "[]", "[]")
    | _ =>
        (dumps_strings (map (fun r => strftime_iso (Kpi.d_Date r)) daily_data),
         dumps_floats (map (fun r => round2 (Kpi.cumulative_pnl r))
                           daily_data),
         dumps_floats (map (fun r => round2 (Kpi.drawdown r)) daily_data))
    end in
  let date_start_str :=
    match Kpi.date_start kpis with
    | Some d => strftime_long d
    | None => "N/A"
    end in
  let date_end_str :=
    match Kpi.date_end kpis with
    | Some d => strftime_long d
    | None => "N/A"
    end in
  let win_rate := Kpi.win_rate kpis in
  let net_pnl := Kpi.net_pnl kpis in
  let gross_pnl := Kpi.gross_pnl kpis in
  let win_rate_class := css_class (Qle_bool (1 # 2) win_rate) in
  let net_pnl_class := css_class (Qle_bool 0 net_pnl) in
  let gross_pnl_class := css_class (Qle_bool 0 gross_pnl) in
  render template
         (mkContext win_rate (Kpi.total_trades kpis) (Kpi.wins kpis)
                    (Kpi.losses kpis) gross_pnl (Kpi.commissions kpis)
                    net_pnl (Kpi.max_drawdown kpis)
                    (Kpi.max_drawdown_pct kpis) (Kpi.recovery_days kpis)
                    date_start_str date_end_str now_str
                    win_rate_class net_pnl_class gross_pnl_class
                    (fst (fst series)) (snd (fst series)) (snd series)
                    commission_per_contract).
End Render.

End Dashboard.

(** ** More sample inputs *)

Module MoreSamples.

Open Scope string_scope.

(** One instrument, three dates, rising and falling. *)
Definition rising_data : list Simplified.obs :=
  [ Simplified.mkObs "A" 1 100 100 1 None;
    Simplified.mkObs "A" 2 101 100 1 None;
    Simplified.mkObs "A" 3 102 100 0 None ].

Definition falling_data : list Simplified.obs :=
  [ Simplified.mkObs "A" 1 102 100 1 None;
    Simplified.mkObs "A" 2 101 100 1 None;
    Simplified.mkObs "A" 3 100 100 0 None ].

(** A row with a SELL signal that has not been priced yet. *)
Definition signalled : Simplified.bt_row :=
  Simplified.mkBt (Simplified.mkObs "A" 2 102 100 1 None)
                  (Fin 100) (-1) NaN NaN NaN.

(** A store with an object under every key, and a container of strings. *)
Definition full_store : Results.s3_client := fun _ _ => Some "body".

Definition container : Results.BacktestResults string string :=
  Results.mkResults string string "trades"
                    [("win_rate", Results.JsonValue string string "0.5")]
                    "daily"
                    (Results.JsonValue string string "{}")
                    (Results.JsonValue string string "2024-01-01T00:00:00").

Definition text_of (v : Results.kpi_value string string) : string :=
  match v with
  | Results.JsonValue _ _ j => j
  | Results.FrameValue _ _ f => f
  end.

(** Decoders that read a table back as its text and the summary of
    [container] back as its entries. *)
Definition read_table (b : Results.body) : res string := ret b.

Definition read_summary (b : Results.body) : res (list (string * string)) :=
  ret (map (fun kv => (fst kv, text_of (snd kv)))
           (Persist.prepare_kpis_for_json string string (fun j => j)
                                          container)).

End MoreSamples.

(** ** Sample inputs *)

Module Samples.

Open Scope string_scope.

(** Three trades on two dates, one of them with a pnl of exactly 0. *)
Definition trades : list Kpi.trade :=
  [ Kpi.mkTrade 1 5 5 1; Kpi.mkTrade 1 0 5 0; Kpi.mkTrade 2 (-5) 5 0 ].

(** Two tickers, several strikes on the same date. *)
Definition raw_data : list Simplified.obs :=
  [ Simplified.mkObs "B" 1 100 105 1 None;
    Simplified.mkObs "A" 2 100 101 0 None;
    Simplified.mkObs "A" 1 100 99 0 None;
    Simplified.mkObs "A" 2 100 100 1 None;
    Simplified.mkObs "B" 1 100 95 0 None;
    Simplified.mkObs "A" 1 100 90 1 None ].

(** A backtest frame with one traded row that breaks even. *)
Definition break_even : Simplified.bt_row :=
  Simplified.mkBt (Simplified.mkObs "A" 2 100 100 1 None)
                  (Fin 20) 1 (Fin 5) (Fin (1 # 2)) (Fin 0).

Definition backtest_results : list Simplified.bt_row :=
  [ Simplified.mkBt (Simplified.mkObs "A" 1 100 99 0 None)
                    NaN 0 NaN NaN NaN;
    break_even;
    Simplified.mkBt (Simplified.mkObs "A" 3 100 101 1 None)
                    (Fin 80) (-1) (Fin 4) (Fin (4 # 10)) (Fin 6) ].

(** A store that holds the trade log of the latest run and nothing else;
    decoders that accept any body. *)
Definition store : Results.s3_client :=
  fun bucket key =>
    if String.eqb key "backtest/results/latest/trades.csv"
    then Some "Date,pnl" else None.

Definition read_csv (b : Results.body) : res string := ret b.

Definition read_json (b : Results.body) : res (list (string * string)) :=
  ret [].

End Samples.

(** * Properties *)

(** ** Rational comparisons *)

Lemma Qltb_lt (x y : Q) : Qltb x y = true <-> x < y.
Proof.
  unfold Qltb. rewrite negb_true_iff.
  split; intro H.
  - apply Qnot_le_lt. intro L. apply Qle_bool_iff in L. congruence.
  - destruct (Qle_bool y x) eqn:E; [|reflexivity].
    apply Qle_bool_iff in E. exfalso. apply (Qlt_not_le _ _ H E).
Qed.

Lemma Qltb_ge (x y : Q) : Qltb x y = false <-> y <= x.
Proof.
  unfold Qltb. rewrite negb_false_iff. apply Qle_bool_iff.
Qed.

Lemma Qle_bool_gt (x y : Q) : Qle_bool x y = false <-> y < x.
Proof.
  rewrite <- Qltb_lt. unfold Qltb. rewrite negb_true_iff. tauto.
Qed.

Lemma qmax_ub_l (a b : Q) : a <= qmax a b.
Proof.
  unfold qmax. destruct (Qle_bool a b) eqn:E.
  - now apply Qle_bool_iff.
  - apply Qle_refl.
Qed.

Lemma qmax_ub_r (a b : Q) : b <= qmax a b.
Proof.
  unfold qmax. destruct (Qle_bool a b) eqn:E.
  - apply Qle_refl.
  - apply Qle_bool_gt in E. now apply Qlt_le_weak.
Qed.

Lemma qmax_either (a b : Q) : qmax a b = a \/ qmax a b = b.
Proof. unfold qmax. destruct (Qle_bool a b); auto. Qed.

(** ** Columns *)

Lemma argmin_none (l : list Q) : argmin l = None -> l = [].
Proof.
  destruct l as [|x t]; [reflexivity|]. simpl.
  destruct (argmin t) as [[j m]|]; [destruct (Qle_bool x m)|]; discriminate.
Qed.

(** The value [argmin] returns sits at the position it returns, bounds the
    column from below, and is not reached before that position. *)
Lemma argmin_spec (l : list Q) (i : nat) (m : Q) :
  argmin l = Some (i, m) ->
  nth_error l i = Some m
  /\ (forall x, In x l -> m <= x)
  /\ (forall j y, (j < i)%nat -> nth_error l j = Some y -> m < y).
Proof.
  revert i m. induction l as [|x t IH]; intros i m H; [discriminate|].
  simpl in H. destruct (argmin t) as [[j m']|] eqn:E.
  - destruct (IH j m' eq_refl) as (Hn & Hlb & Hfirst).
    destruct (Qle_bool x m') eqn:L; inversion H; subst; clear H.
    + apply Qle_bool_iff in L. repeat split.
      * intros y [->|Hy]; [apply Qle_refl|].
        eapply Qle_trans; [exact L|]. now apply Hlb.
      * intros ? ? Hj. lia.
    + apply Qle_bool_gt in L. repeat split.
      * exact Hn.
      * intros y [->|Hy]; [now apply Qlt_le_weak|]. now apply Hlb.
      * intros [|j'] y Hj Hy; simpl in Hy.
        -- now inversion Hy; subst.
        -- apply (Hfirst j' y); [lia|exact Hy].
  - apply argmin_none in E. subst t. inversion H; subst. repeat split.
    + intros y [->|[]]. apply Qle_refl.
    + intros ? ? Hj. lia.
Qed.

Lemma cumsum_from_length (a : Q) (l : list Q) :
  length (cumsum_from a l) = length l.
Proof. revert a; induction l; intros; simpl; auto. Qed.

Lemma cumsum_length (l : list Q) : length (cumsum l) = length l.
Proof. destruct l; simpl; auto using cumsum_from_length. Qed.

Lemma cummax_from_length (a : Q) (l : list Q) :
  length (cummax_from a l) = length l.
Proof. revert a; induction l; intros; simpl; auto. Qed.

Lemma cummax_length (l : list Q) : length (cummax l) = length l.
Proof. destruct l; simpl; auto using cummax_from_length. Qed.

Lemma col_sub_length (a b : list Q) :
  length a = length b -> length (col_sub a b) = length a.
Proof.
  revert b; induction a as [|x a IH]; intros [|y b] H; simpl in *;
    try discriminate; auto.
Qed.

Lemma col_sub_nth (a b : list Q) (i : nat) (x y : Q) :
  nth_error a i = Some x -> nth_error b i = Some y ->
  nth_error (col_sub a b) i = Some (x - y).
Proof.
  revert b i. induction a as [|x0 a IH]; intros [|y0 b] [|i] Ha Hb;
    simpl in *; try discriminate.
  - now inversion Ha; inversion Hb; subst.
  - now apply IH.
Qed.

(** A cell of [cummax_from m l] dominates the seed and the cells of [l] up
    to its position, and is one of them. *)
Lemma cummax_from_spec (l : list Q) (m0 : Q) (i : nat) (m : Q) :
  nth_error (cummax_from m0 l) i = Some m ->
  m0 <= m
  /\ (forall j y, (j <= i)%nat -> nth_error l j = Some y -> y <= m)
  /\ (m = m0 \/ exists j, (j <= i)%nat /\ nth_error l j = Some m).
Proof.
  revert m0 i m. induction l as [|x t IH]; intros m0 i m H.
  - destruct i; discriminate.
  - destruct i as [|i]; simpl in H.
    + inversion H; subst; clear H. repeat split.
      * apply qmax_ub_l.
      * intros [|j] y Hj Hy; [|lia]. simpl in Hy. inversion Hy; subst.
        apply qmax_ub_r.
      * destruct (qmax_either m0 x) as [->| ->]; [now left|].
        right. exists O. split; [lia|reflexivity].
    + destruct (IH _ _ _ H) as (Hlb & Hub & Hin). repeat split.
      * eapply Qle_trans; [apply qmax_ub_l|exact Hlb].
      * intros [|j] y Hj Hy; simpl in Hy.
        -- inversion Hy; subst.
           eapply Qle_trans; [apply qmax_ub_r|exact Hlb].
        -- apply (Hub j); [lia|exact Hy].
      * destruct Hin as [->|(j & Hj & Hy)].
        -- destruct (qmax_either m0 x) as [->| ->]; [now left|].
           right. exists O. split; [lia|reflexivity].
        -- right. exists (S j). split; [lia|exact Hy].
Qed.

Lemma cummax_spec (l : list Q) (i : nat) (m : Q) :
  nth_error (cummax l) i = Some m ->
  (forall j y, (j <= i)%nat -> nth_error l j = Some y -> y <= m)
  /\ (exists j, (j <= i)%nat /\ nth_error l j = Some m).
Proof.
  destruct l as [|x t]; [destruct i; discriminate|].
  destruct i as [|i]; simpl; intro H.
  - inversion H; subst. split.
    + intros [|j] y Hj Hy; [|lia]. simpl in Hy. inversion Hy. apply Qle_refl.
    + exists O. split; [lia|reflexivity].
  - destruct (cummax_from_spec _ _ _ _ H) as (Hlb & Hub & Hin). split.
    + intros [|j] y Hj Hy; simpl in Hy.
      * now inversion Hy; subst.
      * apply (Hub j); [lia|exact Hy].
    + destruct Hin as [->|(j & Hj & Hy)].
      * exists O. split; [lia|reflexivity].
      * exists (S j). split; [lia|exact Hy].
Qed.



(** ** Group keys *)

Section GroupKeysFacts.
Context {K : Type} (cmp : K -> K -> comparison).
Hypothesis cmp_eq : forall a b, cmp a b = Eq -> a = b.
Hypothesis cmp_refl : forall a, cmp a a = Eq.
Hypothesis cmp_antisym : forall a b, cmp a b = CompOpp (cmp b a).
Hypothesis cmp_trans :
  forall a b c, cmp a b = Lt -> cmp b c = Lt -> cmp a c = Lt.

Lemma insert_key_nonempty (d : K) (l : list K) : insert_key cmp d l <> [].
Proof. destruct l; simpl; [|destruct (cmp d k)]; discriminate. Qed.

Lemma group_keys_nonempty (l : list K) : l <> [] -> group_keys cmp l <> [].
Proof. destruct l; [congruence|]. intros _. apply insert_key_nonempty. Qed.

Lemma insert_key_In (d x : K) (l : list K) :
  In x (insert_key cmp d l) <-> x = d \/ In x l.
Proof.
  induction l as [|h t IH]; simpl.
  - intuition.
  - destruct (cmp d h) eqn:E; simpl.
    + apply cmp_eq in E. subst. intuition.
    + intuition.
    + rewrite IH. intuition.
Qed.

Lemma group_keys_In (x : K) (l : list K) :
  In x (group_keys cmp l) <-> In x l.
Proof.
  induction l as [|h t IH]; simpl; [tauto|].
  rewrite insert_key_In, IH. intuition.
Qed.

Lemma insert_key_sorted (d : K) (l : list K) :
  StronglySorted (key_lt cmp) l -> StronglySorted (key_lt cmp) (insert_key cmp d l).
Proof.
  induction 1 as [|h t Hs IH Hh]; simpl.
  - repeat constructor.
  - destruct (cmp d h) eqn:E.
    + now constructor.
    + constructor; [now constructor|].
      constructor; [exact E|].
      rewrite Forall_forall in *. intros x Hx.
      eapply cmp_trans; [exact E|]. now apply Hh.
    + constructor; [exact IH|].
      rewrite Forall_forall in *. intros x Hx.
      apply insert_key_In in Hx. destruct Hx as [->|Hx]; [|now apply Hh].
      unfold key_lt. rewrite cmp_antisym, E. reflexivity.
Qed.

Lemma group_keys_sorted (l : list K) : StronglySorted (key_lt cmp) (group_keys cmp l).
Proof.
  induction l; simpl; [constructor|]. now apply insert_key_sorted.
Qed.

(** Keys already in strictly increasing order are left as they are. *)
Lemma group_keys_fixed (l : list K) :
  StronglySorted (key_lt cmp) l -> group_keys cmp l = l.
Proof.
  induction 1 as [|h t Hs IH Hh]; simpl; [reflexivity|].
  fold (group_keys cmp t). rewrite IH.
  destruct t as [|h' t']; [reflexivity|]. simpl.
  inversion Hh; subst. unfold key_lt in *.
  now match goal with H : cmp h h' = Lt |- _ => rewrite H end.
Qed.

Lemma sorted_NoDup (l : list K) : StronglySorted (key_lt cmp) l -> NoDup l.
Proof.
  induction 1 as [|h t Hs IH Hh]; constructor; [|exact IH].
  intro Hin. rewrite Forall_forall in Hh. specialize (Hh _ Hin).
  unfold key_lt in Hh. rewrite cmp_refl in Hh. discriminate.
Qed.
End GroupKeysFacts.

Lemma Z_group_keys_nonempty (l : list Z) :
  l <> [] -> group_keys Z.compare l <> [].
Proof. apply group_keys_nonempty. Qed.

Lemma Z_group_keys_sorted (l : list Z) :
  StronglySorted Z.lt (group_keys Z.compare l).
Proof.
  apply (group_keys_sorted Z.compare).
  - intros a b. apply Z.compare_eq.
  - intros a b. apply Z.compare_antisym.
  - intros a b c. rewrite !Z.compare_lt_iff. lia.
Qed.

Lemma counts_filter {A} (P : A -> Prop) (f : A -> bool) (l : list A) :
  (forall a, f a = true <-> P a) ->
  counts P l (length (filter f l)).
Proof.
  intro Hf. induction l as [|a l IH]; simpl; [constructor|].
  destruct (f a) eqn:E; simpl.
  - apply counts_in; [now apply Hf|exact IH].
  - apply counts_out; [|exact IH]. intro Pa. apply Hf in Pa. congruence.
Qed.

(** ** kpi_calculator.py: the daily table *)

Module KpiFacts.
Import Kpi.

Lemma daily_rows_nth (g : list (Z * Q * Q)) (cum rmax dd : list Q)
      (i : nat) (r : daily_row) :
  nth_error (daily_rows g cum rmax dd) i = Some r ->
  nth_error g i = Some (d_Date r, d_pnl r, d_entry_cost r)
  /\ nth_error cum i = Some (cumulative_pnl r)
  /\ nth_error rmax i = Some (running_max r)
  /\ nth_error dd i = Some (drawdown r).
Proof.
  revert cum rmax dd i.
  induction g as [|[[d p] e] g IH]; intros [|c cum] [|m rmax] [|x dd] i H;
    simpl in H; try (destruct i; discriminate).
  destruct i as [|i]; simpl in *.
  - inversion H; subst; simpl. auto.
  - now apply IH.
Qed.

Lemma daily_rows_length (g : list (Z * Q * Q)) (cum rmax dd : list Q) :
  length cum = length g -> length rmax = length g -> length dd = length g ->
  length (daily_rows g cum rmax dd) = length g.
Proof.
  revert cum rmax dd.
  induction g as [|[[d p] e] g IH]; intros [|c cum] [|m rmax] [|x dd];
    simpl; intros; try discriminate; auto.
Qed.

Lemma daily_rows_cum (g : list (Z * Q * Q)) (cum rmax dd : list Q) :
  length cum = length g -> length rmax = length g -> length dd = length g ->
  map cumulative_pnl (daily_rows g cum rmax dd) = cum.
Proof.
  revert cum rmax dd.
  induction g as [|[[d p] e] g IH]; intros [|c cum] [|m rmax] [|x dd];
    simpl; intros; try discriminate; auto.
  f_equal. apply IH; congruence.
Qed.

Lemma sort_values_date_fixed (l : list (Z * Q * Q)) :
  StronglySorted Z.lt (map (fun r => fst (fst r)) l) ->
  sort_values_date l = l.
Proof.
  induction l as [|a l IH]; simpl; intro H; [reflexivity|].
  inversion H as [|? ? Hs Hh]; subst.
  fold (sort_values_date l). rewrite IH by exact Hs.
  destruct l as [|h l']; [reflexivity|]. simpl.
  inversion Hh as [|? ? Hah _]; subst.
  assert (E : (fst (fst a) <=? fst (fst h))%Z = true)
    by (apply Z.leb_le; lia).
  now rewrite E.
Qed.

(** The groups come out of [groupby] in date order, so the sort that
    follows leaves the table as it is. *)
Lemma trades_by_date_eq (trades : list trade) :
  trades_by_date trades
  = daily_rows (groupby_date trades)
               (cumsum (map (fun r => snd (fst r)) (groupby_date trades)))
               (cummax
                  (cumsum (map (fun r => snd (fst r)) (groupby_date trades))))
               (col_sub
                  (cumsum (map (fun r => snd (fst r)) (groupby_date trades)))
                  (cummax
                     (cumsum (map (fun r => snd (fst r))
                                  (groupby_date trades))))).
Proof.
  unfold trades_by_date. rewrite sort_values_date_fixed; [reflexivity|].
  unfold groupby_date. rewrite map_map. simpl. rewrite map_id.
  apply Z_group_keys_sorted.
Qed.

Lemma trades_by_date_length (trades : list trade) :
  length (trades_by_date trades)
  = length (group_keys Z.compare (map Date trades)).
Proof.
  rewrite trades_by_date_eq.
  set (g := groupby_date trades).
  assert (Hg : length g = length (group_keys Z.compare (map Date trades)))
    by (unfold g, groupby_date; apply length_map).
  rewrite <- Hg.
  assert (Hc : length (cumsum (map (fun r => snd (fst r)) g)) = length g)
    by (rewrite cumsum_length; apply length_map).
  apply daily_rows_length.
  - exact Hc.
  - now rewrite cummax_length.
  - rewrite col_sub_length; [exact Hc|]. now rewrite cummax_length.
Qed.

Lemma trades_by_date_nonempty (trades : list trade) :
  trades <> [] -> trades_by_date trades <> [].
Proof.
  intros H E. apply (f_equal (@length _)) in E.
  rewrite trades_by_date_length in E.
  destruct trades as [|t ts]; [congruence|].
  apply (Z_group_keys_nonempty (map Date (t :: ts))); [discriminate|].
  now apply length_zero_iff_nil.
Qed.

(** The columns of a row of the daily table, read against the column
    operations that produced them. *)
Lemma trades_by_date_row (trades : list trade) (i : nat) (r : daily_row) :
  nth_error (trades_by_date trades) i = Some r ->
  let cum := map cumulative_pnl (trades_by_date trades) in
  nth_error cum i = Some (cumulative_pnl r)
  /\ nth_error (cummax cum) i = Some (running_max r)
  /\ drawdown r = cumulative_pnl r - running_max r.
Proof.
  intros H cum.
  assert (Hcum : cum = cumsum (map (fun r => snd (fst r))
                                   (groupby_date trades))).
  { unfold cum. rewrite trades_by_date_eq.
    set (g := groupby_date trades).
    set (c := cumsum (map (fun r => snd (fst r)) g)).
    assert (Hc : length c = length g)
      by (unfold c; rewrite cumsum_length; apply length_map).
    assert (Hm : length (cummax c) = length g)
      by now rewrite cummax_length.
    assert (Hd : length (col_sub c (cummax c)) = length g)
      by (rewrite col_sub_length; [exact Hc|now rewrite cummax_length]).
    now apply daily_rows_cum. }
  rewrite trades_by_date_eq in H. apply daily_rows_nth in H.
  destruct H as (_ & Hc & Hm & Hd).
  rewrite Hcum. repeat split; auto.
  pose proof (col_sub_nth _ _ _ _ _ Hc Hm) as Hd'.
  congruence.
Qed.


Lemma wins_eq (trades : list trade) (c : Q) :
  wins (calculate_kpis trades c)
  = length (filter (fun t => Qltb 0 (pnl t)) trades).
Proof. destruct trades; reflexivity. Qed.

Lemma losses_eq (trades : list trade) (c : Q) :
  losses (calculate_kpis trades c)
  = length (filter (fun t => Qle_bool (pnl t) 0) trades).
Proof. destruct trades; reflexivity. Qed.

Lemma total_trades_eq (trades : list trade) (c : Q) :
  total_trades (calculate_kpis trades c) = length trades.
Proof. destruct trades; reflexivity. Qed.

Lemma win_or_loss (l : list trade) :
  (length (filter (fun t => Qltb 0 (pnl t)) l)
   + length (filter (fun t => Qle_bool (pnl t) 0) l) = length l)%nat.
Proof.
  induction l as [|t l IH]; simpl; [reflexivity|].
  unfold Qltb at 1. destruct (Qle_bool (pnl t) 0); simpl; lia.
Qed.

(** C1: on a non-empty trade set, [wins] counts the trades with
    [pnl > 0], [losses] those with [pnl <= 0], the two add up to
    [total_trades], [win_rate] is [wins / total_trades], and a trade whose
    pnl is exactly 0 adds one to [losses] and nothing to [wins]. *)
Theorem calculate_kpis_zero_pnl_is_loss (trades : list trade) (c : Q) :
  trades <> [] ->
  let k := calculate_kpis trades c in
  counts (fun t => 0 < pnl t) trades (wins k)
  /\ counts (fun t => pnl t <= 0) trades (losses k)
  /\ total_trades k = length trades
  /\ (wins k + losses k = total_trades k)%nat
  /\ win_rate k
     == inject_Z (Z.of_nat (wins k)) / inject_Z (Z.of_nat (total_trades k))
  /\ (forall l1 t l2,
         trades = l1 ++ t :: l2 -> pnl t == 0 ->
         wins k = wins (calculate_kpis (l1 ++ l2) c)
         /\ losses k = S (losses (calculate_kpis (l1 ++ l2) c))).
Proof.
  intros Hne k. unfold k.
  rewrite wins_eq, losses_eq, total_trades_eq.
  split; [|split; [|split; [|split; [|split]]]].
  - apply counts_filter. intro t. apply Qltb_lt.
  - apply counts_filter. intro t. apply Qle_bool_iff.
  - reflexivity.
  - apply win_or_loss.
  - destruct trades as [|t0 rest]; [congruence|]. reflexivity.
  - intros l1 t l2 -> Hz. rewrite wins_eq, losses_eq.
    rewrite !filter_app, !length_app. simpl.
    assert (Hw : Qltb 0 (pnl t) = false)
      by (apply Qltb_ge; rewrite Hz; apply Qle_refl).
    assert (Hl : Qle_bool (pnl t) 0 = true)
      by (apply Qle_bool_iff; rewrite Hz; apply Qle_refl).
    rewrite Hw, Hl. simpl. split; lia.
Qed.

(** C3: the empty trade set gives the all-zero record, with no date range
    and an empty daily table; [calculate_kpis] is a total function, so no
    exception is involved. *)
Theorem calculate_kpis_empty (c : Q) :
  let k := calculate_kpis [] c in
  total_trades k = O /\ win_rate k = 0 /\ wins k = O /\ losses k = O
  /\ gross_pnl k = 0 /\ commissions k = 0 /\ net_pnl k = 0
  /\ max_drawdown k = 0 /\ max_drawdown_pct k = 0
  /\ recovery_days k = 0%Z
  /\ date_start k = None /\ date_end k = None
  /\ daily_data k = [].
Proof. simpl. repeat split. Qed.

Lemma daily_data_eq (trades : list trade) (c : Q) :
  trades <> [] -> daily_data (calculate_kpis trades c) = trades_by_date trades.
Proof. destruct trades; [congruence|reflexivity]. Qed.

Lemma max_drawdown_eq (trades : list trade) (c : Q) :
  trades <> [] ->
  max_drawdown (calculate_kpis trades c)
  = series_min (map drawdown (trades_by_date trades)).
Proof. destruct trades; [congruence|reflexivity]. Qed.


Lemma nth_error_map_cum (daily : list daily_row) (j : nat) (y : Q) :
  nth_error (map cumulative_pnl daily) j = Some y ->
  exists r', nth_error daily j = Some r' /\ cumulative_pnl r' = y.
Proof.
  rewrite nth_error_map. destruct (nth_error daily j) as [r'|]; simpl;
    [|discriminate].
  intro H. inversion H. eauto.
Qed.

(** The worst drawdown of a non-empty daily table and the row it is first
    reached at. *)
Lemma series_min_drawdown (daily : list daily_row) :
  daily <> [] ->
  exists i r0,
    idxmin (map drawdown daily) = Some i
    /\ nth_error daily i = Some r0
    /\ drawdown r0 = series_min (map drawdown daily)
    /\ (forall r, In r daily -> series_min (map drawdown daily) <= drawdown r)
    /\ (forall j r, (j < i)%nat -> nth_error daily j = Some r ->
                    series_min (map drawdown daily) < drawdown r).
Proof.
  intro Hne. unfold idxmin, series_min.
  destruct (argmin (map drawdown daily)) as [[i m]|] eqn:E.
  - destruct (argmin_spec _ _ _ E) as (Hn & Hlb & Hfirst).
    rewrite nth_error_map in Hn.
    destruct (nth_error daily i) as [r0|] eqn:Hr0; [|discriminate].
    simpl in Hn. inversion Hn; subst.
    exists i, r0. repeat split; auto.
    + intros r Hr. apply Hlb. now apply in_map.
    + intros j r Hj Hr. apply (Hfirst j); [exact Hj|].
      rewrite nth_error_map, Hr. reflexivity.
  - apply argmin_none in E. apply map_eq_nil in E. congruence.
Qed.

(** C6: in the daily table of a non-empty trade set, the drawdown of every
    date is its cumulative pnl minus the largest cumulative pnl up to that
    date, hence [<= 0], and [max_drawdown] is the least drawdown of the
    table. *)
Theorem calculate_kpis_drawdown (trades : list trade) (c : Q) :
  trades <> [] ->
  let k := calculate_kpis trades c in
  (forall i r,
      nth_error (daily_data k) i = Some r ->
      drawdown r = cumulative_pnl r - running_max r
      /\ (forall j r', (j <= i)%nat -> nth_error (daily_data k) j = Some r' ->
                       cumulative_pnl r' <= running_max r)
      /\ (exists j r', (j <= i)%nat /\ nth_error (daily_data k) j = Some r'
                       /\ cumulative_pnl r' = running_max r)
      /\ drawdown r <= 0)
  /\ (forall r, In r (daily_data k) -> max_drawdown k <= drawdown r)
  /\ (exists r, In r (daily_data k) /\ drawdown r = max_drawdown k).
Proof.
  intros Hne k. unfold k.
  rewrite daily_data_eq, max_drawdown_eq by exact Hne.
  split.
  - intros i r Hr.
    destruct (trades_by_date_row _ _ _ Hr) as (Hc & Hm & Hd).
    destruct (cummax_spec _ _ _ Hm) as (Hub & j & Hj & Hjm).
    assert (Hle : cumulative_pnl r <= running_max r)
      by (apply (Hub i); [lia|exact Hc]).
    split; [exact Hd|]. split; [|split].
    + intros j' r' Hj' Hr'. apply (Hub j'); [exact Hj'|].
      rewrite nth_error_map, Hr'. reflexivity.
    + apply nth_error_map_cum in Hjm. destruct Hjm as (r' & Hr' & Hcr').
      exists j, r'. auto.
    + rewrite Hd. lra.
  - destruct (series_min_drawdown (trades_by_date trades))
      as (i & r0 & _ & Hr0 & Hmin & Hlb & _).
    + now apply trades_by_date_nonempty.
    + split; [exact Hlb|]. exists r0. split; [|exact Hmin].
      eapply nth_error_In; eassumption.
Qed.


Lemma daily_rows_dates (g : list (Z * Q * Q)) (cum rmax dd : list Q) :
  length cum = length g -> length rmax = length g -> length dd = length g ->
  map d_Date (daily_rows g cum rmax dd) = map (fun r => fst (fst r)) g.
Proof.
  revert cum rmax dd.
  induction g as [|[[d p] e] g IH]; intros [|c cum] [|m rmax] [|x dd];
    simpl; intros; try discriminate; auto.
  f_equal. apply IH; congruence.
Qed.

Lemma trades_by_date_dates (trades : list trade) :
  map d_Date (trades_by_date trades) = group_keys Z.compare (map Date trades).
Proof.
  rewrite trades_by_date_eq.
  set (g := groupby_date trades).
  set (c := cumsum (map (fun r => snd (fst r)) g)).
  assert (Hg : map (fun r => fst (fst r)) g
               = group_keys Z.compare (map Date trades)).
  { unfold g, groupby_date. rewrite map_map. simpl. apply map_id. }
  rewrite <- Hg.
  assert (Hc : length c = length g)
    by (unfold c; rewrite cumsum_length; apply length_map).
  assert (Hm : length (cummax c) = length g) by now rewrite cummax_length.
  assert (Hd : length (col_sub c (cummax c)) = length g)
    by (rewrite col_sub_length; [exact Hc|now rewrite cummax_length]).
  now apply daily_rows_dates.
Qed.

Lemma sorted_nth_lt (l : list Z) (i j : nat) (a b : Z) :
  StronglySorted Z.lt l -> (i < j)%nat ->
  nth_error l i = Some a -> nth_error l j = Some b -> (a < b)%Z.
Proof.
  intro Hs. revert i j. induction Hs as [|h t Hs IH Hh]; intros i j Hij Ha Hb.
  - destruct i; discriminate.
  - destruct j as [|j]; [lia|]. simpl in Hb. destruct i as [|i]; simpl in Ha.
    + inversion Ha; subst. rewrite Forall_forall in Hh. apply Hh.
      eapply nth_error_In; eassumption.
    + apply (IH i j); auto. lia.
Qed.



(** The scenario of the specification: cumulative pnl 10, 5, -2, 0, 8. *)
Example recovery_scenario :
  let k := calculate_kpis
             [ mkTrade 1 10 5 1; mkTrade 2 (-5) 5 0; mkTrade 3 (-7) 7 0;
               mkTrade 4 2 5 1; mkTrade 5 8 2 1 ] 1 in
  map cumulative_pnl (daily_data k) = [10; 5; -2; 0; 8]
  /\ map running_max (daily_data k) = [10; 10; 10; 10; 10]
  /\ map drawdown (daily_data k) = [0; -5; -12; -10; -2]
  /\ max_drawdown k = -12
  /\ recovery_days k = 0%Z.
Proof. vm_compute. repeat split. Qed.

End KpiFacts.

(** ** Floats *)

Lemma xltb_lt (a b : xnum) : xltb a b = true <-> xlt a b.
Proof.
  destruct a, b; simpl; try (split; [discriminate|contradiction]);
    try tauto.
  apply Qltb_lt.
Qed.

Lemma xlt_irrefl_zero (z : Q) :
  z == 0 -> ~ xlt (Fin 0) (Fin z) /\ ~ xlt (Fin z) (Fin 0).
Proof. simpl. intro H. rewrite H. split; apply Qlt_irrefl. Qed.

(** ** backtest_simplified.py: metrics *)

Module MetricsFacts.
Import Simplified.

(** Two disjoint filters that both miss some element keep fewer elements
    than the list has. *)
Lemma filters_miss_one {A} (f g : A -> bool) (l : list A) (r : A) :
  (forall a, f a = true -> g a = false) ->
  In r l -> f r = false -> g r = false ->
  (length (filter f l) + length (filter g l) < length l)%nat.
Proof.
  intros Hfg Hin Hf Hg.
  assert (Hle : forall l', (length (filter f l') + length (filter g l')
                            <= length l')%nat).
  { induction l' as [|a l' IH]; simpl; [lia|].
    destruct (f a) eqn:Ef; [rewrite (Hfg _ Ef)|destruct (g a)]; simpl; lia. }
  induction l as [|a l IH]; [contradiction|].
  destruct Hin as [->|Hin]; simpl.
  - rewrite Hf, Hg. specialize (Hle l). lia.
  - specialize (IH Hin).
    destruct (f a) eqn:Ef; [rewrite (Hfg _ Ef)|destruct (g a)]; simpl; lia.
Qed.

(** C10: in [calculate_metrics] a traded row whose pnl is exactly 0 is
    neither a winning nor a losing trade, so the two counts stay below
    [total_trades], and [win_rate] is [winning_trades / total_trades]. *)
Theorem calculate_metrics_zero_pnl_uncounted
        (backtest_results : list bt_row) (r : bt_row) (z : Q) :
  In r (traded backtest_results) -> pnl r = Fin z -> z == 0 ->
  exists m,
    calculate_metrics backtest_results = Metrics m
    /\ total_trades m = length (traded backtest_results)
    /\ counts (fun t => xlt (Fin 0) (pnl t)) (traded backtest_results)
              (winning_trades m)
    /\ counts (fun t => xlt (pnl t) (Fin 0)) (traded backtest_results)
              (losing_trades m)
    /\ ~ xlt (Fin 0) (pnl r) /\ ~ xlt (pnl r) (Fin 0)
    /\ (winning_trades m + losing_trades m < total_trades m)%nat
    /\ win_rate m == inject_Z (Z.of_nat (winning_trades m))
                     / inject_Z (Z.of_nat (total_trades m)).
Proof.
  intros Hin Hp Hz. unfold calculate_metrics.
  destruct (length (traded backtest_results) =? 0)%nat eqn:E.
  { apply Nat.eqb_eq, length_zero_iff_nil in E. rewrite E in Hin.
    contradiction. }
  eexists. split; [reflexivity|].
  cbn [total_trades winning_trades losing_trades win_rate].
  destruct (xlt_irrefl_zero z Hz) as [Hw Hl]. rewrite Hp.
  repeat split; auto.
  - apply counts_filter. intro t. apply xltb_lt.
  - apply counts_filter. intro t. apply xltb_lt.
  - apply (filters_miss_one _ _ _ r); auto.
    + intros a Ha. apply xltb_lt in Ha.
      destruct (xltb (pnl a) (Fin 0)) eqn:Eb; [|reflexivity].
      apply xltb_lt in Eb. exfalso.
      destruct (pnl a); simpl in *; try contradiction.
      apply (Qlt_irrefl 0). eapply Qlt_trans; eassumption.
    + rewrite Hp. destruct (xltb (Fin 0) (Fin z)) eqn:Eb; [|reflexivity].
      apply xltb_lt in Eb. contradiction.
    + rewrite Hp. destruct (xltb (Fin z) (Fin 0)) eqn:Eb; [|reflexivity].
      apply xltb_lt in Eb. contradiction.
Qed.

End MetricsFacts.

(** ** backtest_simplified.py: the indicator *)

Module IndicatorFacts.
Import Simplified.

Lemma map_const_seq {A} (x : A) (n s : nat) :
  map (fun _ => x) (seq s n) = repeat x n.
Proof.
  revert s. induction n as [|n IH]; intro s; simpl; [reflexivity|].
  now rewrite IH.
Qed.

Lemma diff_from_length (p : Q) (l : list Q) :
  length (diff_from p l) = length l.
Proof. revert p. induction l; intros; simpl; auto. Qed.

Lemma diff_length (l : list Q) : length (diff l) = length l.
Proof. destruct l; simpl; auto using diff_from_length. Qed.

Lemma rolling_mean_length (period : nat) (l : list Q) :
  length (rolling_mean period l) = length l.
Proof. unfold rolling_mean. now rewrite length_map, length_seq. Qed.

(** The cell of a rolling mean at a position inside the column. *)
Lemma rolling_mean_nth (period : nat) (l : list Q) (i : nat) :
  (i < length l)%nat ->
  nth_error (rolling_mean period l) i
  = Some (if (period =? 0)%nat || (i + 1 <? period)%nat then None
          else Some (series_sum (window period i l)
                     / inject_Z (Z.of_nat period))).
Proof.
  intro Hi. unfold rolling_mean.
  rewrite nth_error_map, nth_error_seq.
  apply Nat.ltb_lt in Hi. rewrite Hi. reflexivity.
Qed.

(** A window that the column cannot fill leaves every cell missing. *)
Lemma rolling_mean_short (period : nat) (l : list Q) :
  (length l < period)%nat ->
  rolling_mean period l = repeat None (length l).
Proof.
  intro H. unfold rolling_mean.
  rewrite <- (map_const_seq None (length l) 0).
  apply map_ext_in. intros i Hi. apply in_seq in Hi.
  assert (E : (i + 1 <? period)%nat = true) by (apply Nat.ltb_lt; lia).
  rewrite E, orb_true_r. reflexivity.
Qed.

Lemma rsi_cells_nth (gain loss : list (option Q)) (i : nat)
      (g l : option Q) :
  nth_error gain i = Some g -> nth_error loss i = Some l ->
  nth_error (rsi_cells gain loss) i = Some (rsi_cell g l).
Proof.
  revert loss i. induction gain as [|g0 gain IH]; intros [|l0 loss] [|i];
    simpl; intros Hg Hl; try discriminate.
  - now inversion Hg; inversion Hl.
  - now apply IH.
Qed.

Lemma rsi_cells_missing (n : nat) :
  rsi_cells (repeat None n) (map (option_map Qopp) (repeat None n))
  = repeat NaN n.
Proof. induction n; simpl; [reflexivity|]. now rewrite IHn. Qed.

(** Fewer prices than the period: the oscillator is NaN on every date. *)
Lemma calculate_rsi_short (prices : list Q) (period : nat) :
  (length prices < period)%nat ->
  calculate_rsi prices period = repeat NaN (length prices).
Proof.
  intro H. unfold calculate_rsi, rolling_gain, rolling_loss.
  rewrite !rolling_mean_short by (now rewrite length_map, diff_length).
  rewrite !length_map, diff_length. apply rsi_cells_missing.
Qed.

Lemma series_sum_nonneg_from (l : list Q) (a : Q) :
  0 <= a -> Forall (fun x => 0 <= x) l -> 0 <= fold_left Qplus l a.
Proof.
  revert a. induction l as [|x l IH]; intros a Ha Hl; simpl; [exact Ha|].
  inversion Hl; subst. apply IH; [|assumption].
  change 0 with (0 + 0). now apply Qplus_le_compat.
Qed.

Lemma where_pos_nonneg (d : option Q) : 0 <= where_pos d.
Proof.
  destruct d as [v|]; simpl; [|apply Qle_refl].
  destruct (Qltb 0 v) eqn:E; [|apply Qle_refl].
  apply Qltb_lt in E. now apply Qlt_le_weak.
Qed.

Lemma window_incl (period i : nat) (l : list Q) (x : Q) :
  In x (window period i l) -> In x l.
Proof.
  unfold window. intro H.
  rewrite <- (firstn_skipn (i + 1 - period) l). apply in_or_app. right.
  rewrite <- (firstn_skipn period (skipn (i + 1 - period) l)).
  apply in_or_app. now left.
Qed.

(** A rolling average gain is never negative. *)
Lemma rolling_gain_nonneg (prices : list Q) (period i : nat) (g : Q) :
  nth_error (rolling_gain prices period) i = Some (Some g) -> 0 <= g.
Proof.
  unfold rolling_gain. intro H.
  assert (Hi : (i < length (map where_pos (diff prices)))%nat).
  { rewrite <- (rolling_mean_length period). apply nth_error_Some. congruence. }
  rewrite rolling_mean_nth in H by exact Hi.
  destruct ((period =? 0)%nat || (i + 1 <? period)%nat) eqn:E;
    [discriminate|].
  inversion H; subst; clear H.
  apply orb_false_iff in E. destruct E as [E _]. apply Nat.eqb_neq in E.
  apply Qle_shift_div_l.
  - change 0 with (inject_Z 0). rewrite <- Zlt_Qlt. lia.
  - rewrite Qmult_0_l. apply series_sum_nonneg_from; [apply Qle_refl|].
    apply Forall_forall. intros x Hx. apply window_incl in Hx.
    apply in_map_iff in Hx. destruct Hx as (d & <- & _).
    apply where_pos_nonneg.
Qed.

(** Gain and loss are defined on the same dates. *)
Lemma rolling_loss_defined (prices : list Q) (period i : nat) (l : Q) :
  nth_error (rolling_loss prices period) i = Some (Some l) ->
  exists g, nth_error (rolling_gain prices period) i = Some (Some g).
Proof.
  unfold rolling_loss, rolling_gain. intro H.
  assert (Hi : (i < length (diff prices))%nat).
  { rewrite <- (length_map where_neg), <- (rolling_mean_length period),
      <- (length_map (option_map Qopp)).
    apply nth_error_Some. congruence. }
  rewrite nth_error_map, rolling_mean_nth in H by now rewrite length_map.
  rewrite rolling_mean_nth by now rewrite length_map.
  destruct ((period =? 0)%nat || (i + 1 <? period)%nat); [discriminate|].
  eauto.
Qed.

Lemma rsi_cell_saturates (g l : Q) :
  l == 0 -> 0 < g -> rsi_cell (Some g) (Some l) = Fin 100.
Proof.
  intros Hl Hg. unfold rsi_cell. simpl.
  assert (E1 : Qeq_bool l 0 = true) by now apply Qeq_bool_iff.
  assert (E2 : Qeq_bool g 0 = false).
  { destruct (Qeq_bool g 0) eqn:E; [|reflexivity].
    apply Qeq_bool_iff in E. rewrite E in Hg.
    exfalso. apply (Qlt_irrefl _ Hg). }
  assert (E3 : Qltb g 0 = false) by (apply Qltb_ge; now apply Qlt_le_weak).
  rewrite E1, E2, E3. reflexivity.
Qed.

Lemma rsi_cell_flat (g l : Q) :
  l == 0 -> g == 0 -> rsi_cell (Some g) (Some l) = NaN.
Proof.
  intros Hl Hg. unfold rsi_cell. simpl.
  assert (E1 : Qeq_bool l 0 = true) by now apply Qeq_bool_iff.
  assert (E2 : Qeq_bool g 0 = true) by now apply Qeq_bool_iff.
  rewrite E1, E2. reflexivity.
Qed.

(** Whatever the sign of the infinity a zero divisor gives, the last two
    steps of the oscillator land on 100. *)
Lemma rsi_from_infinite_rs (neg : bool) :
  xsub (Fin 100) (xdiv false (Fin 100) (xadd (Fin 1) (xinf neg))) = Fin 100.
Proof. destruct neg; reflexivity. Qed.

(** C2, as the code has it: on a date whose rolling average loss is 0 the
    rolling average gain is defined and not negative; the oscillator is
    100 when that gain is positive, and NaN (undefined) when the gain is 0
    as well. *)
Theorem calculate_rsi_zero_loss (prices : list Q) (period i : nat) (l : Q) :
  nth_error (rolling_loss prices period) i = Some (Some l) -> l == 0 ->
  exists g,
    nth_error (rolling_gain prices period) i = Some (Some g)
    /\ 0 <= g
    /\ (0 < g -> nth_error (calculate_rsi prices period) i = Some (Fin 100))
    /\ (g == 0 -> nth_error (calculate_rsi prices period) i = Some NaN).
Proof.
  intros Hloss Hl.
  destruct (rolling_loss_defined _ _ _ _ Hloss) as (g & Hgain).
  exists g. split; [exact Hgain|].
  split; [eapply rolling_gain_nonneg; eassumption|].
  unfold calculate_rsi. rewrite (rsi_cells_nth _ _ _ _ _ Hgain Hloss).
  split; intro Hg.
  - now rewrite rsi_cell_saturates.
  - now rewrite rsi_cell_flat.
Qed.

(** C2 as stated fails on a flat series: with prices 100, 100, 100 and
    period 2 the rolling average loss of the last date is 0 and the
    oscillator there is NaN, not 100. *)
Lemma calculate_rsi_flat_series_is_nan :
  ~ (forall (prices : list Q) (period i : nat) (l : Q),
        nth_error (rolling_loss prices period) i = Some (Some l) -> l == 0 ->
        exists q, nth_error (calculate_rsi prices period) i = Some (Fin q)
                  /\ q == 100).
Proof.
  intro H.
  destruct (H [100; 100; 100] 2%nat 2%nat (- ((0 + 0 + 0) / inject_Z 2)))
    as (q & Hq & _).
  - reflexivity.
  - reflexivity.
  - vm_compute in Hq. discriminate.
Qed.

End IndicatorFacts.

(** ** backtest_simplified.py: the error monad *)

Lemma mapM_fixed {A} (f : A -> res A) (l : list A) :
  Forall (fun a => f a = ret a) l -> mapM f l = ret l.
Proof.
  induction 1 as [|a l Ha Hl IH]; simpl; [reflexivity|].
  rewrite Ha. simpl. rewrite IH. reflexivity.
Qed.

Lemma mapM_ret {A B} (f : A -> res B) (l : list A) (bs : list B) :
  mapM f l = ret bs -> Forall2 (fun a b => f a = ret b) l bs.
Proof.
  revert bs. induction l as [|a l IH]; simpl; intros bs H.
  - inversion H. constructor.
  - destruct (f a) as [e|b] eqn:Ea; simpl in H; [discriminate|].
    destruct (mapM f l) as [e|bs'] eqn:El; simpl in H; [discriminate|].
    inversion H; subst. constructor; [exact Ea|]. now apply IH.
Qed.

Lemma Forall2_In_r {A B} (R : A -> B -> Prop) (l : list A) (l' : list B)
      (b : B) :
  Forall2 R l l' -> In b l' -> exists a, In a l /\ R a b.
Proof.
  induction 1 as [|a0 b0 l l' Hab Hl IH]; simpl; [contradiction|].
  intros [->|Hin]; [eauto|].
  destruct (IH Hin) as (a & Ha & Hr). eauto.
Qed.

(** ** backtest_simplified.py: the backtest loop *)

Module BacktestFacts.
Import Simplified IndicatorFacts.

(** A row as the signal stage leaves it when the oscillator is NaN. *)
Lemma attach_rsi_nan (oversold overbought : Q) (data : list obs) :
  attach_rsi oversold overbought data (repeat NaN (length data))
  = map (fun r => mkBt r NaN 0 NaN NaN NaN) data.
Proof. induction data; simpl; [reflexivity|]. now rewrite IHdata. Qed.

Lemma attach_rsi_rows (oversold overbought : Q) (data : list obs)
      (rsis : list xnum) (b : bt_row) :
  In b (attach_rsi oversold overbought data rsis) -> In (row b) data.
Proof.
  revert rsis. induction data as [|r data IH]; intros [|x rsis]; simpl;
    try contradiction.
  intros [<-|H]; [now left|]. right. eapply IH; eassumption.
Qed.

Section Loop.
Variable norm_cdf : Q -> Q.
Variable python_scalars : bool.

Lemma price_row_row (volatility : Q) (r r' : bt_row) :
  price_row norm_cdf python_scalars volatility r = ret r' -> row r' = row r.
Proof.
  unfold price_row. destruct (signal r =? 0)%Z.
  - intro H. now inversion H.
  - destruct (calculate_fair_entry_cost _ _ _ _ _ _) as [e|cp]; simpl;
      [discriminate|].
    intro H. now inversion H.
Qed.

(** The block of an instrument holds rows of that instrument only. *)
Lemma backtest_ticker_rows (data : list obs) (rsi_period : nat)
      (oversold overbought volatility : Q) (ticker : string)
      (rows : list bt_row) (b : bt_row) :
  backtest_ticker norm_cdf python_scalars data rsi_period oversold
                  overbought volatility ticker = ret rows ->
  In b rows -> Ticker (row b) = ticker.
Proof.
  unfold backtest_ticker. intros H Hb.
  apply mapM_ret in H.
  destruct (Forall2_In_r _ _ _ _ H Hb) as (a & Ha & Hab).
  apply price_row_row in Hab. rewrite Hab.
  unfold generate_rsi_signals in Ha. apply attach_rsi_rows in Ha.
  apply filter_In in Ha. destruct Ha as [_ Ha].
  now apply String.eqb_eq in Ha.
Qed.

(** The block of an instrument with fewer rows than the period. *)
Lemma backtest_ticker_short (data : list obs) (rsi_period : nat)
      (oversold overbought volatility : Q) (ticker : string) :
  let ticker_data := filter (fun r => String.eqb (Ticker r) ticker) data in
  (length ticker_data < rsi_period)%nat ->
  generate_rsi_signals ticker_data rsi_period oversold overbought
  = map (fun r => mkBt r NaN 0 NaN NaN NaN) ticker_data
  /\ backtest_ticker norm_cdf python_scalars data rsi_period oversold
                     overbought volatility ticker
     = ret (map (fun r => mkBt r NaN 0 NaN NaN NaN) ticker_data).
Proof.
  intros ticker_data H.
  assert (Hs : generate_rsi_signals ticker_data rsi_period oversold
                                    overbought
               = map (fun r => mkBt r NaN 0 NaN NaN NaN) ticker_data).
  { unfold generate_rsi_signals.
    rewrite calculate_rsi_short by now rewrite length_map.
    rewrite length_map. apply attach_rsi_nan. }
  split; [exact Hs|].
  unfold backtest_ticker. fold ticker_data. rewrite Hs.
  apply mapM_fixed. apply Forall_forall. intros b Hb.
  apply in_map_iff in Hb. destruct Hb as (r & <- & _). reflexivity.
Qed.

(** C5: an instrument with fewer observations than the period has an
    oscillator that is NaN on every date and no BUY or SELL signal; its
    block of the backtest is produced without an exception and holds no
    trade, and no trade of that instrument is in the result of a run. *)
Theorem short_history_contributes_no_trade
        (data : list obs) (rsi_period : nat)
        (oversold overbought volatility : Q) (ticker : string) :
  let ticker_data := filter (fun r => String.eqb (Ticker r) ticker) data in
  (length ticker_data < rsi_period)%nat ->
  calculate_rsi (map ExpValue ticker_data) rsi_period
  = repeat NaN (length ticker_data)
  /\ Forall (fun b => rsi b = NaN /\ signal b = 0%Z)
            (generate_rsi_signals ticker_data rsi_period oversold
                                  overbought)
  /\ (exists rows,
         backtest_ticker norm_cdf python_scalars data rsi_period oversold
                         overbought volatility ticker = ret rows
         /\ map row rows = ticker_data
         /\ traded rows = [])
  /\ (forall out,
         backtest_strategy norm_cdf python_scalars data rsi_period oversold
                           overbought volatility = ret out ->
         traded (filter (fun b => String.eqb (Ticker (row b)) ticker) out)
         = []).
Proof.
  intros ticker_data H.
  destruct (backtest_ticker_short data rsi_period oversold overbought
                                  volatility ticker H) as [Hs Hb].
  fold ticker_data in Hs, Hb.
  assert (Hhold : forall l : list obs,
             traded (map (fun r => mkBt r NaN 0 NaN NaN NaN) l) = []).
  { induction l; simpl; auto. }
  split; [|split; [|split]].
  - rewrite calculate_rsi_short by now rewrite length_map.
    now rewrite length_map.
  - rewrite Hs. apply Forall_forall. intros b Hin.
    apply in_map_iff in Hin. destruct Hin as (r & <- & _). now split.
  - eexists. split; [exact Hb|]. split; [|apply Hhold].
    rewrite map_map. simpl. apply map_id.
  - intros out Hout. unfold backtest_strategy in Hout.
    destruct (mapM _ (unique (map Ticker data))) as [e|frames] eqn:Em;
      simpl in Hout; [discriminate|].
    assert (Hc : out = concat frames).
    { destruct frames; simpl in Hout; [discriminate|]. now inversion Hout. }
    apply mapM_ret in Em.
    destruct (traded (filter _ out)) as [|b rest] eqn:Ef; [reflexivity|].
    exfalso.
    assert (Hin : In b (traded
                          (filter
                             (fun b => String.eqb (Ticker (row b)) ticker)
                             out)))
      by (rewrite Ef; now left).
    apply filter_In in Hin. destruct Hin as [Hin Hsig].
    apply filter_In in Hin. destruct Hin as [Hin Ht].
    apply String.eqb_eq in Ht.
    rewrite Hc in Hin. apply in_concat in Hin.
    destruct Hin as (frame & Hframe & Hbf).
    destruct (Forall2_In_r _ _ _ _ Em Hframe) as (tk & _ & Htk).
    pose proof (backtest_ticker_rows _ _ _ _ _ _ _ _ Htk Hbf) as Heq.
    rewrite Ht in Heq. subst tk. rewrite Hb in Htk. inversion Htk; subst.
    apply in_map_iff in Hbf. destruct Hbf as (r & <- & _).
    discriminate.
Qed.
End Loop.

End BacktestFacts.

(** ** backtest_simplified.py: the probabilistic pricer *)

Module PricingFacts.
Import Simplified.

Lemma Qeq_bool_false (x : Q) : ~ x == 0 -> Qeq_bool x 0 = false.
Proof.
  intro H. destruct (Qeq_bool x 0) eqn:E; [|reflexivity].
  apply Qeq_bool_iff in E. contradiction.
Qed.

Lemma effective_volatility_eq (sigma : Q) :
  (if Qle_bool sigma 0 then 1 # 100 else sigma) = effective_volatility sigma.
Proof.
  unfold effective_volatility.
  destruct (Qlt_le_dec 0 sigma) as [H|H].
  - apply Qle_bool_gt in H. now rewrite H.
  - apply Qle_bool_iff in H. now rewrite H.
Qed.

Lemma effective_volatility_pos (sigma : Q) : 0 < effective_volatility sigma.
Proof.
  unfold effective_volatility. destruct (Qlt_le_dec 0 sigma); [assumption|].
  reflexivity.
Qed.

(** Python's [max(lo, min(hi, x))] on a finite [x], against the clamp. *)
Lemma py_clamp_finite (lo hi x : Q) :
  lo <= hi ->
  exists p, py_max (Fin lo) (py_min (Fin hi) (Fin x)) = Fin p
            /\ p == clamp lo hi x /\ lo <= p <= hi.
Proof.
  intro Hlh. unfold py_max, py_min, clamp. simpl.
  destruct (Qltb x hi) eqn:E1; simpl.
  - apply Qltb_lt in E1.
    destruct (Qltb lo x) eqn:E2.
    + apply Qltb_lt in E2. exists x. split; [reflexivity|].
      rewrite (Q.min_r hi x) by lra. rewrite Q.max_r by lra.
      split; [reflexivity|lra].
    + apply Qltb_ge in E2. exists lo. split; [reflexivity|].
      rewrite (Q.min_r hi x) by lra. rewrite Q.max_l by lra.
      split; [reflexivity|lra].
  - apply Qltb_ge in E1.
    destruct (Qltb lo hi) eqn:E2.
    + exists hi. split; [reflexivity|].
      rewrite (Q.min_l hi x) by lra. rewrite Q.max_r by lra.
      split; [reflexivity|lra].
    + apply Qltb_ge in E2. exists lo. split; [reflexivity|].
      rewrite (Q.min_l hi x) by lra. rewrite Q.max_l by lra.
      split; [reflexivity|lra].
Qed.

Section Pricer.
Variable norm_cdf : Q -> Q.
Variable python_scalars : bool.

(** C4: for a positive strike the pricer returns, without raising, the
    normal distribution function of [(E - K) / (K * sigma)] clamped to
    [[0.05, 0.95]] (with [sigma] replaced by 0.01 when it is [<= 0]) and
    [max_payout] times that probability, which lies between
    [0.05 * max_payout] and [0.95 * max_payout]; with [E = 105],
    [K = 100], [sigma = 0.01] and [max_payout = 10] the probability is
    0.95 and the entry cost 9.50, the distribution function being at
    least 0.95 from 1.65 on. *)
Theorem fair_entry_cost_clamped :
  (forall E K max_payout sigma : Q,
      0 < K ->
      exists p,
        calculate_probability_itm norm_cdf python_scalars E K sigma
        = ret (Fin p)
        /\ p == clamp (5 # 100) (95 # 100)
                      (norm_cdf ((E - K) / (K * effective_volatility sigma)))
        /\ 5 # 100 <= p <= 95 # 100
        /\ calculate_fair_entry_cost norm_cdf python_scalars E K max_payout
                                     sigma
           = ret (Fin (max_payout * p), Fin p)
        /\ Qmin ((5 # 100) * max_payout) ((95 # 100) * max_payout)
           <= max_payout * p
           <= Qmax ((5 # 100) * max_payout) ((95 # 100) * max_payout)
        /\ (0 <= max_payout ->
            (5 # 100) * max_payout <= max_payout * p
            <= (95 # 100) * max_payout))
  /\ ((forall z, 165 # 100 <= z -> 95 # 100 <= norm_cdf z) ->
      exists cost p,
        calculate_fair_entry_cost norm_cdf python_scalars 105 100 10
                                  (1 # 100)
        = ret (Fin cost, Fin p)
        /\ p == 95 # 100 /\ cost == 95 # 10).
Proof.
  assert (Hgen : forall E K sigma : Q,
             0 < K ->
             exists p,
               calculate_probability_itm norm_cdf python_scalars E K sigma
               = ret (Fin p)
               /\ p == clamp (5 # 100) (95 # 100)
                            (norm_cdf ((E - K)
                                       / (K * effective_volatility sigma)))
               /\ 5 # 100 <= p <= 95 # 100).
  { intros E K sigma HK.
    unfold calculate_probability_itm, true_div.
    rewrite effective_volatility_eq.
    pose proof (effective_volatility_pos sigma) as Hs.
    assert (Hd : 0 < K * effective_volatility sigma)
      by (apply Qmult_lt_0_compat; assumption).
    assert (Hne : Qeq_bool (K * effective_volatility sigma) 0 = false).
    { apply Qeq_bool_false. intro H0. rewrite H0 in Hd.
      apply (Qlt_irrefl _ Hd). }
    rewrite Hne. simpl. rewrite Hne.
    destruct (py_clamp_finite (5 # 100) (95 # 100)
                (norm_cdf ((E - K) / (K * effective_volatility sigma))))
      as (p & Hp & Hc & Hr); [discriminate|].
    exists p. unfold ret. rewrite <- Hp. simpl. auto. }
  split.
  - intros E K max_payout sigma HK.
    destruct (Hgen E K sigma HK) as (p & Hp & Hc & Hr).
    exists p. split; [exact Hp|]. split; [exact Hc|]. split; [exact Hr|].
    split; [unfold calculate_fair_entry_cost; now rewrite Hp|].
    split.
    + destruct (Qlt_le_dec max_payout 0) as [Hneg|Hpos].
      * rewrite Q.min_r, Q.max_l by nra. nra.
      * rewrite Q.min_l, Q.max_r by nra. nra.
    + intro Hpos. nra.
  - intro Hcdf.
    unfold calculate_fair_entry_cost, calculate_probability_itm, true_div.
    simpl.
    assert (Hz : Qltb (norm_cdf ((105 - 100) / (100 * (1 # 100))))
                      (95 # 100) = false).
    { apply Qltb_ge. apply Hcdf. vm_compute. discriminate. }
    unfold py_min, py_max. simpl. rewrite Hz. simpl.
    eexists. eexists. split; [reflexivity|]. split; reflexivity.
Qed.
End Pricer.

Lemma cdf_line_high (z : Q) : 165 # 100 <= z -> 95 # 100 <= cdf_line z.
Proof.
  intro H. unfold cdf_line.
  eapply Qle_trans; [|apply qmax_ub_r].
  destruct (Qle_bool 1 ((1 # 2) + (3 # 10) * z)) eqn:E; lra.
Qed.

End PricingFacts.

(** ** backtest_results.py: loading *)

Module ResultsFacts.
Import Results.

Section Load.
Variables frame json : Type.
Variable read_trades : body -> res frame.
Variable read_kpis : body -> res (list (string * json)).
Variable read_daily : body -> res frame.
Variable empty_params : json.
Variable now_iso : json.

Lemma get_missing {A} (s3 : s3_client) (bucket key : string)
      (k : body -> res A) :
  s3 bucket key = None ->
  (obj <- get_object s3 bucket key ;; k obj)
  = raise no_such_key.
Proof. intro H. unfold get_object. rewrite H. reflexivity. Qed.

(** C9: when the trade log, the KPI summary or the daily-metrics table of
    the requested run is not in the store, [load_from_s3] raises
    [FileNotFoundError], whatever else the store holds. *)
Theorem load_from_s3_missing_artifact
        (s3 : s3_client) (bucket : string) (date : option string)
        (prefix : string) :
  s3 bucket (run_folder date prefix ++ "/trades.csv") = None
  \/ s3 bucket (run_folder date prefix ++ "/kpi_summary.json") = None
  \/ s3 bucket (run_folder date prefix ++ "/daily_metrics.csv") = None ->
  exists msg,
    load_from_s3 frame json read_trades read_kpis read_daily empty_params
                 now_iso s3 bucket date prefix
    = raise (FileNotFoundError msg).
Proof.
  intro H. unfold load_from_s3. fold (run_folder date prefix).
  set (folder_path := run_folder date prefix) in *.
  destruct (or_not_found "trades" _ _) as [e|trades] eqn:Et.
  { unfold or_not_found in Et.
    destruct (bind _ _) as [e'|?] in Et; [|discriminate].
    inversion Et. simpl. eauto. }
  destruct (or_not_found "KPIs" _ _) as [e|kpis] eqn:Ek.
  { unfold or_not_found in Ek.
    destruct (bind _ _) as [e'|?] in Ek; [|discriminate].
    inversion Ek. simpl. eauto. }
  destruct (or_not_found "daily metrics" _ _) as [e|daily] eqn:Ed.
  { unfold or_not_found in Ed.
    destruct (bind _ _) as [e'|?] in Ed; [|discriminate].
    inversion Ed. simpl. eauto. }
  exfalso. destruct H as [H|[H|H]].
  - rewrite (get_missing _ _ _ _ H) in Et. discriminate.
  - rewrite (get_missing _ _ _ _ H) in Ek. discriminate.
  - rewrite (get_missing _ _ _ _ H) in Ed. discriminate.
Qed.
End Load.

End ResultsFacts.

(** ** backtest_simplified.py: daily aggregation *)

Module AggregateFacts.
Import Simplified.

Lemma key_cmp_eq (a b : key) : key_cmp a b = Eq -> a = b.
Proof.
  destruct a as [s d], b as [s' d']. unfold key_cmp. simpl.
  destruct (String.compare s s') eqn:E; try discriminate.
  intro H. apply String.compare_eq_iff in E. apply Z.compare_eq in H.
  now subst.
Qed.

Lemma string_compare_refl (s : string) : String.compare s s = Eq.
Proof. apply String_as_OT.cmp_eq. reflexivity. Qed.

Lemma key_cmp_refl (a : key) : key_cmp a a = Eq.
Proof.
  destruct a as [s d]. unfold key_cmp. simpl.
  rewrite string_compare_refl. apply Z.compare_refl.
Qed.

Lemma key_cmp_antisym (a b : key) : key_cmp a b = CompOpp (key_cmp b a).
Proof.
  destruct a as [s d], b as [s' d']. unfold key_cmp. simpl.
  rewrite String.compare_antisym.
  destruct (String.compare s' s); simpl; auto. apply Z.compare_antisym.
Qed.

Lemma string_compare_trans (a b c : string) :
  String.compare a b = Lt -> String.compare b c = Lt ->
  String.compare a c = Lt.
Proof.
  intros H1 H2. apply String_as_OT.cmp_lt.
  apply String_as_OT.cmp_lt in H1. apply String_as_OT.cmp_lt in H2.
  eapply String_as_OT.lt_trans; eassumption.
Qed.

Lemma key_cmp_trans (a b c : key) :
  key_cmp a b = Lt -> key_cmp b c = Lt -> key_cmp a c = Lt.
Proof.
  destruct a as [s1 d1], b as [s2 d2], c as [s3 d3]. unfold key_cmp. simpl.
  destruct (String.compare s1 s2) eqn:E12; try discriminate;
    destruct (String.compare s2 s3) eqn:E23; try discriminate; intros H1 H2.
  - apply String.compare_eq_iff in E12, E23. subst.
    rewrite string_compare_refl.
    rewrite Z.compare_lt_iff in *. lia.
  - apply String.compare_eq_iff in E12. subst. now rewrite E23.
  - apply String.compare_eq_iff in E23. subst. now rewrite E12.
  - now rewrite (string_compare_trans _ _ _ E12 E23).
Qed.

Lemma key_eqb_eq (a b : key) : key_eqb a b = true <-> a = b.
Proof.
  unfold key_eqb. split.
  - destruct (key_cmp a b) eqn:E; try discriminate. intros _.
    now apply key_cmp_eq.
  - intros ->. now rewrite key_cmp_refl.
Qed.

Lemma keys_In (t : list obs) (k : key) :
  In k (group_keys key_cmp (map key_of t)) <-> In k (map key_of t).
Proof. apply group_keys_In. apply key_cmp_eq. Qed.

Lemma keys_sorted (l : list key) :
  StronglySorted (key_lt key_cmp) (group_keys key_cmp l).
Proof.
  apply group_keys_sorted.
  - apply key_cmp_eq.
  - apply key_cmp_antisym.
  - apply key_cmp_trans.
Qed.

Lemma keys_NoDup (l : list key) :
  StronglySorted (key_lt key_cmp) l -> NoDup l.
Proof. apply sorted_NoDup. apply key_cmp_refl. Qed.

(** *** Labels and rows *)

Lemma values_filter (p : obs -> bool) (t : DataFrame) :
  values (filter (fun ir => p (snd ir)) t) = filter p (values t).
Proof.
  unfold values. induction t as [|[l r] t IH]; simpl; [reflexivity|].
  destruct (p r); simpl; now rewrite IH.
Qed.

Lemma values_flat_map {A} (f : A -> DataFrame) (ks : list A) :
  values (flat_map f ks) = flat_map (fun k => values (f k)) ks.
Proof.
  unfold values. induction ks as [|k ks IH]; simpl; [reflexivity|].
  now rewrite map_app, IH.
Qed.

Lemma values_on_rows (f : obs -> obs) (t : DataFrame) :
  values (on_rows f t) = map f (values t).
Proof. unfold values, on_rows. rewrite !map_map. reflexivity. Qed.

Lemma labels_on_rows (f : obs -> obs) (t : DataFrame) :
  labels (on_rows f t) = labels t.
Proof. unfold labels, on_rows. rewrite map_map. reflexivity. Qed.

Lemma on_rows_on_rows (f g : obs -> obs) (t : DataFrame) :
  on_rows f (on_rows g t) = on_rows (fun r => f (g r)) t.
Proof. unfold on_rows. rewrite map_map. reflexivity. Qed.

Lemma length_RangeIndex (n : nat) : length (RangeIndex n) = n.
Proof. unfold RangeIndex. now rewrite length_map, length_seq. Qed.

Lemma NoDup_RangeIndex (n : nat) : NoDup (RangeIndex n).
Proof.
  unfold RangeIndex. generalize (seq_NoDup n 0).
  induction (seq 0 n) as [|a l IH]; simpl; intro H; [constructor|].
  inversion H as [|? ? Hnotin Hnd]; subst. constructor; [|now apply IH].
  intro Hin. apply in_map_iff in Hin. destruct Hin as (b & Hb & Hin).
  apply Nat2Z.inj in Hb. now subst.
Qed.

Lemma combine_fst {A B} (l1 : list A) (l2 : list B) :
  length l1 = length l2 -> map fst (combine l1 l2) = l1.
Proof.
  revert l2. induction l1 as [|a l1 IH]; intros [|b l2] H; simpl in *;
    try discriminate; [reflexivity|].
  f_equal. apply IH. now inversion H.
Qed.

Lemma combine_snd {A B} (l1 : list A) (l2 : list B) :
  length l1 = length l2 -> map snd (combine l1 l2) = l2.
Proof.
  revert l2. induction l1 as [|a l1 IH]; intros [|b l2] H; simpl in *;
    try discriminate; [reflexivity|].
  f_equal. apply IH. now inversion H.
Qed.

Lemma values_DataFrame_of (rows : list obs) :
  values (DataFrame_of rows) = rows.
Proof. apply combine_snd. apply length_RangeIndex. Qed.

Lemma labels_DataFrame_of (rows : list obs) :
  labels (DataFrame_of rows) = RangeIndex (length rows).
Proof. apply combine_fst. apply length_RangeIndex. Qed.

Lemma length_DataFrame_of (rows : list obs) :
  length (DataFrame_of rows) = length rows.
Proof.
  rewrite <- (values_DataFrame_of rows) at 2. unfold values.
  now rewrite length_map.
Qed.

(** A frame is the pairing of its labels with its rows. *)
Lemma frame_eq (t : DataFrame) : combine (labels t) (values t) = t.
Proof.
  induction t as [|[l r] t IH]; simpl; [reflexivity|]. now rewrite IH.
Qed.

(** Resetting a default index changes nothing. *)
Lemma reset_index_fixed (t : DataFrame) :
  labels t = RangeIndex (length t) -> reset_index t = t.
Proof.
  intro H. unfold reset_index, DataFrame_of.
  replace (length (values t)) with (length t)
    by (unfold values; now rewrite length_map).
  rewrite <- H. apply frame_eq.
Qed.

Lemma loc_absent_label (t : DataFrame) (l : label) :
  ~ In l (labels t) -> filter (fun ir => Z.eqb (fst ir) l) t = [].
Proof.
  unfold labels. induction t as [|[l' r'] t IH]; intro H; [reflexivity|].
  cbn [filter fst]. destruct (Z.eqb l' l) eqn:El.
  - exfalso. apply H. left. now apply Z.eqb_eq in El.
  - apply IH. intro Hin. apply H. now right.
Qed.

(** A label carried by one row selects that row and no other. *)
Lemma loc_unique_label (t : DataFrame) (l : label) (r : obs) :
  NoDup (labels t) -> In (l, r) t ->
  filter (fun ir => Z.eqb (fst ir) l) t = [(l, r)].
Proof.
  unfold labels. induction t as [|[l' r'] t IH]; intros Hnd Hin;
    [contradiction|].
  simpl in Hnd. inversion Hnd as [|? ? Hnotin Hnd']; subst.
  cbn [filter fst]. destruct Hin as [Heq|Hin].
  - inversion Heq; subst. rewrite Z.eqb_refl.
    rewrite (loc_absent_label t l Hnotin). reflexivity.
  - destruct (Z.eqb l' l) eqn:El.
    + exfalso. apply Z.eqb_eq in El. subst. apply Hnotin.
      exact (in_map fst _ _ Hin).
    + now apply IH.
Qed.

(** Where labels are not repeated, selecting by the label of a group gives
    the first closest row of the group. *)
Lemma loc_group_idxmin (t : DataFrame) (k : key) :
  NoDup (labels t) ->
  values (loc t (opt_list (group_idxmin t k)))
  = opt_list (first_closest (values t) k).
Proof.
  intro Hnd. unfold group_idxmin, first_closest.
  set (p := fun r => key_eqb (key_of r) k).
  set (g := filter (fun ir : label * obs => key_eqb (key_of (snd ir)) k) t).
  assert (Hg : values g = filter p (values t))
    by (apply (values_filter p)).
  assert (Hcol : map (fun ir : label * obs => strike_distance_of (snd ir)) g
                 = map strike_distance_of (filter p (values t))).
  { rewrite <- Hg. unfold values. rewrite map_map. reflexivity. }
  rewrite Hcol.
  destruct (idxmin (map strike_distance_of (filter p (values t)))) as [j|];
    [|reflexivity].
  rewrite <- Hg. unfold values at 2. rewrite nth_error_map.
  destruct (nth_error g j) as [[i r]|] eqn:Ej; cbn [option_map fst opt_list];
    [|reflexivity].
  apply nth_error_In in Ej. apply filter_In in Ej. destruct Ej as [Ej _].
  unfold loc. cbn [flat_map]. rewrite app_nil_r.
  rewrite (loc_unique_label t i r Hnd Ej). reflexivity.
Qed.

Lemma loc_flat_map {A} (t : DataFrame) (f : A -> list label) (ks : list A) :
  loc t (flat_map f ks) = flat_map (fun k => loc t (f k)) ks.
Proof.
  unfold loc. induction ks as [|k ks IH]; cbn [flat_map]; [reflexivity|].
  now rewrite flat_map_app, IH.
Qed.

Lemma loc_groupby_idxmin (t : DataFrame) :
  NoDup (labels t) ->
  values (loc t (groupby_idxmin t))
  = flat_map (fun k => opt_list (first_closest (values t) k))
             (group_keys key_cmp (map key_of (values t))).
Proof.
  intro Hnd. unfold groupby_idxmin. rewrite loc_flat_map, values_flat_map.
  apply flat_map_ext. intro k. now apply loc_group_idxmin.
Qed.

(** On a frame without repeated labels the selection keeps the first
    closest row of every key. *)
Lemma select_closest_values (t : DataFrame) :
  NoDup (labels t) -> values (select_closest t) = closest_rows (values t).
Proof.
  intro Hnd. unfold select_closest, closest_rows.
  now rewrite values_on_rows, loc_groupby_idxmin.
Qed.

(** *** The row picked in a group *)

Lemma filter_nth {A} (p : A -> bool) (l : list A) (j : nat) (r : A) :
  nth_error (filter p l) j = Some r ->
  exists i,
    nth_error l i = Some r /\ p r = true
    /\ forall i' r', (i' < i)%nat -> nth_error l i' = Some r' ->
                     p r' = true ->
                     exists j', (j' < j)%nat
                                /\ nth_error (filter p l) j' = Some r'.
Proof.
  revert j. induction l as [|a l IH]; intros j H; simpl in H.
  - destruct j; discriminate.
  - destruct (p a) eqn:Ea.
    + destruct j as [|j]; simpl in H.
      * inversion H; subst. exists O. repeat split; auto. intros; lia.
      * destruct (IH j H) as (i & Hi & Hp & Hbefore).
        exists (S i). repeat split; auto.
        intros [|i'] r' Hlt Hr' Hpr'; simpl in Hr'.
        -- inversion Hr'; subst. exists O. simpl. rewrite Ea.
           split; [lia|reflexivity].
        -- destruct (Hbefore i' r') as (j' & Hj' & Hn); auto; [lia|].
           exists (S j'). simpl. rewrite Ea. split; [lia|exact Hn].
    + destruct (IH j H) as (i & Hi & Hp & Hbefore).
      exists (S i). repeat split; auto.
      intros [|i'] r' Hlt Hr' Hpr'; simpl in Hr'.
      * inversion Hr'; subst. congruence.
      * destruct (Hbefore i' r') as (j' & Hj' & Hn); auto; [lia|].
        exists j'. simpl. rewrite Ea. auto.
Qed.

(** [first_closest] picks, among the rows of key [k], one at minimal
    distance, and the earliest of those. *)
Lemma first_closest_spec (t : list obs) (k : key) (r : obs) :
  first_closest t k = Some r ->
  exists i,
    nth_error t i = Some r /\ key_of r = k
    /\ (forall r', In r' t -> key_of r' = k ->
                   strike_distance_of r <= strike_distance_of r')
    /\ (forall i' r', (i' < i)%nat -> nth_error t i' = Some r' ->
                      key_of r' = k ->
                      strike_distance_of r < strike_distance_of r').
Proof.
  unfold first_closest, idxmin.
  set (p := fun r => key_eqb (key_of r) k).
  destruct (argmin (map strike_distance_of (filter p t))) as [[j m]|] eqn:E;
    simpl; [|discriminate].
  intro Hr. destruct (argmin_spec _ _ _ E) as (Hn & Hlb & Hfirst).
  rewrite nth_error_map, Hr in Hn. simpl in Hn. inversion Hn; subst m.
  destruct (filter_nth _ _ _ _ Hr) as (i & Hi & Hp & Hbefore).
  exists i. split; [exact Hi|]. split; [now apply key_eqb_eq in Hp|]. split.
  - intros r' Hin Hk. apply Hlb. apply in_map. apply filter_In.
    split; [exact Hin|]. now apply key_eqb_eq.
  - intros i' r' Hlt Hr' Hk.
    destruct (Hbefore i' r' Hlt Hr') as (j' & Hj' & Hn').
    + now apply key_eqb_eq.
    + apply (Hfirst j'); [exact Hj'|]. rewrite nth_error_map, Hn'.
      reflexivity.
Qed.

Lemma first_closest_some (t : list obs) (k : key) :
  In k (map key_of t) -> exists r, first_closest t k = Some r.
Proof.
  intro Hk. apply in_map_iff in Hk. destruct Hk as (r0 & Hk & Hin).
  unfold first_closest, idxmin.
  set (p := fun r => key_eqb (key_of r) k).
  assert (Hg : In r0 (filter p t))
    by (apply filter_In; split; [exact Hin|now apply key_eqb_eq]).
  destruct (argmin (map strike_distance_of (filter p t))) as [[j m]|] eqn:E;
    simpl.
  - destruct (argmin_spec _ _ _ E) as (Hn & _ & _).
    rewrite nth_error_map in Hn.
    destruct (nth_error (filter p t) j) as [r|]; [eauto|discriminate].
  - apply argmin_none, map_eq_nil in E. rewrite E in Hg. contradiction.
Qed.

(** In a frame with one row per key, every row is the pick of its key. *)
Lemma first_closest_single (t : list obs) (r : obs) :
  NoDup (map key_of t) -> In r t -> first_closest t (key_of r) = Some r.
Proof.
  intros Hnd Hin.
  assert (Hf : filter (fun x => key_eqb (key_of x) (key_of r)) t = [r]).
  { induction t as [|a t IH]; [contradiction|].
    simpl in Hnd. inversion Hnd as [|? ? Hnotin Hnd']; subst.
    simpl. destruct Hin as [->|Hin].
    - rewrite (proj2 (key_eqb_eq _ _) eq_refl). f_equal.
      destruct (filter _ t) as [|b rest] eqn:Ef; [reflexivity|].
      exfalso. apply Hnotin.
      assert (Hb : In b (filter (fun x => key_eqb (key_of x) (key_of r)) t))
        by (rewrite Ef; now left).
      apply filter_In in Hb. destruct Hb as [Hb Hk].
      apply key_eqb_eq in Hk. rewrite <- Hk. now apply in_map.
    - destruct (key_eqb (key_of a) (key_of r)) eqn:Ea.
      + exfalso. apply Hnotin. apply key_eqb_eq in Ea. rewrite Ea.
        now apply in_map.
      + now apply IH. }
  unfold first_closest. rewrite Hf. reflexivity.
Qed.


(** *** The reduced frame *)

Lemma key_of_drop (r : obs) : key_of (drop_strike_distance r) = key_of r.
Proof. reflexivity. Qed.

Lemma key_of_with (r : obs) : key_of (with_strike_distance r) = key_of r.
Proof. reflexivity. Qed.

Lemma drop_with (r : obs) :
  drop_strike_distance (with_strike_distance r) = drop_strike_distance r.
Proof. reflexivity. Qed.

Lemma drop_drop (r : obs) :
  drop_strike_distance (drop_strike_distance r) = drop_strike_distance r.
Proof. reflexivity. Qed.

Lemma drop_absent (rows : list obs) :
  Forall (fun r => strike_distance r = None) rows ->
  map drop_strike_distance rows = rows.
Proof.
  induction 1 as [|r rows Hr _ IH]; [reflexivity|].
  simpl. rewrite IH. f_equal. destruct r; simpl in Hr; now subst.
Qed.

Lemma picked_keys (t : list obs) (ks : list key) :
  (forall k, In k ks -> In k (map key_of t)) ->
  map key_of (flat_map (fun k => opt_list (first_closest t k)) ks) = ks.
Proof.
  induction ks as [|k ks IH]; intro H; simpl; [reflexivity|].
  rewrite map_app, IH by (intros; apply H; now right).
  destruct (first_closest_some t k) as (r & Hr); [apply H; now left|].
  rewrite Hr. simpl.
  apply first_closest_spec in Hr. destruct Hr as (_ & _ & -> & _).
  reflexivity.
Qed.

(** The keys of the closest rows are the distinct keys of the rows, in
    increasing order. *)
Lemma closest_rows_keys (t : list obs) :
  map key_of (closest_rows t) = group_keys key_cmp (map key_of t).
Proof.
  unfold closest_rows. rewrite map_map.
  rewrite (map_ext _ key_of key_of_drop).
  apply picked_keys. intros k. apply keys_In.
Qed.



Lemma insert_row_length (r : label * obs) (l : DataFrame) :
  length (insert_row r l) = S (length l).
Proof.
  induction l as [|h t IH]; simpl; [reflexivity|].
  destruct (key_leb _ _); simpl; [reflexivity|]. now rewrite IH.
Qed.

Lemma sort_values_length (l : DataFrame) :
  length (sort_values l) = length l.
Proof.
  induction l as [|a l IH]; simpl; [reflexivity|].
  fold (sort_values l). now rewrite insert_row_length, IH.
Qed.

Lemma sort_values_fixed (l : DataFrame) :
  StronglySorted (key_lt key_cmp) (map key_of (values l)) ->
  sort_values l = l.
Proof.
  induction l as [|a l IH]; simpl; intro H; [reflexivity|].
  inversion H as [|? ? Hs Hh]; subst.
  fold (sort_values l). rewrite IH by exact Hs.
  destruct l as [|h l']; [reflexivity|]. simpl.
  inversion Hh as [|? ? Hah _]; subst. unfold key_lt in Hah.
  unfold key_leb. now rewrite Hah.
Qed.

Lemma unique_nil (l : list string) : unique l = [] -> l = [].
Proof. destruct l; [reflexivity|discriminate]. Qed.


(** What a call returns on a frame without repeated labels: the division
    of the progress message fails on an empty frame, and on any other
    frame the closest rows come back under the default index. *)
Lemma daily_of_eq (raw_data : DataFrame) :
  NoDup (labels raw_data) ->
  daily_of raw_data
  = match raw_data with
    | [] => raise ZeroDivisionError
    | _ => ret (DataFrame_of
                  (closest_rows (map with_strike_distance
                                     (values raw_data))))
    end.
Proof.
  intro Hnd. destruct raw_data as [|r0 raw]; [reflexivity|].
  unfold daily_of, aggregate_to_daily. cbn [snd].
  set (t := on_rows with_strike_distance (r0 :: raw)).
  assert (Hnd' : NoDup (labels t))
    by (unfold t; now rewrite labels_on_rows).
  assert (Hv : values (select_closest t)
               = closest_rows (map with_strike_distance (values (r0 :: raw)))).
  { rewrite (select_closest_values t Hnd'). unfold t.
    now rewrite values_on_rows. }
  assert (Hk : map key_of (values (select_closest t))
               = group_keys key_cmp
                   (map key_of (map with_strike_distance
                                    (values (r0 :: raw)))))
    by (rewrite Hv; apply closest_rows_keys).
  assert (Hne : values (select_closest t) <> []).
  { intro E. rewrite E in Hk. simpl in Hk. symmetry in Hk.
    now apply insert_key_nonempty in Hk. }
  unfold int_true_div.
  destruct (length (unique (map Ticker (values (select_closest t)))) =? 0)%nat
    eqn:E.
  - apply Nat.eqb_eq, length_zero_iff_nil, unique_nil, map_eq_nil in E.
    contradiction.
  - cbn [bind ret]. rewrite sort_values_fixed.
    + unfold reset_index. now rewrite Hv.
    + rewrite Hk. apply keys_sorted.
Qed.

Lemma flat_map_each {A} (f : A -> list A) (l : list A) :
  (forall a, In a l -> f a = [a]) -> flat_map f l = l.
Proof.
  induction l as [|a l IH]; intro H; simpl; [reflexivity|].
  rewrite (H a) by now left. simpl. f_equal. apply IH.
  intros; apply H; now right.
Qed.

(** Rows with one row per key, in key order and without the distance
    column, are their own closest rows. *)
Lemma closest_rows_fixed (d : list obs) :
  StronglySorted (key_lt key_cmp) (map key_of d) ->
  map drop_strike_distance d = d ->
  closest_rows (map with_strike_distance d) = d.
Proof.
  intros Hs Hd. unfold closest_rows.
  set (t := map with_strike_distance d).
  assert (Hkeys : map key_of t = map key_of d).
  { unfold t. rewrite map_map. apply map_ext. intro. apply key_of_with. }
  rewrite Hkeys, (group_keys_fixed key_cmp _ Hs), <- Hkeys.
  rewrite flat_map_concat_map, map_map, <- flat_map_concat_map.
  assert (Hpick : flat_map (fun r => opt_list (first_closest t (key_of r))) t
                  = t).
  { apply flat_map_each. intros r Hr.
    rewrite first_closest_single; [reflexivity| |exact Hr].
    rewrite Hkeys. now apply keys_NoDup. }
  rewrite Hpick. unfold t. rewrite map_map.
  rewrite (map_ext _ drop_strike_distance drop_with). exact Hd.
Qed.

Lemma closest_rows_reduced (t : list obs) :
  map drop_strike_distance (closest_rows t) = closest_rows t.
Proof.
  unfold closest_rows. rewrite map_map. apply map_ext. intro.
  apply drop_drop.
Qed.

(** Every one of the closest rows is the first row of its group at
    minimal distance between expected value and strike. *)
Lemma closest_rows_rows (rows : list obs) (r : obs) :
  In r (closest_rows (map with_strike_distance rows)) ->
  exists i r0,
    nth_error rows i = Some r0 /\ r = drop_strike_distance r0
    /\ (forall r', In r' rows -> key_of r' = key_of r0 ->
                   Qabs (ExpValue r0 - StrikePrice r0)
                   <= Qabs (ExpValue r' - StrikePrice r'))
    /\ (forall i' r', (i' < i)%nat -> nth_error rows i' = Some r' ->
                      key_of r' = key_of r0 ->
                      Qabs (ExpValue r0 - StrikePrice r0)
                      < Qabs (ExpValue r' - StrikePrice r')).
Proof.
  unfold closest_rows. intro H.
  apply in_map_iff in H. destruct H as (r1 & <- & H).
  apply in_flat_map in H. destruct H as (k & _ & H).
  destruct (first_closest _ k) as [r1'|] eqn:E; simpl in H; [|contradiction].
  destruct H as [->|[]].
  apply first_closest_spec in E.
  destruct E as (i & Hi & Hk & Hmin & Hfirst).
  rewrite nth_error_map in Hi.
  destruct (nth_error rows i) as [r0|] eqn:Hr0; [|discriminate].
  simpl in Hi. inversion Hi; subst r1; clear Hi.
  exists i, r0. split; [exact Hr0|]. split; [apply drop_with|]. split.
  - intros r' Hin Hkey.
    apply (Hmin (with_strike_distance r')).
    + now apply in_map.
    + rewrite key_of_with, Hkey, <- Hk. reflexivity.
  - intros i' r' Hlt Hr' Hkey.
    apply (Hfirst i' (with_strike_distance r')); [exact Hlt| |].
    + rewrite nth_error_map, Hr'. reflexivity.
    + rewrite key_of_with, Hkey, <- Hk. reflexivity.
Qed.

(** A non-empty frame without repeated labels and without the distance
    column, whose rows are in strictly increasing key order, comes back
    with the same rows in the same order under the default index; it
    comes back as it is when the default index is the index it has. *)
Lemma daily_of_fixed_point (d : DataFrame) :
  d <> [] ->
  NoDup (labels d) ->
  StronglySorted (key_lt key_cmp) (map key_of (values d)) ->
  map drop_strike_distance (values d) = values d ->
  daily_of d = ret (reset_index d).
Proof.
  intros Hne Hnd Hs Hd. rewrite daily_of_eq by exact Hnd.
  rewrite closest_rows_fixed by assumption.
  destruct d; [congruence|reflexivity].
Qed.

(** C8, as the code has it: on a frame whose index labels are distinct,
    [aggregate_to_daily] applied to its own result returns that result
    again. On such a frame, when it is not empty, the result has one row
    per (Ticker, Date) pair under the default index, in increasing order
    of the pair: the first row of the pair at minimal distance between
    expected value and strike. A non-empty frame under the default index
    with one row per pair, in increasing order of the pair and without
    the distance column, is returned as it is. On the empty frame the
    call raises. *)
Theorem aggregate_to_daily_idempotent :
  (forall raw_data : DataFrame,
      NoDup (labels raw_data) ->
      (d <- daily_of raw_data ;; daily_of d) = daily_of raw_data
      /\ (raw_data <> [] ->
          exists d,
            daily_of raw_data = ret d
            /\ daily_of d = ret d
            /\ labels d = RangeIndex (length d)
            /\ StronglySorted (key_lt key_cmp) (map key_of (values d))
            /\ (forall k, In k (map key_of (values d))
                          <-> In k (map key_of (values raw_data)))
            /\ (forall r, In r (values d) ->
                  exists i r0,
                    nth_error (values raw_data) i = Some r0
                    /\ r = drop_strike_distance r0
                    /\ (forall r', In r' (values raw_data) ->
                                   key_of r' = key_of r0 ->
                                   Qabs (ExpValue r0 - StrikePrice r0)
                                   <= Qabs (ExpValue r' - StrikePrice r'))
                    /\ (forall i' r', (i' < i)%nat ->
                                      nth_error (values raw_data) i'
                                      = Some r' ->
                                      key_of r' = key_of r0 ->
                                      Qabs (ExpValue r0 - StrikePrice r0)
                                      < Qabs (ExpValue r'
                                              - StrikePrice r')))))
  /\ (forall d : DataFrame,
         d <> [] ->
         labels d = RangeIndex (length d) ->
         StronglySorted (key_lt key_cmp) (map key_of (values d)) ->
         Forall (fun r => strike_distance r = None) (values d) ->
         daily_of d = ret d)
  /\ daily_of [] = raise ZeroDivisionError.
Proof.
  assert (Hmain : forall raw_data : DataFrame,
             NoDup (labels raw_data) -> raw_data <> [] ->
             let rows := closest_rows
                           (map with_strike_distance (values raw_data)) in
             daily_of raw_data = ret (DataFrame_of rows)
             /\ daily_of (DataFrame_of rows) = ret (DataFrame_of rows)
             /\ StronglySorted (key_lt key_cmp) (map key_of rows)
             /\ map key_of rows
                = group_keys key_cmp (map key_of (values raw_data))).
  { intros raw_data Hnd Hne rows.
    assert (Hk : map key_of rows
                 = group_keys key_cmp (map key_of (values raw_data))).
    { unfold rows. rewrite closest_rows_keys, map_map.
      now rewrite (map_ext _ key_of key_of_with). }
    assert (Hs : StronglySorted (key_lt key_cmp) (map key_of rows))
      by (rewrite Hk; apply keys_sorted).
    assert (Hrows : rows <> []).
    { intro E. rewrite E in Hk. simpl in Hk. symmetry in Hk.
      destruct raw_data as [|r0 raw]; [congruence|].
      now apply insert_key_nonempty in Hk. }
    split;
      [rewrite daily_of_eq by exact Hnd;
       destruct raw_data; [congruence|reflexivity]|].
    split; [|split; assumption].
    rewrite daily_of_eq
      by (rewrite labels_DataFrame_of; apply NoDup_RangeIndex).
    rewrite values_DataFrame_of.
    rewrite closest_rows_fixed;
      [|exact Hs|apply closest_rows_reduced].
    destruct (DataFrame_of rows) eqn:Ed; [|reflexivity].
    exfalso. apply Hrows.
    rewrite <- (values_DataFrame_of rows), Ed. reflexivity. }
  split; [|split].
  - intros raw_data Hnd. split.
    + destruct raw_data as [|r0 raw]; [reflexivity|].
      destruct (Hmain (r0 :: raw) Hnd) as (H1 & H2 & _); [discriminate|].
      rewrite H1. exact H2.
    + intro Hne. destruct (Hmain raw_data Hnd Hne) as (H1 & H2 & Hs & Hk).
      eexists. split; [exact H1|]. split; [exact H2|].
      rewrite values_DataFrame_of, labels_DataFrame_of, length_DataFrame_of.
      split; [reflexivity|]. split; [exact Hs|]. split.
      * intro k. rewrite Hk. apply keys_In.
      * intros r Hr. now apply closest_rows_rows.
  - intros d Hne Hl Hs Hd.
    rewrite daily_of_fixed_point; try assumption.
    + now rewrite reset_index_fixed.
    + rewrite Hl. apply NoDup_RangeIndex.
    + now apply drop_absent.
  - reflexivity.
Qed.

(** C8 as stated fails. With repeated index labels a label selects every
    row that carries it: a frame of four rows labelled 0, 1, 0, 1 comes
    back with four rows, two per pair, and a second call reduces these to
    two. A frame with one row per pair that is not in (Ticker, Date)
    order comes back reordered, so it is not a fixed point. The empty
    frame gives no frame back. *)
Lemma aggregate_to_daily_not_idempotent :
  ~ (forall (raw_data d : DataFrame),
        daily_of raw_data = ret d -> daily_of d = ret d)
  /\ ~ (forall d : DataFrame,
           d <> [] ->
           labels d = RangeIndex (length d) ->
           NoDup (map key_of (values d)) ->
           Forall (fun r => strike_distance r = None) (values d) ->
           daily_of d = ret d)
  /\ ~ (exists d, daily_of [] = ret d).
Proof.
  split; [|split].
  - intro H.
    set (t := [ (0%Z, mkObs "A" 1 100 100 1 None);
                (1%Z, mkObs "A" 1 100 105 0 None);
                (0%Z, mkObs "B" 1 100 105 0 None);
                (1%Z, mkObs "B" 1 100 100 1 None) ]).
    specialize (H t (DataFrame_of
                       [ mkObs "A" 1 100 100 1 None;
                         mkObs "A" 1 100 105 0 None;
                         mkObs "B" 1 100 105 0 None;
                         mkObs "B" 1 100 100 1 None ]) eq_refl).
    vm_compute in H. discriminate.
  - intro H.
    set (d := DataFrame_of [ mkObs "B" 1 100 100 1 None;
                             mkObs "A" 1 100 100 1 None ]).
    assert (Hd : daily_of d = ret d).
    { apply H.
      - discriminate.
      - reflexivity.
      - repeat constructor; simpl; intuition discriminate.
      - repeat constructor. }
    vm_compute in Hd. discriminate.
  - intros [d Hd]. discriminate.
Qed.

(** The call also writes into its argument: the frame handed in comes out
    with the distance column set on every row, under the labels it had. *)
Lemma aggregate_to_daily_argument (raw_data : DataFrame) :
  fst (aggregate_to_daily raw_data) = on_rows with_strike_distance raw_data.
Proof. reflexivity. Qed.
End AggregateFacts.

(** ** The theorems at sample inputs *)

Open Scope string_scope.

Lemma calculate_kpis_zero_pnl_is_loss_at_sample :
  Samples.trades <> []
  /\ (Kpi.wins (Kpi.calculate_kpis Samples.trades 1)
      + Kpi.losses (Kpi.calculate_kpis Samples.trades 1)
      = Kpi.total_trades (Kpi.calculate_kpis Samples.trades 1))%nat.
Proof.
  assert (H : Samples.trades <> []) by discriminate.
  split; [exact H|].
  exact (proj1 (proj2 (proj2 (proj2
           (KpiFacts.calculate_kpis_zero_pnl_is_loss Samples.trades 1 H))))).
Defined.

Lemma calculate_kpis_drawdown_at_sample :
  Samples.trades <> []
  /\ forall r,
      In r (Kpi.daily_data (Kpi.calculate_kpis Samples.trades 1)) ->
      Kpi.max_drawdown (Kpi.calculate_kpis Samples.trades 1)
      <= Kpi.drawdown r.
Proof.
  assert (H : Samples.trades <> []) by discriminate.
  split; [exact H|].
  exact (proj1 (proj2
           (KpiFacts.calculate_kpis_drawdown Samples.trades 1 H))).
Defined.


Lemma calculate_rsi_zero_loss_at_sample :
  nth_error (Simplified.rolling_loss [100; 101; 102] 2) 1
  = Some (Some (- ((0 + 0 + 0) / inject_Z 2)))
  /\ - ((0 + 0 + 0) / inject_Z 2) == 0
  /\ exists g,
      nth_error (Simplified.rolling_gain [100; 101; 102] 2) 1
      = Some (Some g)
      /\ 0 <= g.
Proof.
  assert (H1 : nth_error (Simplified.rolling_loss [100; 101; 102] 2) 1
               = Some (Some (- ((0 + 0 + 0) / inject_Z 2))))
    by reflexivity.
  assert (H2 : - ((0 + 0 + 0) / inject_Z 2) == 0) by reflexivity.
  split; [exact H1|]. split; [exact H2|].
  destruct (IndicatorFacts.calculate_rsi_zero_loss _ _ _ _ H1 H2)
    as (g & Hg & Hpos & _).
  exists g. split; assumption.
Defined.

Lemma fair_entry_cost_clamped_at_sample :
  0 < 100
  /\ (forall z, 165 # 100 <= z -> 95 # 100 <= Simplified.cdf_line z)
  /\ (exists p,
         Simplified.calculate_probability_itm Simplified.cdf_line true
                                              105 100 (1 # 100)
         = ret (Fin p)
         /\ 5 # 100 <= p <= 95 # 100)
  /\ (exists cost p,
         Simplified.calculate_fair_entry_cost Simplified.cdf_line true
                                              105 100 10 (1 # 100)
         = ret (Fin cost, Fin p)
         /\ p == 95 # 100 /\ cost == 95 # 10).
Proof.
  assert (HK : 0 < 100) by reflexivity.
  split; [exact HK|]. split; [exact PricingFacts.cdf_line_high|].
  destruct (PricingFacts.fair_entry_cost_clamped Simplified.cdf_line true)
    as [Hgen Hscen].
  split.
  - destruct (Hgen 105 100 10 (1 # 100) HK) as (p & Hp & _ & Hr & _).
    exists p. split; assumption.
  - exact (Hscen PricingFacts.cdf_line_high).
Defined.

Lemma short_history_contributes_no_trade_at_sample :
  (length (filter (fun r => String.eqb (Simplified.Ticker r) "B")
                  Samples.raw_data) < 14)%nat
  /\ Simplified.calculate_rsi
       (map Simplified.ExpValue
            (filter (fun r => String.eqb (Simplified.Ticker r) "B")
                    Samples.raw_data)) 14
     = [NaN; NaN].
Proof.
  assert (H : (length (filter (fun r => String.eqb (Simplified.Ticker r) "B")
                              Samples.raw_data) < 14)%nat)
    by (vm_compute; lia).
  split; [exact H|].
  exact (proj1 (BacktestFacts.short_history_contributes_no_trade
                  Simplified.cdf_line true Samples.raw_data 14 30 70
                  (1 # 100) "B" H)).
Defined.

Lemma aggregate_to_daily_idempotent_at_sample :
  NoDup (Simplified.labels (Simplified.DataFrame_of Samples.raw_data))
  /\ Simplified.DataFrame_of Samples.raw_data <> []
  /\ exists d,
      Simplified.daily_of (Simplified.DataFrame_of Samples.raw_data) = ret d
      /\ Simplified.daily_of d = ret d
      /\ length d = 3%nat.
Proof.
  assert (Hnd : NoDup (Simplified.labels
                         (Simplified.DataFrame_of Samples.raw_data)))
    by (rewrite AggregateFacts.labels_DataFrame_of;
        apply AggregateFacts.NoDup_RangeIndex).
  assert (H : Simplified.DataFrame_of Samples.raw_data <> [])
    by discriminate.
  split; [exact Hnd|]. split; [exact H|].
  destruct (proj2 (proj1 AggregateFacts.aggregate_to_daily_idempotent
                         (Simplified.DataFrame_of Samples.raw_data) Hnd) H)
    as (d & H1 & H2 & _).
  exists d. split; [exact H1|]. split; [exact H2|].
  vm_compute in H1. inversion H1. reflexivity.
Defined.

Lemma load_from_s3_missing_artifact_at_sample :
  Samples.store "bucket"
                (Results.run_folder None "backtest/results"
                 ++ "/kpi_summary.json") = None
  /\ exists msg,
      Results.load_from_s3 string string Samples.read_csv Samples.read_json
                           Samples.read_csv "{}" "now"
                           Samples.store "bucket" None "backtest/results"
      = raise (FileNotFoundError msg).
Proof.
  assert (H : Samples.store "bucket"
                (Results.run_folder None "backtest/results"
                 ++ "/kpi_summary.json") = None) by reflexivity.
  split; [exact H|].
  exact (ResultsFacts.load_from_s3_missing_artifact
           string string Samples.read_csv Samples.read_json Samples.read_csv
           "{}" "now" Samples.store "bucket" None
           "backtest/results" (or_intror (or_introl H))).
Defined.

Lemma calculate_metrics_zero_pnl_uncounted_at_sample :
  In Samples.break_even (Simplified.traded Samples.backtest_results)
  /\ Simplified.pnl Samples.break_even = Fin 0
  /\ exists m,
      Simplified.calculate_metrics Samples.backtest_results
      = Simplified.Metrics m
      /\ (Simplified.winning_trades m + Simplified.losing_trades m
          < Simplified.total_trades m)%nat.
Proof.
  assert (H : In Samples.break_even
                 (Simplified.traded Samples.backtest_results))
    by (left; reflexivity).
  split; [exact H|]. split; [reflexivity|].
  destruct (MetricsFacts.calculate_metrics_zero_pnl_uncounted
              Samples.backtest_results Samples.break_even 0 H eq_refl
              (Qeq_refl 0))
    as (m & Hm & _ & _ & _ & _ & _ & Hlt & _).
  exists m. split; assumption.
Defined.

(** * Further properties *)

(** ** kpi_calculator.py: the three-tier pricer *)

Module TierFacts.
Import Kpi.

Lemma tier_cases (E K : Q) :
  (K * (1 # 100) < E - K /\ calculate_tier_entry_cost E K = 75 # 10)
  \/ (E - K <= K * (1 # 100) /\ E - K < - (K * (1 # 100))
      /\ calculate_tier_entry_cost E K = 25 # 10)
  \/ (E - K <= K * (1 # 100) /\ - (K * (1 # 100)) <= E - K
      /\ calculate_tier_entry_cost E K = 5).
Proof.
  unfold calculate_tier_entry_cost.
  destruct (Qltb (K * (1 # 100)) (E - K)) eqn:E1.
  - left. split; [now apply Qltb_lt|reflexivity].
  - apply Qltb_ge in E1. right.
    destruct (Qltb (E - K) (- (K * (1 # 100)))) eqn:E2.
    + left. split; [exact E1|]. split; [now apply Qltb_lt|reflexivity].
    + right. split; [exact E1|]. split; [now apply Qltb_ge|reflexivity].
Qed.

(** The tier price never decreases when the expected value rises, for any
    strike, and is one of the three tier prices. *)
Theorem tier_entry_cost_monotone (E1 E2 K : Q) :
  E1 <= E2 ->
  calculate_tier_entry_cost E1 K <= calculate_tier_entry_cost E2 K
  /\ (calculate_tier_entry_cost E1 K = 25 # 10
      \/ calculate_tier_entry_cost E1 K = 5
      \/ calculate_tier_entry_cost E1 K = 75 # 10).
Proof.
  intro H.
  destruct (tier_cases E1 K) as [(A1 & ->)|[(A1 & B1 & ->)|(A1 & B1 & ->)]];
    destruct (tier_cases E2 K) as [(A2 & ->)|[(A2 & B2 & ->)|(A2 & B2 & ->)]];
    split; auto; try lra; try (vm_compute; discriminate).
Qed.

(** For a strike that is not negative the three tiers are the three zones
    of [E - K] around the band of one percent of the strike. *)
Theorem tier_entry_cost_zones (E K : Q) :
  0 <= K ->
  (calculate_tier_entry_cost E K = 75 # 10 <-> K * (1 # 100) < E - K)
  /\ (calculate_tier_entry_cost E K = 25 # 10
      <-> E - K < - (K * (1 # 100)))
  /\ (calculate_tier_entry_cost E K = 5
      <-> Qabs (E - K) <= K * (1 # 100)).
Proof.
  intro HK.
  destruct (tier_cases E K) as [(A & ->)|[(A & B & ->)|(A & B & ->)]];
    (split; [|split]); split; intro H; try discriminate; try reflexivity;
      try lra.
  - apply Qabs_Qle_condition in H. lra.
  - apply Qabs_Qle_condition in H. lra.
  - apply Qabs_Qle_condition. lra.
Qed.

(** With a negative strike the band is empty and the at-the-money price
    is never returned: an expected value equal to the strike is priced as
    far in the money. *)
Theorem tier_entry_cost_negative_strike (E K : Q) :
  K < 0 ->
  calculate_tier_entry_cost E K <> 5
  /\ calculate_tier_entry_cost K K = 75 # 10.
Proof.
  intro HK. split.
  - destruct (tier_cases E K) as [(A & ->)|[(A & B & ->)|(A & B & _)]];
      try discriminate. lra.
  - destruct (tier_cases K K) as [(A & ->)|[(A & B & _)|(A & B & _)]];
      [reflexivity|lra|lra].
Qed.

End TierFacts.

(** ** kpi_calculator.py: sums, dates and the daily table *)

Lemma fold_plus_shift (l : list Q) (a : Q) :
  fold_left Qplus l a == a + series_sum l.
Proof.
  unfold series_sum. revert a. induction l as [|x l IH]; intro a; simpl.
  - lra.
  - rewrite (IH (a + x)), (IH (0 + x)). lra.
Qed.

Lemma series_sum_cons (x : Q) (l : list Q) :
  series_sum (x :: l) == x + series_sum l.
Proof. unfold series_sum at 1. simpl. rewrite fold_plus_shift. lra. Qed.

Lemma series_sum_app (l1 l2 : list Q) :
  series_sum (l1 ++ l2) == series_sum l1 + series_sum l2.
Proof.
  induction l1 as [|x l1 IH]; simpl.
  - unfold series_sum at 2. simpl. lra.
  - rewrite !series_sum_cons, IH. lra.
Qed.

(** A cell of a running sum is the sum of the cells up to it. *)
Lemma cumsum_from_nth (l : list Q) (a : Q) (i : nat) (c : Q) :
  nth_error (cumsum_from a l) i = Some c ->
  c == a + series_sum (firstn (S i) l).
Proof.
  revert a i c. induction l as [|x l IH]; intros a i c H.
  - destruct i; discriminate.
  - destruct i as [|i]; simpl in H.
    + inversion H; subst. simpl. rewrite series_sum_cons.
      unfold series_sum. simpl. lra.
    + apply IH in H. rewrite H.
      change (firstn (S (S i)) (x :: l)) with (x :: firstn (S i) l).
      rewrite series_sum_cons. lra.
Qed.

Lemma cumsum_nth (l : list Q) (i : nat) (c : Q) :
  nth_error (cumsum l) i = Some c -> c == series_sum (firstn (S i) l).
Proof.
  destruct l as [|x l]; [destruct i; discriminate|].
  destruct i as [|i]; simpl; intro H.
  - inversion H; subst. rewrite series_sum_cons. unfold series_sum. simpl.
    lra.
  - apply cumsum_from_nth in H. rewrite H.
    change (x :: match l with [] => [] | a :: l0 => a :: firstn i l0 end)
      with (x :: firstn (S i) l).
    rewrite series_sum_cons. lra.
Qed.

Module KpiTableFacts.
Import Kpi KpiFacts.

Lemma groupby_date_nth (trades : list trade) (i : nat) (d : Z) (p e : Q) :
  nth_error (groupby_date trades) i = Some (d, p, e) ->
  nth_error (group_keys Z.compare (map Date trades)) i = Some d
  /\ p = series_sum (map pnl (on_date d trades))
  /\ e = series_sum (map entry_cost (on_date d trades)).
Proof.
  unfold groupby_date. rewrite nth_error_map.
  destruct (nth_error (group_keys Z.compare (map Date trades)) i) as [d'|];
    simpl; [|discriminate].
  intro H. inversion H; subst. auto.
Qed.

(** The daily table has one row per trade date, dates strictly
    increasing, and the pnl and entry cost of a row are the sums over the
    trades of its date. *)
Theorem daily_table_groups (trades : list trade) (c : Q) :
  let daily := daily_data (calculate_kpis trades c) in
  StronglySorted Z.lt (map d_Date daily)
  /\ (forall d, In d (map d_Date daily) <-> In d (map Date trades))
  /\ (forall r, In r daily ->
        d_pnl r = series_sum (map pnl (on_date (d_Date r) trades))
        /\ d_entry_cost r
           = series_sum (map entry_cost (on_date (d_Date r) trades))).
Proof.
  destruct trades as [|t0 rest].
  { simpl. split; [constructor|]. split; [tauto|contradiction]. }
  set (trades := t0 :: rest). intro daily.
  assert (Hd : daily = trades_by_date trades) by reflexivity.
  rewrite Hd. rewrite trades_by_date_dates.
  split; [apply Z_group_keys_sorted|]. split.
  - intro d. apply group_keys_In. apply Z.compare_eq.
  - intros r Hr. apply In_nth_error in Hr. destruct Hr as (i & Hi).
    rewrite trades_by_date_eq in Hi. apply daily_rows_nth in Hi.
    destruct Hi as (Hg & _). apply groupby_date_nth in Hg.
    tauto.
Qed.

Lemma sum_zeros {A} (ks : list A) : series_sum (map (fun _ => 0) ks) == 0.
Proof.
  induction ks as [|k ks IH]; simpl; [reflexivity|].
  rewrite series_sum_cons, IH. lra.
Qed.

Lemma sum_pointwise {A} (f g h : A -> Q) (ks : list A) :
  (forall k, In k ks -> h k == f k + g k) ->
  series_sum (map h ks) == series_sum (map f ks) + series_sum (map g ks).
Proof.
  induction ks as [|k ks IH]; intro H; simpl.
  - unfold series_sum. simpl. lra.
  - rewrite !series_sum_cons, IH by (intros; apply H; now right).
    rewrite (H k) by now left. lra.
Qed.

Lemma sum_indicator (x : Z) (v : Q) (ks : list Z) :
  NoDup ks -> In x ks ->
  series_sum (map (fun d => if (x =? d)%Z then v else 0) ks) == v.
Proof.
  induction 1 as [|k ks Hnotin Hnd IH]; intro Hin; [contradiction|].
  simpl. rewrite series_sum_cons. destruct Hin as [->|Hin].
  - rewrite Z.eqb_refl.
    assert (E : series_sum (map (fun d => if (x =? d)%Z then v else 0) ks)
                == 0).
    { clear IH Hnd. induction ks as [|k ks IH]; simpl; [reflexivity|].
      rewrite series_sum_cons.
      destruct (x =? k)%Z eqn:Ek.
      - apply Z.eqb_eq in Ek. subst. exfalso. apply Hnotin. now left.
      - rewrite IH; [lra|]. intro Hx. apply Hnotin. now right. }
    rewrite E. lra.
  - destruct (x =? k)%Z eqn:Ek.
    + apply Z.eqb_eq in Ek. subst. contradiction.
    + rewrite IH by exact Hin. lra.
Qed.

(** Summing a column group by group gives the sum of the column. *)
Lemma sum_by_groups (f : trade -> Q) (trades : list trade) (ks : list Z) :
  NoDup ks -> (forall t, In t trades -> In (Date t) ks) ->
  series_sum (map (fun d => series_sum (map f (on_date d trades))) ks)
  == series_sum (map f trades).
Proof.
  intros Hnd. induction trades as [|t trades IH]; intro Hin.
  - simpl. apply sum_zeros.
  - change (map f (t :: trades)) with (f t :: map f trades).
    rewrite series_sum_cons.
    rewrite (sum_pointwise
               (fun d => if (Date t =? d)%Z then f t else 0)
               (fun d => series_sum (map f (on_date d trades)))).
    + rewrite sum_indicator; [|exact Hnd|apply Hin; now left].
      rewrite IH by (intros; apply Hin; now right). reflexivity.
    + intros d _. unfold on_date. simpl.
      destruct (Date t =? d)%Z; simpl.
      * apply series_sum_cons.
      * lra.
Qed.

Lemma Z_sorted_NoDup (l : list Z) : StronglySorted Z.lt l -> NoDup l.
Proof.
  induction 1 as [|h t Hs IH Hh]; constructor; [|exact IH].
  intro Hin. rewrite Forall_forall in Hh. specialize (Hh _ Hin). lia.
Qed.

Lemma trades_by_date_pnl (trades : list trade) :
  map d_pnl (trades_by_date trades)
  = map (fun d => series_sum (map pnl (on_date d trades)))
        (group_keys Z.compare (map Date trades)).
Proof.
  apply nth_error_ext. intro i. rewrite !nth_error_map.
  destruct (nth_error (trades_by_date trades) i) as [r|] eqn:Hr; simpl.
  - pose proof Hr as Hr'.
    rewrite trades_by_date_eq in Hr'. apply daily_rows_nth in Hr'.
    destruct Hr' as (Hg & _). apply groupby_date_nth in Hg.
    destruct Hg as (Hk & Hp & _). rewrite Hk. simpl. now rewrite Hp.
  - apply nth_error_None in Hr. rewrite trades_by_date_length in Hr.
    apply nth_error_None in Hr. now rewrite Hr.
Qed.

(** The cumulative pnl of a date is the sum of the daily pnl up to that
    date, and on the last date it is the gross pnl of the run. *)
Theorem cumulative_pnl_running_sum (trades : list trade) (c : Q)
        (i : nat) (r : daily_row) :
  let k := calculate_kpis trades c in
  nth_error (daily_data k) i = Some r ->
  cumulative_pnl r == series_sum (map d_pnl (firstn (S i) (daily_data k)))
  /\ (S i = length (daily_data k) -> cumulative_pnl r == gross_pnl k).
Proof.
  destruct trades as [|t0 rest]; [destruct i; discriminate|].
  set (trades := t0 :: rest). intros k Hr.
  change (daily_data k) with (trades_by_date trades) in *.
  change (gross_pnl k) with (series_sum (map pnl trades)).
  assert (Hc : cumulative_pnl r
               == series_sum (map d_pnl (firstn (S i) (trades_by_date trades)))).
  { pose proof Hr as Hr'.
    rewrite trades_by_date_eq in Hr'. apply daily_rows_nth in Hr'.
    destruct Hr' as (_ & Hcum & _). apply cumsum_nth in Hcum.
    rewrite Hcum, <- firstn_map.
    assert (E : map (fun r : Z * Q * Q => snd (fst r)) (groupby_date trades)
                = map d_pnl (trades_by_date trades)).
    { rewrite trades_by_date_pnl. unfold groupby_date. rewrite map_map.
      reflexivity. }
    rewrite E. reflexivity. }
  split; [exact Hc|].
  intro Hlast. rewrite Hc, Hlast, firstn_all, trades_by_date_pnl.
  apply sum_by_groups.
  - apply Z_sorted_NoDup, Z_group_keys_sorted.
  - intros t Ht. apply group_keys_In; [apply Z.compare_eq|].
    now apply in_map.
Qed.

End KpiTableFacts.

(** ** kpi_calculator.py: rates, date range and drawdown signs *)

Module KpiRangeFacts.
Import Kpi KpiFacts.

(** The win rate is a fraction: between 0 and 1 on every trade set. *)
Theorem win_rate_is_fraction (trades : list trade) (c : Q) :
  0 <= win_rate (calculate_kpis trades c) <= 1.
Proof.
  destruct trades as [|t0 rest]; [simpl; split; discriminate|].
  set (trades := t0 :: rest).
  change (win_rate (calculate_kpis trades c))
    with (inject_Z (Z.of_nat (length (filter (fun t => Qltb 0 (pnl t)) trades)))
          / inject_Z (Z.of_nat (length trades))).
  pose proof (filter_length_le (fun t => Qltb 0 (pnl t)) trades) as Hle.
  assert (Hpos : 0 < inject_Z (Z.of_nat (length trades))).
  { change 0 with (inject_Z 0). rewrite <- Zlt_Qlt. simpl. lia. }
  split.
  - apply Qle_shift_div_l; [exact Hpos|]. rewrite Qmult_0_l.
    change 0 with (inject_Z 0). rewrite <- Zle_Qle. lia.
  - apply Qle_shift_div_r; [exact Hpos|]. rewrite Qmult_1_l.
    rewrite <- Zle_Qle. lia.
Qed.

Lemma fold_min_spec (l : list Z) (a : Z) :
  (fold_left Z.min l a <= a)%Z
  /\ (forall x, In x l -> (fold_left Z.min l a <= x)%Z)
  /\ (fold_left Z.min l a = a \/ In (fold_left Z.min l a) l).
Proof.
  revert a. induction l as [|x l IH]; intro a; simpl.
  - split; [lia|]. split; [contradiction|now left].
  - destruct (IH (Z.min a x)) as (H1 & H2 & H3). split; [lia|]. split.
    + intros y [->|Hy]; [lia|now apply H2].
    + destruct H3 as [H3|H3]; [|now right; right].
      rewrite H3. destruct (Z.min_spec a x) as [[_ ->]|[_ ->]]; auto.
Qed.

Lemma fold_max_spec (l : list Z) (a : Z) :
  (a <= fold_left Z.max l a)%Z
  /\ (forall x, In x l -> (x <= fold_left Z.max l a)%Z)
  /\ (fold_left Z.max l a = a \/ In (fold_left Z.max l a) l).
Proof.
  revert a. induction l as [|x l IH]; intro a; simpl.
  - split; [lia|]. split; [contradiction|now left].
  - destruct (IH (Z.max a x)) as (H1 & H2 & H3). split; [lia|]. split.
    + intros y [->|Hy]; [lia|now apply H2].
    + destruct H3 as [H3|H3]; [|now right; right].
      rewrite H3. destruct (Z.max_spec a x) as [[_ ->]|[_ ->]]; auto.
Qed.

(** The date range is the least and the greatest trade date, which are the
    dates of the first and of the last row of the daily table. *)
Theorem date_range_spans_trades (trades : list trade) (c : Q) :
  trades <> [] ->
  let k := calculate_kpis trades c in
  exists lo hi,
    date_start k = Some lo /\ date_end k = Some hi
    /\ In lo (map Date trades) /\ In hi (map Date trades)
    /\ (forall t, In t trades -> (lo <= Date t <= hi)%Z)
    /\ (forall r, nth_error (daily_data k) 0 = Some r -> d_Date r = lo)
    /\ (forall r, nth_error (daily_data k) (length (daily_data k) - 1)
                  = Some r -> d_Date r = hi).
Proof.
  destruct trades as [|t0 rest]; [congruence|]. intros _.
  set (trades := t0 :: rest). intro k.
  change (daily_data k) with (trades_by_date trades).
  exists (date_min t0 rest), (date_max t0 rest).
  destruct (fold_min_spec (map Date rest) (Date t0)) as (Hm1 & Hm2 & Hm3).
  destruct (fold_max_spec (map Date rest) (Date t0)) as (HM1 & HM2 & HM3).
  fold (date_min t0 rest) in Hm1, Hm2, Hm3.
  fold (date_max t0 rest) in HM1, HM2, HM3.
  assert (Hlo : In (date_min t0 rest) (map Date trades))
    by (simpl; destruct Hm3 as [->|H]; auto).
  assert (Hhi : In (date_max t0 rest) (map Date trades))
    by (simpl; destruct HM3 as [->|H]; auto).
  assert (Hall : forall t, In t trades ->
                           (date_min t0 rest <= Date t <= date_max t0 rest)%Z).
  { intros t [<-|Ht]; [lia|]. split; [apply Hm2|apply HM2]; now apply in_map. }
  assert (Hkeys : forall d, In d (map d_Date (trades_by_date trades))
                            <-> In d (map Date trades)).
  { intro d. rewrite trades_by_date_dates. apply group_keys_In.
    apply Z.compare_eq. }
  assert (Hsorted : StronglySorted Z.lt (map d_Date (trades_by_date trades)))
    by (rewrite trades_by_date_dates; apply Z_group_keys_sorted).
  assert (Hrow : forall i r, nth_error (trades_by_date trades) i = Some r ->
                   (date_min t0 rest <= d_Date r <= date_max t0 rest)%Z).
  { intros i r Hr. apply nth_error_In in Hr.
    apply (in_map d_Date) in Hr. apply Hkeys in Hr.
    apply in_map_iff in Hr. destruct Hr as (t & <- & Ht). now apply Hall. }
  repeat split; auto; try (now apply Hall).
  - intros r Hr. apply Hkeys in Hlo. apply In_nth_error in Hlo.
    destruct Hlo as (j & Hj).
    destruct j as [|j].
    + rewrite nth_error_map, Hr in Hj. simpl in Hj. now inversion Hj.
    + pose proof (sorted_nth_lt _ 0 (S j) (d_Date r) (date_min t0 rest)
                                Hsorted) as Hlt.
      rewrite nth_error_map, Hr in Hlt. specialize (Hlt ltac:(lia) eq_refl Hj).
      specialize (Hrow _ _ Hr). lia.
  - intros r Hr. apply Hkeys in Hhi. apply In_nth_error in Hhi.
    destruct Hhi as (j & Hj).
    assert (Hjlt : (j < length (trades_by_date trades))%nat).
    { rewrite <- (length_map d_Date). apply nth_error_Some. congruence. }
    destruct (Nat.eq_dec j (length (trades_by_date trades) - 1)) as [->|Hne].
    + rewrite nth_error_map, Hr in Hj. simpl in Hj. now inversion Hj.
    + pose proof (sorted_nth_lt _ j (length (trades_by_date trades) - 1)
                                (date_max t0 rest) (d_Date r) Hsorted)
        as Hlt.
      rewrite !nth_error_map in Hlt. rewrite Hr in Hlt.
      rewrite nth_error_map in Hj.
      specialize (Hlt ltac:(lia) Hj eq_refl).
      specialize (Hrow _ _ Hr). lia.
Qed.

(** Signs of the drawdown figures: the first date has drawdown 0, the
    worst drawdown and its percentage are never positive, and the
    percentage is 0 when the running peak never rises above 0. *)
Theorem drawdown_figures_nonpositive (trades : list trade) (c : Q) :
  let k := calculate_kpis trades c in
  max_drawdown k <= 0
  /\ max_drawdown_pct k <= 0
  /\ (forall r, nth_error (daily_data k) 0 = Some r -> drawdown r == 0)
  /\ ((forall r, In r (daily_data k) -> running_max r <= 0) ->
      max_drawdown_pct k = 0).
Proof.
  destruct trades as [|t0 rest].
  { simpl. repeat split; try discriminate. }
  set (trades := t0 :: rest). intro k.
  assert (Hne : trades <> []) by discriminate.
  destruct (calculate_kpis_drawdown trades c Hne) as (Hrows & Hlb & r1 & Hr1 & Hmin).
  fold k in Hrows, Hlb, Hr1, Hmin.
  assert (Hneg : max_drawdown k <= 0).
  { rewrite <- Hmin. apply In_nth_error in Hr1. destruct Hr1 as (i & Hi).
    now destruct (Hrows _ _ Hi) as (_ & _ & _ & H). }
  split; [exact Hneg|].
  set (peak := series_max (map running_max (trades_by_date trades))).
  assert (Hpct : max_drawdown_pct k
                 = if Qltb 0 peak then max_drawdown k / peak * 100 else 0)
    by reflexivity.
  split; [|split].
  - rewrite Hpct. destruct (Qltb 0 peak) eqn:E; [|apply Qle_refl].
    apply Qltb_lt in E.
    assert (H : max_drawdown k / peak <= 0).
    { apply Qle_shift_div_r; [exact E|]. now rewrite Qmult_0_l. }
    nra.
  - intros r Hr. destruct (Hrows _ _ Hr) as (Hd & Hub & (j & r' & Hj & Hr' & Hc) & _).
    assert (j = 0)%nat by lia. subst j. rewrite Hr in Hr'. inversion Hr'; subst.
    rewrite Hd, Hc. lra.
  - intro Hall. rewrite Hpct.
    destruct (Qltb 0 peak) eqn:E; [|reflexivity].
    apply Qltb_lt in E. exfalso.
    assert (Hp : exists r, In r (trades_by_date trades) /\ peak = running_max r).
    { unfold peak.
      pose proof (trades_by_date_nonempty trades Hne) as Hd.
      destruct (trades_by_date trades) as [|r0 rows]; [congruence|].
      simpl. clear. revert r0.
      induction rows as [|r rows IH]; intro r0; simpl.
      - exists r0. auto.
      - unfold qmax at 2. destruct (Qle_bool (running_max r0) (running_max r)).
        + destruct (IH r) as (x & [<-|Hx] & Hm); eauto.
        + destruct (IH r0) as (x & [<-|Hx] & Hm); eauto. }
    destruct Hp as (r & Hr & Hm). specialize (Hall r Hr). rewrite Hm in E.
    apply (Qlt_not_le _ _ E Hall).
Qed.

End KpiRangeFacts.

(** ** backtest_simplified.py: range and shape of the oscillator *)

Module IndicatorRangeFacts.
Import Simplified IndicatorFacts.

Lemma series_sum_nonpos (l : list Q) :
  Forall (fun x => x <= 0) l -> series_sum l <= 0.
Proof.
  induction 1 as [|x l Hx Hl IH].
  - unfold series_sum. simpl. apply Qle_refl.
  - rewrite series_sum_cons. lra.
Qed.

Lemma where_neg_nonpos (d : option Q) : where_neg d <= 0.
Proof.
  destruct d as [v|]; simpl; [|apply Qle_refl].
  destruct (Qltb v 0) eqn:E; [|apply Qle_refl].
  apply Qltb_lt in E. now apply Qlt_le_weak.
Qed.

(** A rolling average loss is never negative. *)
Lemma rolling_loss_nonneg (prices : list Q) (period i : nat) (l : Q) :
  nth_error (rolling_loss prices period) i = Some (Some l) -> 0 <= l.
Proof.
  unfold rolling_loss. intro H.
  assert (Hi : (i < length (map where_neg (diff prices)))%nat).
  { rewrite <- (rolling_mean_length period),
      <- (length_map (option_map Qopp)).
    apply nth_error_Some. congruence. }
  rewrite nth_error_map, rolling_mean_nth in H by exact Hi.
  destruct ((period =? 0)%nat || (i + 1 <? period)%nat) eqn:E;
    [discriminate|].
  simpl in H. inversion H; subst; clear H.
  apply orb_false_iff in E. destruct E as [E _]. apply Nat.eqb_neq in E.
  assert (Hp : 0 < inject_Z (Z.of_nat period)).
  { change 0 with (inject_Z 0). rewrite <- Zlt_Qlt. lia. }
  assert (Hs : series_sum (window period i (map where_neg (diff prices)))
               <= 0).
  { apply series_sum_nonpos. apply Forall_forall. intros x Hx.
    apply window_incl in Hx. apply in_map_iff in Hx.
    destruct Hx as (d & <- & _). apply where_neg_nonpos. }
  assert (Hq : series_sum (window period i (map where_neg (diff prices)))
               / inject_Z (Z.of_nat period) <= 0).
  { apply Qle_shift_div_r; [exact Hp|]. now rewrite Qmult_0_l. }
  lra.
Qed.

Lemma rsi_cells_nth_inv (gain loss : list (option Q)) (i : nat) (x : xnum) :
  nth_error (rsi_cells gain loss) i = Some x ->
  exists g l, nth_error gain i = Some g /\ nth_error loss i = Some l
              /\ x = rsi_cell g l.
Proof.
  revert loss i. induction gain as [|g0 gain IH]; intros [|l0 loss] [|i];
    simpl; intro H; try discriminate.
  - inversion H. eauto.
  - now apply IH.
Qed.

Lemma rsi_cells_length (gain loss : list (option Q)) :
  length gain = length loss -> length (rsi_cells gain loss) = length gain.
Proof.
  revert loss. induction gain as [|g gain IH]; intros [|l loss] H;
    simpl in *; try discriminate; auto.
Qed.

(** One oscillator cell per price. *)
Lemma calculate_rsi_length (prices : list Q) (period : nat) :
  length (calculate_rsi prices period) = length prices.
Proof.
  unfold calculate_rsi, rolling_gain, rolling_loss.
  rewrite rsi_cells_length; rewrite ?length_map, !rolling_mean_length,
    !length_map, !diff_length; reflexivity.
Qed.

(** The oscillator on a gain that is not negative over a positive loss. *)
Lemma rsi_cell_regular (g l : Q) :
  0 <= g -> 0 < l ->
  exists q, rsi_cell (Some g) (Some l) = Fin q
            /\ q == 100 - 100 / (1 + g / l) /\ 0 <= q < 100.
Proof.
  intros Hg Hl. unfold rsi_cell. simpl.
  assert (E1 : Qeq_bool l 0 = false).
  { apply PricingFacts.Qeq_bool_false. intro H0. rewrite H0 in Hl.
    apply (Qlt_irrefl _ Hl). }
  rewrite E1. simpl.
  assert (Hrs : 0 <= g / l).
  { apply Qle_shift_div_l; [exact Hl|]. now rewrite Qmult_0_l. }
  assert (Hden : 0 < 1 + g / l) by lra.
  assert (E2 : Qeq_bool (1 + g / l) 0 = false).
  { apply PricingFacts.Qeq_bool_false. intro H0. rewrite H0 in Hden.
    apply (Qlt_irrefl _ Hden). }
  rewrite E2. eexists. split; [reflexivity|]. split; [unfold Qminus; reflexivity|].
  assert (Hlow : 0 < 100 / (1 + g / l)).
  { apply Qlt_shift_div_l; [exact Hden|]. rewrite Qmult_0_l. reflexivity. }
  assert (Hup : 100 / (1 + g / l) <= 100).
  { apply Qle_shift_div_r; [exact Hden|]. nra. }
  lra.
Qed.

(** Every oscillator cell is NaN or a value between 0 and 100: no infinity
    reaches the result, and it is NaN exactly while the window is not full
    or is flat (average gain and average loss both 0). *)
Theorem calculate_rsi_range (prices : list Q) (period i : nat) (x : xnum) :
  nth_error (calculate_rsi prices period) i = Some x ->
  (x = NaN \/ exists q, x = Fin q /\ 0 <= q <= 100)
  /\ (x = NaN <->
      nth_error (rolling_loss prices period) i = Some None
      \/ exists g l,
           nth_error (rolling_gain prices period) i = Some (Some g)
           /\ nth_error (rolling_loss prices period) i = Some (Some l)
           /\ g == 0 /\ l == 0).
Proof.
  unfold calculate_rsi. intro H.
  apply rsi_cells_nth_inv in H. destruct H as (g & l & Hg & Hl & ->).
  destruct l as [l|].
  - destruct (rolling_loss_defined _ _ _ _ Hl) as (g' & Hg').
    rewrite Hg in Hg'. inversion Hg'; subst g.
    pose proof (rolling_gain_nonneg _ _ _ _ Hg) as Hg0.
    pose proof (rolling_loss_nonneg _ _ _ _ Hl) as Hl0.
    destruct (Qlt_le_dec 0 l) as [Hlpos|Hlz].
    + destruct (rsi_cell_regular g' l Hg0 Hlpos) as (q & -> & _ & Hq).
      split; [right; exists q; split; [reflexivity|lra]|].
      split; [discriminate|].
      intros [H|(g & l' & _ & Hl' & _ & Hz)]; [congruence|].
      rewrite Hl in Hl'. inversion Hl'; subst. lra.
    + assert (Hl00 : l == 0) by lra.
      destruct (Qlt_le_dec 0 g') as [Hgpos|Hgz].
      * rewrite (rsi_cell_saturates _ _ Hl00 Hgpos).
        split; [right; exists 100; split; [reflexivity|lra]|].
        split; [discriminate|].
        intros [H|(g & l' & Hg2 & _ & Hz & _)]; [congruence|].
        rewrite Hg in Hg2. inversion Hg2; subst. lra.
      * assert (Hg00 : g' == 0) by lra.
        rewrite (rsi_cell_flat _ _ Hl00 Hg00).
        split; [now left|]. split; [|reflexivity].
        intros _. right. exists g', l. auto.
  - assert (E : rsi_cell g None = NaN) by (destruct g; reflexivity).
    rewrite E. split; [now left|]. split; [|reflexivity]. intros _. now left.
Qed.

End IndicatorRangeFacts.


(** ** backtest_simplified.py: signals on trending series *)

Module TrendFacts.
Import Simplified IndicatorFacts IndicatorRangeFacts.

Lemma diff_from_nth (l : list Q) (p : Q) (j : nat) (a b : Q) :
  nth_error (p :: l) j = Some a -> nth_error (p :: l) (S j) = Some b ->
  nth_error (diff_from p l) j = Some (Some (b - a)).
Proof.
  revert p j. induction l as [|x l IH]; intros p j Ha Hb.
  - destruct j; simpl in Hb; [discriminate|destruct j; discriminate].
  - destruct j as [|j]; simpl in *.
    + now inversion Ha; inversion Hb; subst.
    + now apply IH.
Qed.

Lemma diff_nth (prices : list Q) (j : nat) (a b : Q) :
  nth_error prices j = Some a -> nth_error prices (S j) = Some b ->
  nth_error (diff prices) (S j) = Some (Some (b - a)).
Proof.
  destruct prices as [|p l]; [destruct j; discriminate|].
  simpl. apply diff_from_nth.
Qed.

Lemma diff_from_cells (l : list Q) (p : Q) (d : option Q) :
  In d (diff_from p l) ->
  exists j a b, nth_error (p :: l) j = Some a
                /\ nth_error (p :: l) (S j) = Some b /\ d = Some (b - a).
Proof.
  revert p. induction l as [|x l IH]; intros p H; simpl in H;
    [contradiction|].
  destruct H as [<-|H].
  - exists O, p, x. auto.
  - destruct (IH x H) as (j & a & b & Ha & Hb & Hd).
    exists (S j), a, b. auto.
Qed.

(** Every cell of [diff] is NaN or the difference of two consecutive
    prices. *)
Lemma diff_cells (prices : list Q) (d : option Q) :
  In d (diff prices) ->
  d = None
  \/ exists j a b, nth_error prices j = Some a
                   /\ nth_error prices (S j) = Some b /\ d = Some (b - a).
Proof.
  destruct prices as [|p l]; [contradiction|]. simpl.
  intros [<-|H]; [now left|]. right. now apply diff_from_cells.
Qed.

Lemma window_last (period i : nat) (l : list Q) :
  (1 <= period)%nat -> (period <= i + 1)%nat ->
  nth_error (window period i l) (period - 1) = nth_error l i.
Proof.
  intros H1 H2. unfold window.
  rewrite nth_error_firstn.
  assert (E : (period - 1 <? period)%nat = true) by (apply Nat.ltb_lt; lia).
  rewrite E, nth_error_skipn. f_equal. lia.
Qed.

Lemma series_sum_pos (l : list Q) (x : Q) :
  Forall (fun y => 0 <= y) l -> In x l -> 0 < x -> 0 < series_sum l.
Proof.
  induction 1 as [|y l Hy Hl IH]; intros Hin Hx; [contradiction|].
  rewrite series_sum_cons.
  assert (H0 : 0 <= series_sum l).
  { unfold series_sum. apply series_sum_nonneg_from; [apply Qle_refl|].
    exact Hl. }
  destruct Hin as [->|Hin]; [lra|].
  specialize (IH Hin Hx). lra.
Qed.

Lemma series_sum_neg (l : list Q) (x : Q) :
  Forall (fun y => y <= 0) l -> In x l -> x < 0 -> series_sum l < 0.
Proof.
  induction 1 as [|y l Hy Hl IH]; intros Hin Hx; [contradiction|].
  rewrite series_sum_cons.
  pose proof (series_sum_nonpos l Hl) as H0.
  destruct Hin as [->|Hin]; [lra|].
  specialize (IH Hin Hx). lra.
Qed.

Lemma series_sum_zero (l : list Q) :
  Forall (fun y => y == 0) l -> series_sum l == 0.
Proof.
  induction 1 as [|y l Hy Hl IH].
  - reflexivity.
  - rewrite series_sum_cons, Hy, IH. lra.
Qed.

(** The two rolling averages on a date whose window is full. *)
Lemma rolling_cells (prices : list Q) (period i : nat) :
  (1 <= period)%nat -> (period <= i + 1)%nat -> (i < length prices)%nat ->
  nth_error (rolling_gain prices period) i
  = Some (Some (series_sum (window period i (map where_pos (diff prices)))
                / inject_Z (Z.of_nat period)))
  /\ nth_error (rolling_loss prices period) i
     = Some (Some (- (series_sum
                        (window period i (map where_neg (diff prices)))
                      / inject_Z (Z.of_nat period)))).
Proof.
  intros H1 H2 Hi. unfold rolling_gain, rolling_loss.
  assert (E : (period =? 0)%nat || (i + 1 <? period)%nat = false).
  { apply orb_false_iff. split; [apply Nat.eqb_neq; lia|].
    apply Nat.ltb_ge; lia. }
  rewrite nth_error_map.
  rewrite !rolling_mean_nth by (now rewrite length_map, diff_length).
  rewrite E. split; reflexivity.
Qed.


(** On a rising series, once the window is full, the average loss is 0
    and the average gain positive. *)
Lemma rising_averages (prices : list Q) (period i : nat) :
  rising prices ->
  (1 <= period)%nat -> (period <= i + 1)%nat -> (1 <= i)%nat ->
  (i < length prices)%nat ->
  exists g l,
    nth_error (rolling_gain prices period) i = Some (Some g)
    /\ nth_error (rolling_loss prices period) i = Some (Some l)
    /\ 0 < g /\ l == 0.
Proof.
  intros Hr H1 H2 H3 Hi.
  destruct (rolling_cells prices period i H1 H2 Hi) as [Hg Hl].
  eexists. eexists. split; [exact Hg|]. split; [exact Hl|].
  assert (Hp : 0 < inject_Z (Z.of_nat period)).
  { change 0 with (inject_Z 0). rewrite <- Zlt_Qlt. lia. }
  split.
  - apply Qlt_shift_div_l; [exact Hp|]. rewrite Qmult_0_l.
    destruct i as [|i]; [lia|].
    destruct (nth_error prices i) as [a|] eqn:Ha;
      [|apply nth_error_None in Ha; lia].
    destruct (nth_error prices (S i)) as [b|] eqn:Hb;
      [|apply nth_error_None in Hb; lia].
    apply (series_sum_pos _ (where_pos (Some (b - a)))).
    + apply Forall_forall. intros x Hx. apply window_incl in Hx.
      apply in_map_iff in Hx. destruct Hx as (d & <- & _).
      apply where_pos_nonneg.
    + eapply nth_error_In. rewrite window_last by assumption.
      rewrite nth_error_map, (diff_nth _ _ _ _ Ha Hb). reflexivity.
    + specialize (Hr _ _ _ Ha Hb). simpl.
      assert (E : Qltb 0 (b - a) = true) by (apply Qltb_lt; lra).
      rewrite E. lra.
  - assert (Hz : series_sum (window period i (map where_neg (diff prices)))
                 == 0).
    { apply series_sum_zero. apply Forall_forall. intros x Hx.
      apply window_incl in Hx. apply in_map_iff in Hx.
      destruct Hx as (d & <- & Hd). apply diff_cells in Hd.
      destruct Hd as [->|(j & a & b & Ha & Hb & ->)]; [reflexivity|].
      specialize (Hr _ _ _ Ha Hb). simpl.
      assert (E : Qltb (b - a) 0 = false) by (apply Qltb_ge; lra).
      rewrite E. reflexivity. }
    rewrite Hz. field. intro H0. rewrite H0 in Hp. apply (Qlt_irrefl _ Hp).
Qed.

Lemma falling_averages (prices : list Q) (period i : nat) :
  falling prices ->
  (1 <= period)%nat -> (period <= i + 1)%nat -> (1 <= i)%nat ->
  (i < length prices)%nat ->
  exists g l,
    nth_error (rolling_gain prices period) i = Some (Some g)
    /\ nth_error (rolling_loss prices period) i = Some (Some l)
    /\ g == 0 /\ 0 < l.
Proof.
  intros Hr H1 H2 H3 Hi.
  destruct (rolling_cells prices period i H1 H2 Hi) as [Hg Hl].
  eexists. eexists. split; [exact Hg|]. split; [exact Hl|].
  assert (Hp : 0 < inject_Z (Z.of_nat period)).
  { change 0 with (inject_Z 0). rewrite <- Zlt_Qlt. lia. }
  split.
  - assert (Hz : series_sum (window period i (map where_pos (diff prices)))
                 == 0).
    { apply series_sum_zero. apply Forall_forall. intros x Hx.
      apply window_incl in Hx. apply in_map_iff in Hx.
      destruct Hx as (d & <- & Hd). apply diff_cells in Hd.
      destruct Hd as [->|(j & a & b & Ha & Hb & ->)]; [reflexivity|].
      specialize (Hr _ _ _ Ha Hb). simpl.
      assert (E : Qltb 0 (b - a) = false) by (apply Qltb_ge; lra).
      rewrite E. reflexivity. }
    rewrite Hz. field. intro H0. rewrite H0 in Hp. apply (Qlt_irrefl _ Hp).
  - assert (Hneg : series_sum (window period i (map where_neg (diff prices)))
                   < 0).
    { destruct i as [|i]; [lia|].
      destruct (nth_error prices i) as [a|] eqn:Ha;
        [|apply nth_error_None in Ha; lia].
      destruct (nth_error prices (S i)) as [b|] eqn:Hb;
        [|apply nth_error_None in Hb; lia].
      apply (series_sum_neg _ (where_neg (Some (b - a)))).
      - apply Forall_forall. intros x Hx. apply window_incl in Hx.
        apply in_map_iff in Hx. destruct Hx as (d & <- & _).
        apply where_neg_nonpos.
      - eapply nth_error_In. rewrite window_last by assumption.
        rewrite nth_error_map, (diff_nth _ _ _ _ Ha Hb). reflexivity.
      - specialize (Hr _ _ _ Ha Hb). simpl.
        assert (E : Qltb (b - a) 0 = true) by (apply Qltb_lt; lra).
        rewrite E. lra. }
    assert (Hq : series_sum (window period i (map where_neg (diff prices)))
                 / inject_Z (Z.of_nat period) < 0).
    { apply Qlt_shift_div_r; [exact Hp|]. now rewrite Qmult_0_l. }
    lra.
Qed.

Lemma attach_rsi_nth (oversold overbought : Q) (data : list obs)
      (rsis : list xnum) (i : nat) (b : bt_row) :
  nth_error (attach_rsi oversold overbought data rsis) i = Some b ->
  exists r x, nth_error data i = Some r /\ nth_error rsis i = Some x
              /\ b = mkBt r x (signal_of oversold overbought x) NaN NaN NaN.
Proof.
  revert rsis i. induction data as [|r data IH]; intros [|x rsis] [|i];
    simpl; intro H; try discriminate.
  - inversion H. eauto.
  - now apply IH.
Qed.

(** The leading dates of any series: until the window is full the
    oscillator is NaN and the signal HOLD. *)
Lemma warm_up_holds (data : list obs) (period : nat)
      (oversold overbought : Q) (i : nat) (b : bt_row) :
  nth_error (generate_rsi_signals data period oversold overbought) i = Some b ->
  (i + 1 < period)%nat -> rsi b = NaN /\ signal b = 0%Z.
Proof.
  unfold generate_rsi_signals. intros H Hi.
  apply attach_rsi_nth in H. destruct H as (r & x & Hr & Hx & ->).
  assert (Hlen : (i < length (map ExpValue data))%nat).
  { rewrite length_map. apply nth_error_Some. congruence. }
  unfold calculate_rsi in Hx. apply rsi_cells_nth_inv in Hx.
  destruct Hx as (g & l & Hg & Hl & ->).
  unfold rolling_loss in Hl.
  rewrite nth_error_map, rolling_mean_nth in Hl
    by (now rewrite length_map, diff_length).
  assert (E : (i + 1 <? period)%nat = true) by now apply Nat.ltb_lt.
  rewrite E, orb_true_r in Hl. simpl in Hl. inversion Hl; subst l.
  assert (En : rsi_cell g None = NaN) by (destruct g; reflexivity).
  simpl. rewrite En. split; reflexivity.
Qed.

(** On a rising series every date from the first full window on has
    oscillator 100, hence SELL when the overbought threshold is below
    100; the dates before it are HOLD. *)
Theorem rising_series_sells (data : list obs) (period : nat)
        (oversold overbought : Q) (i : nat) (b : bt_row) :
  rising (map ExpValue data) -> (1 <= period)%nat ->
  nth_error (generate_rsi_signals data period oversold overbought) i = Some b ->
  ((i + 1 < period)%nat -> rsi b = NaN /\ signal b = 0%Z)
  /\ ((period <= i + 1)%nat -> (1 <= i)%nat ->
      rsi b = Fin 100 /\ (overbought < 100 -> signal b = (-1)%Z)).
Proof.
  intros Hr H1 H. split; [now apply (warm_up_holds data period oversold overbought)|].
  intros H2 H3. unfold generate_rsi_signals in H.
  apply attach_rsi_nth in H. destruct H as (r & x & Hrow & Hx & ->).
  assert (Hlen : (i < length (map ExpValue data))%nat).
  { rewrite length_map. apply nth_error_Some. congruence. }
  destruct (rising_averages _ period i Hr H1 H2 H3 Hlen)
    as (g & l & Hg & Hl & Hgpos & Hl0).
  destruct (calculate_rsi_zero_loss _ _ _ _ Hl Hl0) as (g' & Hg' & _ & Hsat & _).
  rewrite Hg in Hg'. inversion Hg'; subst g'.
  rewrite (Hsat Hgpos) in Hx. inversion Hx; subst x. simpl.
  split; [reflexivity|]. intro Hob. unfold signal_of. simpl.
  assert (E : Qltb overbought 100 = true) by now apply Qltb_lt.
  now rewrite E.
Qed.

(** On a falling series every date from the first full window on has
    oscillator 0, hence BUY when the oversold threshold is above 0 and the
    overbought threshold is not negative. *)
Theorem falling_series_buys (data : list obs) (period : nat)
        (oversold overbought : Q) (i : nat) (b : bt_row) :
  falling (map ExpValue data) -> (1 <= period)%nat ->
  nth_error (generate_rsi_signals data period oversold overbought) i = Some b ->
  ((i + 1 < period)%nat -> rsi b = NaN /\ signal b = 0%Z)
  /\ ((period <= i + 1)%nat -> (1 <= i)%nat ->
      (exists q, rsi b = Fin q /\ q == 0)
      /\ (0 < oversold -> 0 <= overbought -> signal b = 1%Z)).
Proof.
  intros Hr H1 H. split; [now apply (warm_up_holds data period oversold overbought)|].
  intros H2 H3. unfold generate_rsi_signals in H.
  apply attach_rsi_nth in H. destruct H as (r & x & Hrow & Hx & ->).
  assert (Hlen : (i < length (map ExpValue data))%nat).
  { rewrite length_map. apply nth_error_Some. congruence. }
  destruct (falling_averages _ period i Hr H1 H2 H3 Hlen)
    as (g & l & Hg & Hl & Hg0 & Hlpos).
  unfold calculate_rsi in Hx. rewrite (rsi_cells_nth _ _ _ _ _ Hg Hl) in Hx.
  inversion Hx; subst x; clear Hx.
  destruct (rsi_cell_regular g l) as (q & Hq & Hval & _); [lra|exact Hlpos|].
  assert (Hq0 : q == 0).
  { rewrite Hval, Hg0. field. intro H0. rewrite H0 in Hlpos.
    apply (Qlt_irrefl _ Hlpos). }
  simpl. rewrite Hq. split; [eauto|].
  intros Hos Hob. unfold signal_of. simpl.
  assert (E1 : Qltb q oversold = true) by (apply Qltb_lt; lra).
  assert (E2 : Qltb overbought q = false) by (apply Qltb_ge; lra).
  now rewrite E1, E2.
Qed.

End TrendFacts.

(** ** backtest_simplified.py: signals, prices and the result of a run *)

Module EngineFacts.
Import Simplified IndicatorFacts IndicatorRangeFacts TrendFacts BacktestFacts.

Lemma attach_rsi_row (oversold overbought : Q) (data : list obs)
      (rsis : list xnum) :
  length rsis = length data ->
  map row (attach_rsi oversold overbought data rsis) = data
  /\ map rsi (attach_rsi oversold overbought data rsis) = rsis.
Proof.
  revert rsis. induction data as [|r data IH]; intros [|x rsis] H;
    simpl in *; try discriminate; auto.
  destruct (IH rsis) as [H1 H2]; [congruence|]. now rewrite H1, H2.
Qed.

(** [generate_rsi_signals] keeps the rows of the frame in place, attaches
    the oscillator of the [Exp Value] column, and sets the signal by the
    two thresholds: SELL above [overbought], otherwise BUY below
    [oversold], otherwise HOLD; a NaN oscillator is HOLD. When both
    tests hold, SELL wins. *)
Theorem generate_rsi_signals_spec (data : list obs) (period : nat)
        (oversold overbought : Q) :
  let out := generate_rsi_signals data period oversold overbought in
  map row out = data
  /\ map rsi out = calculate_rsi (map ExpValue data) period
  /\ (forall b, In b out ->
        (signal b = (-1)%Z <-> xlt (Fin overbought) (rsi b))
        /\ (signal b = 1%Z <->
            xlt (rsi b) (Fin oversold) /\ ~ xlt (Fin overbought) (rsi b))
        /\ (signal b = 0%Z <->
            ~ xlt (rsi b) (Fin oversold) /\ ~ xlt (Fin overbought) (rsi b))
        /\ (rsi b = NaN -> signal b = 0%Z)
        /\ entry_cost b = NaN /\ probability_itm b = NaN /\ pnl b = NaN).
Proof.
  intro out. unfold out, generate_rsi_signals.
  destruct (attach_rsi_row oversold overbought data
              (calculate_rsi (map ExpValue data) period)) as [H1 H2].
  { now rewrite calculate_rsi_length, length_map. }
  split; [exact H1|]. split; [exact H2|].
  intros b Hb. apply In_nth_error in Hb. destruct Hb as (i & Hi).
  apply attach_rsi_nth in Hi. destruct Hi as (r & x & _ & _ & ->).
  cbn [signal rsi entry_cost probability_itm pnl]. unfold signal_of.
  rewrite <- !xltb_lt.
  destruct (xltb (Fin overbought) x) eqn:E1;
    destruct (xltb x (Fin oversold)) eqn:E2;
    repeat split; try discriminate; try tauto; try congruence;
      try (intros [? ?]; congruence); try (intros ->; simpl in *; congruence).
Qed.

(** Python's [max(lo, min(hi, x))] lands in [[lo, hi]] whatever float [x]
    is: an infinity or NaN included. *)
Lemma py_clamp_any (lo hi : Q) (x : xnum) :
  lo <= hi ->
  exists q, py_max (Fin lo) (py_min (Fin hi) x) = Fin q /\ lo <= q <= hi.
Proof.
  intro Hlh.
  assert (Hhi : exists q, py_max (Fin lo) (Fin hi) = Fin q /\ lo <= q <= hi).
  { unfold py_max. simpl. destruct (Qltb lo hi) eqn:E.
    - exists hi. split; [reflexivity|lra].
    - apply Qltb_ge in E. exists lo. split; [reflexivity|lra]. }
  destruct x as [v| | |]; try exact Hhi.
  - destruct (PricingFacts.py_clamp_finite lo hi v Hlh) as (p & Hp & _ & Hr).
    eauto.
  - exists lo. split; [reflexivity|lra].
Qed.

Section Engine.
Variable norm_cdf : Q -> Q.
Variable python_scalars : bool.

(** The pricer on any strike: it raises exactly for a zero strike handed
    over as a Python float, and whenever it returns, the probability is a
    finite value in [[0.05, 0.95]]. *)
Theorem probability_itm_total_range (E K sigma : Q) :
  (calculate_probability_itm norm_cdf python_scalars E K sigma
   = raise ZeroDivisionError
   <-> python_scalars = true /\ K == 0)
  /\ (forall p,
         calculate_probability_itm norm_cdf python_scalars E K sigma = ret p ->
         exists q, p = Fin q /\ 5 # 100 <= q <= 95 # 100)
  /\ (~ (python_scalars = true /\ K == 0) ->
      exists q,
        calculate_probability_itm norm_cdf python_scalars E K sigma
        = ret (Fin q)).
Proof.
  unfold calculate_probability_itm, true_div.
  rewrite PricingFacts.effective_volatility_eq.
  pose proof (PricingFacts.effective_volatility_pos sigma) as Hs.
  set (s := effective_volatility sigma) in *.
  assert (Hz : Qeq_bool (K * s) 0 = true <-> K == 0).
  { rewrite Qeq_bool_iff. split; intro H.
    - destruct (Qmult_integral _ _ H) as [H0|H0]; [exact H0|].
      rewrite H0 in Hs. exfalso. apply (Qlt_irrefl _ Hs).
    - rewrite H. ring. }
  destruct (Qeq_bool (K * s) 0 && python_scalars) eqn:E0; cbn [bind ret raise].
  - apply andb_true_iff in E0. destruct E0 as [E1 E2]. apply Hz in E1.
    split; [tauto|]. split; [discriminate|]. tauto.
  - destruct (py_clamp_any (5 # 100) (95 # 100)
                (norm_cdf_x norm_cdf (xdiv false (Fin (E - K)) (Fin (K * s)))))
      as (q & Hq & Hr); [discriminate|].
    split; [|split].
    + split; [discriminate|]. intros [Hp HK]. apply Hz in HK.
      rewrite HK, Hp in E0. discriminate.
    + intros p Hp. inversion Hp; subst p. eauto.
    + intros _. exists q. unfold ret. now rewrite Hq.
Qed.

(** A priced row: the entry cost is ten times a probability in
    [[0.05, 0.95]], a row settled in the money gains what is left of the
    payout of 10, and any other row loses its entry cost. No traded row
    breaks even, and no pnl is beyond 9.50 either way. *)
Theorem price_row_pnl (volatility : Q) (r r' : bt_row) :
  signal r <> 0%Z ->
  price_row norm_cdf python_scalars volatility r = ret r' ->
  exists p,
    probability_itm r' = Fin p /\ 5 # 100 <= p <= 95 # 100
    /\ entry_cost r' = Fin (10 * p)
    /\ row r' = row r /\ signal r' = signal r /\ rsi r' = rsi r
    /\ (InTheMoney (row r) = 1%Z ->
        exists w, pnl r' = Fin w /\ w == 10 - 10 * p
                  /\ 1 # 2 <= w <= 19 # 2)
    /\ (InTheMoney (row r) <> 1%Z ->
        exists w, pnl r' = Fin w /\ w == - (10 * p)
                  /\ - (19 # 2) <= w <= - (1 # 2)).
Proof.
  intros Hs H. unfold price_row in H.
  apply Z.eqb_neq in Hs. rewrite Hs in H.
  unfold calculate_fair_entry_cost in H.
  destruct (calculate_probability_itm norm_cdf python_scalars
              (ExpValue (row r)) (StrikePrice (row r)) volatility)
    as [e|pr] eqn:Ep; cbn [bind ret] in H; [discriminate|].
  destruct (probability_itm_total_range (ExpValue (row r))
              (StrikePrice (row r)) volatility) as (_ & Hrange & _).
  destruct (Hrange pr Ep) as (p & -> & Hp).
  inversion H; subst r'; clear H. cbn [fst snd xmul] .
  exists p. cbn [probability_itm entry_cost row signal rsi pnl].
  split; [reflexivity|]. split; [exact Hp|]. split; [reflexivity|].
  split; [reflexivity|]. split; [reflexivity|]. split; [reflexivity|].
  split; intro Hitm.
  - apply Z.eqb_eq in Hitm. rewrite Hitm. eexists. split; [reflexivity|].
    split; [unfold Qminus; reflexivity|]. lra.
  - apply Z.eqb_neq in Hitm. rewrite Hitm. eexists. split; [reflexivity|].
    split; [reflexivity|]. lra.
Qed.
End Engine.

End EngineFacts.


(** ** backtest_simplified.py: the frame a run returns *)

Module RunFacts.
Import Simplified BacktestFacts EngineFacts.

Lemma unique_In (x : string) (l : list string) :
  In x (unique l) <-> In x l.
Proof.
  induction l as [|a l IH]; simpl; [tauto|].
  rewrite filter_In, IH, negb_true_iff, String.eqb_neq.
  destruct (string_dec x a) as [->|Hne]; intuition.
Qed.

Lemma unique_NoDup (l : list string) : NoDup (unique l).
Proof.
  induction l as [|a l IH]; simpl; constructor.
  - rewrite filter_In, negb_true_iff, String.eqb_neq. intros [_ H].
    now apply H.
  - now apply NoDup_filter.
Qed.

Lemma Forall2_map_eq {A B C} (f : A -> C) (g : B -> C) (l : list A)
      (l' : list B) :
  Forall2 (fun a b => g b = f a) l l' -> map g l' = map f l.
Proof. induction 1; simpl; congruence. Qed.


Section Run.
Variable norm_cdf : Q -> Q.
Variable python_scalars : bool.

Lemma backtest_ticker_block (data : list obs) (rsi_period : nat)
      (oversold overbought volatility : Q) (ticker : string)
      (rows : list bt_row) :
  backtest_ticker norm_cdf python_scalars data rsi_period oversold
                  overbought volatility ticker = ret rows ->
  map row rows = filter (fun r => String.eqb (Ticker r) ticker) data
  /\ Forall (fun b => held b \/ settled b) rows.
Proof.
  unfold backtest_ticker.
  set (td := filter (fun r => String.eqb (Ticker r) ticker) data).
  intro H. apply mapM_ret in H.
  destruct (generate_rsi_signals_spec td rsi_period oversold overbought)
    as (Hrow & _ & Hsig).
  split.
  - rewrite <- Hrow. apply Forall2_map_eq.
    eapply Forall2_impl; [|exact H].
    intros a b Hab. now apply price_row_row in Hab.
  - apply Forall_forall. intros b Hb.
    destruct (Forall2_In_r _ _ _ _ H Hb) as (a & Ha & Hab).
    destruct (Hsig a Ha) as (_ & _ & _ & _ & Hc & Hp & Hn).
    destruct (Z.eq_dec (signal a) 0) as [Hz|Hnz].
    + left. unfold price_row in Hab. rewrite Hz in Hab. simpl in Hab.
      inversion Hab; subst b. repeat split; assumption.
    + right. destruct (price_row_pnl _ _ _ _ _ Hnz Hab)
        as (p & _ & _ & _ & Hr & Hs & _ & Hwin & Hlose).
      split; [congruence|]. rewrite Hr.
      destruct (Z.eq_dec (InTheMoney (row a)) 1) as [Hi|Hi].
      * destruct (Hwin Hi) as (w & Hw & _ & Hrange). exists w. auto.
      * destruct (Hlose Hi) as (w & Hw & _ & Hrange). exists w. auto.
Qed.

Lemma ticker_count (x : string) (ks : list string) :
  NoDup ks -> In x ks ->
  length (filter (fun tk => String.eqb x tk) ks) = 1%nat.
Proof.
  induction 1 as [|k ks Hnotin Hnd IH]; intro Hin; [contradiction|].
  simpl. destruct Hin as [->|Hin].
  - rewrite String.eqb_refl. simpl. f_equal.
    apply length_zero_iff_nil.
    destruct (filter _ ks) as [|y rest] eqn:Ef; [reflexivity|].
    exfalso. assert (Hy : In y (filter (fun tk => String.eqb x tk) ks))
      by (rewrite Ef; now left).
    apply filter_In in Hy. destruct Hy as [Hy He].
    apply String.eqb_eq in He. now subst.
  - destruct (String.eqb x k) eqn:E.
    + apply String.eqb_eq in E. now subst.
    + now apply IH.
Qed.

Lemma blocks_cons_length (r : obs) (l : list obs) (ks : list string) :
  length (flat_map (fun tk => filter (fun r => String.eqb (Ticker r) tk)
                                     (r :: l)) ks)
  = (length (filter (fun tk => String.eqb (Ticker r) tk) ks)
     + length (flat_map (fun tk => filter (fun r => String.eqb (Ticker r) tk)
                                          l) ks))%nat.
Proof.
  induction ks as [|k ks IH]; [reflexivity|].
  cbn [flat_map]. rewrite !length_app, IH. simpl.
  destruct (String.eqb (Ticker r) k); simpl; lia.
Qed.

(** The blocks of the instruments, put end to end, have as many rows as
    the frame. *)
Lemma blocks_length (data : list obs) :
  length (flat_map (fun tk => filter (fun r => String.eqb (Ticker r) tk) data)
                   (unique (map Ticker data)))
  = length data.
Proof.
  assert (H : forall ks (l : list obs),
             NoDup ks -> (forall r, In r l -> In (Ticker r) ks) ->
             length (flat_map (fun tk => filter
                                 (fun r => String.eqb (Ticker r) tk) l) ks)
             = length l).
  { intros ks l Hnd. induction l as [|r l IH]; intro Hin.
    - clear. induction ks; simpl; auto.
    - rewrite blocks_cons_length, ticker_count, IH; auto.
      + intros; apply Hin; now right.
      + apply Hin; now left. }
  apply H; [apply unique_NoDup|].
  intros r Hr. apply unique_In. now apply in_map.
Qed.


(** What a run returns: the blocks of the instruments in order of first
    appearance, each with its rows in frame order, one row per row of the
    frame; every row is either held (no signal, no price columns) or
    settled. *)
Theorem backtest_strategy_frame (data : list obs) (rsi_period : nat)
        (oversold overbought volatility : Q) (out : list bt_row) :
  backtest_strategy norm_cdf python_scalars data rsi_period oversold
                    overbought volatility = ret out ->
  map row out
  = flat_map (fun tk => filter (fun r => String.eqb (Ticker r) tk) data)
             (unique (map Ticker data))
  /\ length out = length data
  /\ Forall (fun b => held b \/ settled b) out.
Proof.
  unfold backtest_strategy. intro H.
  destruct (mapM _ (unique (map Ticker data))) as [e|frames] eqn:Em;
    cbn [bind] in H; [discriminate|].
  assert (Hc : out = concat frames).
  { destruct frames; simpl in H; [discriminate|]. now inversion H. }
  apply mapM_ret in Em.
  assert (Hrows : map row out
                  = flat_map (fun tk => filter (fun r => String.eqb (Ticker r) tk)
                                               data)
                             (unique (map Ticker data))).
  { rewrite Hc, concat_map, flat_map_concat_map. f_equal.
    apply Forall2_map_eq. eapply Forall2_impl; [|exact Em].
    intros tk frame Htk. now apply backtest_ticker_block in Htk. }
  split; [exact Hrows|]. split.
  - rewrite <- (length_map row), Hrows. apply blocks_length.
  - apply Forall_forall. intros b Hb. rewrite Hc in Hb.
    apply in_concat in Hb. destruct Hb as (frame & Hf & Hb).
    destruct (Forall2_In_r _ _ _ _ Em Hf) as (tk & _ & Htk).
    apply backtest_ticker_block in Htk. destruct Htk as [_ Hall].
    rewrite Forall_forall in Hall. now apply Hall.
Qed.

End Run.

Lemma win_lose_partition (l : list bt_row) :
  Forall settled l ->
  length (filter (fun r => xltb (Fin 0) (pnl r)) l)
  = length (filter (fun b => (InTheMoney (row b) =? 1)%Z) l)
  /\ (length (filter (fun r => xltb (Fin 0) (pnl r)) l)
      + length (filter (fun r => xltb (pnl r) (Fin 0)) l) = length l)%nat.
Proof.
  induction 1 as [|b l Hb Hl IH]; [simpl; auto|].
  destruct IH as [IH1 IH2]. cbn [filter].
  destruct Hb as (_ & w & Hw & [[Hi Hr]|[Hi Hr]]); rewrite Hw.
  - apply Z.eqb_eq in Hi. rewrite Hi.
    assert (E1 : xltb (Fin 0) (Fin w) = true) by (apply Qltb_lt; lra).
    assert (E2 : xltb (Fin w) (Fin 0) = false) by (apply Qltb_ge; lra).
    rewrite E1, E2. cbn [length]. split; lia.
  - apply Z.eqb_neq in Hi. rewrite Hi.
    assert (E1 : xltb (Fin 0) (Fin w) = false) by (apply Qltb_ge; lra).
    assert (E2 : xltb (Fin w) (Fin 0) = true) by (apply Qltb_lt; lra).
    rewrite E1, E2. cbn [length]. split; lia.
Qed.

(** Metrics of the frame of a run: every trade is a win or a loss (none
    breaks even), and the wins are the trades that settled in the money,
    so the win rate is the share of signalled rows that did. *)
Theorem metrics_of_run (norm_cdf : Q -> Q) (python_scalars : bool)
        (data : list obs) (rsi_period : nat)
        (oversold overbought volatility : Q) (out : list bt_row) :
  backtest_strategy norm_cdf python_scalars data rsi_period oversold
                    overbought volatility = ret out ->
  (traded out = [] /\ calculate_metrics out = NoTrades 0 0 0)
  \/ exists m,
       calculate_metrics out = Metrics m
       /\ total_trades m = length (traded out)
       /\ (winning_trades m + losing_trades m = total_trades m)%nat
       /\ winning_trades m
          = length (filter (fun b => (InTheMoney (row b) =? 1)%Z)
                           (traded out))
       /\ win_rate m
          == inject_Z (Z.of_nat
                         (length (filter
                                    (fun b => (InTheMoney (row b) =? 1)%Z)
                                    (traded out))))
             / inject_Z (Z.of_nat (length (traded out))).
Proof.
  intro H. apply backtest_strategy_frame in H. destruct H as (_ & _ & Hall).
  assert (Hs : Forall settled (traded out)).
  { apply Forall_forall. intros b Hb. apply filter_In in Hb.
    destruct Hb as [Hb Hsig]. rewrite Forall_forall in Hall.
    destruct (Hall b Hb) as [(Hz & _)|Hset]; [|exact Hset].
    rewrite Hz in Hsig. discriminate. }
  destruct (win_lose_partition _ Hs) as [Hw Hp].
  unfold calculate_metrics.
  destruct (length (traded out) =? 0)%nat eqn:E.
  - left. apply Nat.eqb_eq, length_zero_iff_nil in E. auto.
  - right. eexists. split; [reflexivity|].
    cbn [total_trades winning_trades losing_trades win_rate].
    rewrite Hw in *. repeat split; auto; try reflexivity.
Qed.

End RunFacts.

(** ** backtest_simplified.py: more on the daily aggregation *)

Section GroupKeysCount.
Context {K : Type} (cmp : K -> K -> comparison).
Hypothesis cmp_eq : forall a b, cmp a b = Eq -> a = b.
Hypothesis cmp_refl : forall a, cmp a a = Eq.
Hypothesis cmp_antisym : forall a b, cmp a b = CompOpp (cmp b a).
Hypothesis cmp_trans :
  forall a b c, cmp a b = Lt -> cmp b c = Lt -> cmp a c = Lt.



End GroupKeysCount.

Module AggregateMoreFacts.
Import Simplified AggregateFacts.

Lemma with_with (r : obs) :
  with_strike_distance (with_strike_distance r) = with_strike_distance r.
Proof. reflexivity. Qed.

(** The column written into the argument does not change what a later
    call on the same frame returns, and a later call leaves the frame as
    the first call left it. *)
Theorem aggregate_to_daily_again (raw_data : DataFrame) :
  let raw_data' := fst (aggregate_to_daily raw_data) in
  daily_of raw_data' = daily_of raw_data
  /\ fst (aggregate_to_daily raw_data') = raw_data'.
Proof.
  cbn zeta. rewrite !aggregate_to_daily_argument.
  assert (H : on_rows with_strike_distance
                      (on_rows with_strike_distance raw_data)
              = on_rows with_strike_distance raw_data).
  { rewrite on_rows_on_rows. unfold on_rows. apply map_ext.
    intro ir. now rewrite with_with. }
  split; [|exact H].
  unfold daily_of, aggregate_to_daily. cbn [snd]. now rewrite H.
Qed.



End AggregateMoreFacts.


(** ** backtest_results.py: outcomes of a load *)

Module LoadFacts.
Import Results.

Open Scope string_scope.

Section Load.
Variables frame json : Type.
Variable read_trades : body -> res frame.
Variable read_kpis : body -> res (list (string * json)).
Variable read_daily : body -> res frame.
Variable empty_params : json.
Variable now_iso : json.

(** What [load_from_s3] does, step by step. An artifact that cannot be
    fetched or cannot be decoded, whatever the exception, ends the load in
    [FileNotFoundError] with a message that names the first artifact that
    failed (trades, then KPIs, then daily metrics), its key and the text
    of the cause; a corrupt artifact is thus reported like a missing one.
    The load raises no other exception, and it returns exactly when the
    three artifacts are fetched and decoded. *)
Theorem load_from_s3_first_failure
        (s3 : s3_client) (bucket : string) (date : option string)
        (prefix : string) :
  let folder := run_folder date prefix in
  let load := load_from_s3 frame json read_trades read_kpis read_daily
                           empty_params now_iso s3 bucket date prefix in
  let fetch (name : string) {A} (read : body -> res A) :=
    obj <- get_object s3 bucket (folder ++ name) ;; read obj in
  (forall e,
      fetch "/trades.csv" read_trades = raise e ->
      load = raise (FileNotFoundError
                      ("Could not load trades from "
                       ++ (folder ++ "/trades.csv") ++ ": " ++ str_exn e)))
  /\ (forall e t,
         fetch "/trades.csv" read_trades = ret t ->
         fetch "/kpi_summary.json" read_kpis = raise e ->
         load = raise (FileNotFoundError
                         ("Could not load KPIs from "
                          ++ (folder ++ "/kpi_summary.json") ++ ": "
                          ++ str_exn e)))
  /\ (forall e t k,
         fetch "/trades.csv" read_trades = ret t ->
         fetch "/kpi_summary.json" read_kpis = ret k ->
         fetch "/daily_metrics.csv" read_daily = raise e ->
         load = raise (FileNotFoundError
                         ("Could not load daily metrics from "
                          ++ (folder ++ "/daily_metrics.csv") ++ ": "
                          ++ str_exn e)))
  /\ (forall e, load = raise e -> exists msg, e = FileNotFoundError msg)
  /\ ((exists R, load = ret R)
      <-> exists t k d,
          fetch "/trades.csv" read_trades = ret t
          /\ fetch "/kpi_summary.json" read_kpis = ret k
          /\ fetch "/daily_metrics.csv" read_daily = ret d).
Proof.
  intros folder load fetch. unfold load, load_from_s3.
  fold (run_folder date prefix). fold folder. unfold fetch.
  split; [|split; [|split; [|split]]].
  - intros e ->. reflexivity.
  - intros e t -> ->. reflexivity.
  - intros e t k -> -> ->. reflexivity.
  - intro e.
    destruct (bind (get_object s3 bucket (folder ++ "/trades.csv")) _)
      as [e1|t]; cbn [or_not_found bind raise ret];
      [intro H; inversion H; eauto|].
    destruct (bind (get_object s3 bucket (folder ++ "/kpi_summary.json")) _)
      as [e2|k]; cbn [or_not_found bind raise ret];
      [intro H; inversion H; eauto|].
    destruct (bind (get_object s3 bucket (folder ++ "/daily_metrics.csv")) _)
      as [e3|d]; cbn [or_not_found bind raise ret];
      [intro H; inversion H; eauto|].
    repeat destruct (dict_pop _ _ _ _ _). discriminate.
  - destruct (bind (get_object s3 bucket (folder ++ "/trades.csv")) _)
      as [e1|t]; cbn [or_not_found bind raise ret].
    { split; [intros [R H]; discriminate|].
      intros (t & k & d & H & _). discriminate. }
    destruct (bind (get_object s3 bucket (folder ++ "/kpi_summary.json")) _)
      as [e2|k]; cbn [or_not_found bind raise ret].
    { split; [intros [R H]; discriminate|].
      intros (t' & k & d & _ & H & _). discriminate. }
    destruct (bind (get_object s3 bucket (folder ++ "/daily_metrics.csv")) _)
      as [e3|d]; cbn [or_not_found bind raise ret].
    { split; [intros [R H]; discriminate|].
      intros (t' & k' & d & _ & _ & H). discriminate. }
    split; [intros _; now exists t, k, d|].
    intros _. repeat destruct (dict_pop _ _ _ _ _). eauto.
Qed.
End Load.
End LoadFacts.

(** ** backtest_results.py: dictionaries and keys *)

Module DictFacts.
Import Results Persist.

Open Scope string_scope.

Lemma ends_with_app (z a : string) : ends_with a (z ++ a) = true.
Proof.
  induction z as [|c z IH]; simpl.
  - destruct a; simpl; [reflexivity|].
    rewrite Ascii.eqb_refl, String.eqb_refl. reflexivity.
  - rewrite IH. apply orb_true_r.
Qed.

Lemma app_ends (x y a b : string) :
  x ++ a = y ++ b -> ends_with a b = true \/ ends_with b a = true.
Proof.
  revert y. induction x as [|c x IH]; intros y H; simpl in H.
  - right. rewrite H. apply ends_with_app.
  - destruct y as [|c' y]; simpl in H.
    + left. rewrite <- H. apply (ends_with_app (String c x)).
    + inversion H. eauto.
Qed.

(** Two keys built from the names of two different artifacts differ,
    whatever the folders. *)
Lemma artifact_keys_differ (x y a b : string) :
  In a artifact_names -> In b artifact_names ->
  x ++ a = y ++ b -> a = b.
Proof.
  intros Ha Hb H. apply app_ends in H.
  simpl in Ha, Hb.
  destruct Ha as [<-|[<-|[<-|[]]]]; destruct Hb as [<-|[<-|[<-|[]]]];
    try reflexivity; exfalso; vm_compute in H;
      destruct H; discriminate.
Qed.

Section Dict.
Context {V : Type}.

Lemma get_map {W} (f : V -> W) (k : string) (d : list (string * V)) :
  dict_get k (map (fun kv => (fst kv, f (snd kv))) d)
  = option_map f (dict_get k d).
Proof.
  induction d as [|[k' v] d IH]; simpl; [reflexivity|].
  destruct (String.eqb k' k); [reflexivity|exact IH].
Qed.
End Dict.

Section KpiDict.
Variables frame json : Type.

Lemma get_set_same (k : string) (v : kpi_value frame json)
      (d : kpi_dict frame json) :
  dict_get k (dict_set frame json k v d) = Some v.
Proof.
  induction d as [|[k' v'] d IH]; simpl.
  - now rewrite String.eqb_refl.
  - destruct (String.eqb k' k) eqn:E; simpl.
    + now rewrite String.eqb_refl.
    + now rewrite E.
Qed.

Lemma get_set_other (k k' : string) (v : kpi_value frame json)
      (d : kpi_dict frame json) :
  k <> k' -> dict_get k (dict_set frame json k' v d) = dict_get k d.
Proof.
  intro Hne. induction d as [|[k0 v0] d IH]; simpl.
  - assert (E : String.eqb k' k = false)
      by (apply String.eqb_neq; congruence).
    now rewrite E.
  - destruct (String.eqb k0 k') eqn:E; simpl.
    + apply String.eqb_eq in E. subst k0.
      assert (E' : String.eqb k' k = false)
        by (apply String.eqb_neq; congruence).
      now rewrite E'.
    + destruct (String.eqb k0 k); [reflexivity|exact IH].
Qed.

Lemma pop_value (k : string) (default : kpi_value frame json)
      (d : kpi_dict frame json) :
  fst (dict_pop frame json k default d)
  = match dict_get k d with Some v => v | None => default end.
Proof.
  induction d as [|[k' v'] d IH]; simpl; [reflexivity|].
  destruct (String.eqb k' k); [reflexivity|].
  destruct (dict_pop frame json k default d). exact IH.
Qed.

Lemma pop_other (k k' : string) (default : kpi_value frame json)
      (d : kpi_dict frame json) :
  k <> k' ->
  dict_get k (snd (dict_pop frame json k' default d)) = dict_get k d.
Proof.
  intro Hne. induction d as [|[k0 v0] d IH]; simpl; [reflexivity|].
  destruct (String.eqb k0 k') eqn:E.
  - apply String.eqb_eq in E. subst k0. simpl.
    assert (E' : String.eqb k' k = false)
      by (apply String.eqb_neq; congruence).
    now rewrite E'.
  - destruct (dict_pop frame json k' default d) as [v t] eqn:Ep. simpl in *.
    destruct (String.eqb k0 k); [reflexivity|exact IH].
Qed.

Lemma get_del_other (k k' : string) (d : kpi_dict frame json) :
  k <> k' -> dict_get k (dict_del frame json k' d) = dict_get k d.
Proof.
  intro Hne. induction d as [|[k0 v0] d IH]; simpl; [reflexivity|].
  destruct (String.eqb k0 k') eqn:E; simpl.
  - apply String.eqb_eq in E. subst k0.
    assert (E' : String.eqb k' k = false)
      by (apply String.eqb_neq; congruence).
    now rewrite E'.
  - destruct (String.eqb k0 k); [reflexivity|exact IH].
Qed.

Lemma get_adjust_same (k : string)
      (f : kpi_value frame json -> kpi_value frame json)
      (d : kpi_dict frame json) :
  dict_get k (dict_adjust frame json k f d) = option_map f (dict_get k d).
Proof.
  induction d as [|[k0 v0] d IH]; simpl; [reflexivity|].
  destruct (String.eqb k0 k) eqn:E; simpl; rewrite E; [reflexivity|exact IH].
Qed.

Lemma get_adjust_other (k k' : string)
      (f : kpi_value frame json -> kpi_value frame json)
      (d : kpi_dict frame json) :
  k <> k' -> dict_get k (dict_adjust frame json k' f d) = dict_get k d.
Proof.
  intro Hne. induction d as [|[k0 v0] d IH]; simpl; [reflexivity|].
  destruct (String.eqb k0 k') eqn:E; simpl.
  - apply String.eqb_eq in E. subst k0.
    assert (E' : String.eqb k' k = false)
      by (apply String.eqb_neq; congruence).
    now rewrite E'.
  - destruct (String.eqb k0 k); [reflexivity|exact IH].
Qed.
End KpiDict.

End DictFacts.

(** ** backtest_results.py: a load that succeeds, and save followed by load *)

Module RoundTripFacts.
Import Results Persist DictFacts.

Open Scope string_scope.

Section Load.
Variables frame json : Type.
Variable read_trades : body -> res frame.
Variable read_kpis : body -> res (list (string * json)).
Variable read_daily : body -> res frame.
Variable empty_params : json.
Variable now_iso : json.

(** When the three artifacts are fetched and decoded, the load returns a
    container with the decoded tables; the strategy parameters and the
    timestamp are taken out of the summary ([{}] and the current time
    when the summary lacks them), [daily_data] is the daily-metrics table,
    and every other entry of the summary is kept. *)
Theorem load_from_s3_success
        (s3 : s3_client) (bucket : string) (date : option string)
        (prefix : string) (t dm : frame) (k : list (string * json)) :
  let folder := run_folder date prefix in
  (obj <- get_object s3 bucket (folder ++ "/trades.csv") ;; read_trades obj)
  = ret t ->
  (obj <- get_object s3 bucket (folder ++ "/kpi_summary.json") ;;
   read_kpis obj) = ret k ->
  (obj <- get_object s3 bucket (folder ++ "/daily_metrics.csv") ;;
   read_daily obj) = ret dm ->
  exists R,
    load_from_s3 frame json read_trades read_kpis read_daily empty_params
                 now_iso s3 bucket date prefix = ret R
    /\ trades frame json R = t
    /\ daily_metrics frame json R = dm
    /\ strategy_params frame json R
       = JsonValue frame json
           match dict_get "strategy_params" k with
           | Some j => j
           | None => empty_params
           end
    /\ generated_at frame json R
       = JsonValue frame json
           match dict_get "generated_at" k with
           | Some j => j
           | None => now_iso
           end
    /\ dict_get "daily_data" (kpis frame json R)
       = Some (FrameValue frame json dm)
    /\ (forall key,
           key <> "daily_data" -> key <> "strategy_params" ->
           key <> "generated_at" ->
           dict_get key (kpis frame json R)
           = option_map (JsonValue frame json) (dict_get key k)).
Proof.
  intros folder Ht Hk Hd. unfold load_from_s3.
  fold (run_folder date prefix). fold folder. rewrite Ht, Hk, Hd.
  cbn [or_not_found bind ret].
  set (D := dict_set frame json "daily_data" (FrameValue frame json dm)
                     (map (fun kv => (fst kv, JsonValue frame json (snd kv)))
                          k)).
  pose proof (pop_value frame json "strategy_params"
                        (JsonValue frame json empty_params) D) as Hsp.
  pose proof (fun key H => pop_other frame json key "strategy_params"
                             (JsonValue frame json empty_params) D H) as Ho1.
  destruct (dict_pop frame json "strategy_params"
                     (JsonValue frame json empty_params) D) as [sp D1].
  pose proof (pop_value frame json "generated_at"
                        (JsonValue frame json now_iso) D1) as Hga.
  pose proof (fun key H => pop_other frame json key "generated_at"
                             (JsonValue frame json now_iso) D1 H) as Ho2.
  destruct (dict_pop frame json "generated_at"
                     (JsonValue frame json now_iso) D1) as [ga D2].
  simpl in Hsp, Hga, Ho1, Ho2.
  eexists. split; [reflexivity|]. cbn [trades daily_metrics strategy_params
                                        generated_at kpis].
  assert (HD : forall key, key <> "daily_data" ->
                 dict_get key D
                 = option_map (JsonValue frame json) (dict_get key k)).
  { intros key Hne. unfold D. rewrite get_set_other by exact Hne.
    apply (get_map (JsonValue frame json)). }
  split; [reflexivity|]. split; [reflexivity|]. split; [|split; [|split]].
  - rewrite Hsp, HD by discriminate.
    destruct (dict_get "strategy_params" k); reflexivity.
  - rewrite Hga, Ho1, HD by discriminate.
    destruct (dict_get "generated_at" k); reflexivity.
  - rewrite Ho2, Ho1 by discriminate. unfold D. apply get_set_same.
  - intros key H1 H2 H3. rewrite Ho2, Ho1 by assumption. now apply HD.
Qed.
End Load.


Lemma app_inv_prefix (p x y : string) : p ++ x = p ++ y -> x = y.
Proof. induction p as [|c p IH]; simpl; intro H; [exact H|]. inversion H. auto. Qed.

Section Save.
Variables frame json : Type.
Variable to_csv : frame -> body.
Variable json_dumps : kpi_dict frame json -> body.
Variable format_date : json -> json.
Variable today : string.

(** The summary written by a save never has a [daily_data] entry when the
    KPI dictionary has that key once, always carries the timestamp and the
    strategy parameters of the container, and keeps every other entry of
    the KPI dictionary, the two dates passed through [strftime]. *)
Theorem prepare_kpis_for_json_entries (self : BacktestResults frame json) :
  let summary := prepare_kpis_for_json frame json format_date self in
  dict_get "generated_at" summary = Some (generated_at frame json self)
  /\ dict_get "strategy_params" summary
     = Some (strategy_params frame json self)
  /\ (NoDup (map fst (kpis frame json self)) ->
      dict_get "daily_data" summary = None)
  /\ dict_get "date_start" summary
     = option_map (strftime_value frame json format_date)
                  (dict_get "date_start" (kpis frame json self))
  /\ dict_get "date_end" summary
     = option_map (strftime_value frame json format_date)
                  (dict_get "date_end" (kpis frame json self))
  /\ (forall key,
         key <> "generated_at" -> key <> "strategy_params" ->
         key <> "daily_data" -> key <> "date_start" -> key <> "date_end" ->
         dict_get key summary = dict_get key (kpis frame json self)).
Proof.
  intro summary. unfold summary, prepare_kpis_for_json.
  split; [|split; [|split; [|split; [|split]]]].
  - rewrite get_set_other by discriminate. apply get_set_same.
  - apply get_set_same.
  - intro Hnd. rewrite !get_set_other by discriminate.
    generalize (kpis frame json self) Hnd. clear.
    intros d Hnd.
    assert (Hk : forall k f (d : kpi_dict frame json),
               map fst (dict_adjust frame json k f d) = map fst d).
    { intros k f d0. induction d0 as [|[k0 v0] d0 IH]; simpl; [reflexivity|].
      destruct (String.eqb k0 k); simpl; [reflexivity|now rewrite IH]. }
    assert (Hdel : forall d0 : kpi_dict frame json,
               NoDup (map fst d0) ->
               dict_get "daily_data" (dict_del frame json "daily_data" d0)
               = None).
    { induction d0 as [|[k0 v0] d0 IH]; simpl; intro H; [reflexivity|].
      inversion H as [|? ? Hnotin Hnd']; subst.
      destruct (String.eqb k0 "daily_data") eqn:E.
      - apply String.eqb_eq in E. subst k0.
        destruct (dict_get "daily_data" d0) eqn:Eg; [|reflexivity].
        exfalso. apply Hnotin. clear -Eg.
        induction d0 as [|[k1 v1] d0 IH]; simpl in *; [discriminate|].
        destruct (String.eqb k1 "daily_data") eqn:E1.
        + apply String.eqb_eq in E1. now left.
        + right. now apply IH.
      - simpl. rewrite E. now apply IH. }
    apply Hdel. now rewrite !Hk.
  - rewrite !get_set_other by discriminate.
    rewrite get_del_other by discriminate.
    rewrite get_adjust_other by discriminate. apply get_adjust_same.
  - rewrite !get_set_other by discriminate.
    rewrite get_del_other by discriminate. rewrite get_adjust_same.
    now rewrite get_adjust_other by discriminate.
  - intros key H1 H2 H3 H4 H5. rewrite !get_set_other by assumption.
    rewrite get_del_other by assumption.
    now rewrite !get_adjust_other by assumption.
Qed.

Lemma put_get (s3 : s3_client) (bucket key : string) (b : body)
      (bucket' key' : string) :
  put_object s3 bucket key b bucket' key'
  = if String.eqb bucket' bucket && String.eqb key' key then Some b
    else s3 bucket' key'.
Proof. reflexivity. Qed.

Lemma save_folder_store (self : BacktestResults frame json) (bucket : string)
      (P : kpi_dict frame json) (st : s3_client * list (string * string))
      (F : string) (bucket' key' : string) :
  fst (save_folder frame json to_csv json_dumps self bucket P st F)
      bucket' key'
  = if String.eqb bucket' bucket
    then if String.eqb key' (F ++ "/daily_metrics.csv")
         then Some (to_csv (daily_metrics frame json self))
         else if String.eqb key' (F ++ "/kpi_summary.json")
              then Some (json_dumps P)
              else if String.eqb key' (F ++ "/trades.csv")
                   then Some (to_csv (trades frame json self))
                   else fst st bucket' key'
    else fst st bucket' key'.
Proof.
  unfold save_folder. cbn [fst]. rewrite !put_get.
  destruct (String.eqb bucket' bucket); reflexivity.
Qed.

Lemma key_name (F F' a b : string) :
  In a artifact_names -> In b artifact_names ->
  String.eqb (F ++ a) (F' ++ b) = true -> a = b.
Proof.
  intros Ha Hb H. apply String.eqb_eq in H.
  eapply artifact_keys_differ; eassumption.
Qed.

Lemma names_in :
  In "/trades.csv" artifact_names /\ In "/kpi_summary.json" artifact_names
  /\ In "/daily_metrics.csv" artifact_names.
Proof. simpl. tauto. Qed.

(** Writing a folder puts its three artifacts in the store and keeps the
    artifacts of the same container under any other folder. *)
Lemma save_folder_holds (self : BacktestResults frame json) (bucket : string)
      (st : s3_client * list (string * string)) (F F' : string) :
  let P := prepare_kpis_for_json frame json format_date self in
  let st' := save_folder frame json to_csv json_dumps self bucket P st F' in
  (F = F' \/ holds_run frame json to_csv json_dumps format_date
                       self (fst st) bucket F) ->
  holds_run frame json to_csv json_dumps format_date self (fst st') bucket F.
Proof.
  intros P st' H. unfold st', holds_run.
  destruct names_in as (Nt & Nk & Nd).
  rewrite !save_folder_store, !String.eqb_refl.
  repeat split.
  - destruct (String.eqb (F ++ "/trades.csv") (F' ++ "/daily_metrics.csv"))
      eqn:E1; [apply key_name in E1; auto; discriminate|].
    destruct (String.eqb (F ++ "/trades.csv") (F' ++ "/kpi_summary.json"))
      eqn:E2; [apply key_name in E2; auto; discriminate|].
    destruct (String.eqb (F ++ "/trades.csv") (F' ++ "/trades.csv")) eqn:E3;
      [reflexivity|].
    destruct H as [->|(H & _)]; [now rewrite String.eqb_refl in E3|exact H].
  - destruct (String.eqb (F ++ "/kpi_summary.json")
                         (F' ++ "/daily_metrics.csv"))
      eqn:E1; [apply key_name in E1; auto; discriminate|].
    destruct (String.eqb (F ++ "/kpi_summary.json")
                         (F' ++ "/kpi_summary.json")) eqn:E2; [reflexivity|].
    destruct H as [->|(_ & H & _)]; [now rewrite String.eqb_refl in E2|].
    destruct (String.eqb (F ++ "/kpi_summary.json") (F' ++ "/trades.csv"))
      eqn:E3; [apply key_name in E3; auto; discriminate|exact H].
  - destruct (String.eqb (F ++ "/daily_metrics.csv")
                         (F' ++ "/daily_metrics.csv")) eqn:E1; [reflexivity|].
    destruct H as [->|(_ & _ & H)]; [now rewrite String.eqb_refl in E1|].
    destruct (String.eqb (F ++ "/daily_metrics.csv")
                         (F' ++ "/kpi_summary.json"))
      eqn:E2; [apply key_name in E2; auto; discriminate|].
    destruct (String.eqb (F ++ "/daily_metrics.csv") (F' ++ "/trades.csv"))
      eqn:E3; [apply key_name in E3; auto; discriminate|exact H].
Qed.

Lemma save_folders_store (self : BacktestResults frame json)
      (bucket : string) (folders : list string)
      (st : s3_client * list (string * string)) :
  let P := prepare_kpis_for_json frame json format_date self in
  let s3' := fst (fold_left
                    (save_folder frame json to_csv json_dumps self bucket P)
                    folders st) in
  (forall F, In F folders ->
             holds_run frame json to_csv json_dumps format_date
                       self s3' bucket F)
  /\ (forall bucket' key',
         bucket' <> bucket
         \/ (forall F name, In F folders -> In name artifact_names ->
                            key' <> F ++ name) ->
         s3' bucket' key' = fst st bucket' key').
Proof.
  intro P. revert st. induction folders as [|F' rest IH]; intro st.
  - split; [contradiction|reflexivity].
  - cbn [fold_left].
    destruct (IH (save_folder frame json to_csv json_dumps self bucket P
                              st F')) as [IH1 IH2].
    split.
    + intros F [->|HF]; [|now apply IH1].
      clear IH IH1 IH2.
      assert (Hnow : holds_run frame json to_csv json_dumps format_date self
                       (fst (save_folder frame json to_csv json_dumps self
                                         bucket P st F)) bucket F)
        by (apply save_folder_holds; now left).
      revert Hnow.
      generalize (save_folder frame json to_csv json_dumps self bucket P
                              st F).
      induction rest as [|F2 rest IHr]; intros st' Hst; [exact Hst|].
      cbn [fold_left]. apply IHr. apply save_folder_holds. now right.
    + intros bucket' key' Hk. rewrite IH2.
      * rewrite save_folder_store.
        destruct Hk as [Hb|Hk].
        -- apply String.eqb_neq in Hb. now rewrite Hb.
        -- destruct names_in as (Nt & Nk & Nd).
           destruct (String.eqb bucket' bucket); [|reflexivity].
           assert (E : forall name, In name artifact_names ->
                         String.eqb key' (F' ++ name) = false).
           { intros name Hn. apply String.eqb_neq.
             apply Hk; [now left|exact Hn]. }
           now rewrite !E.
      * destruct Hk as [Hb|Hk]; [now left|right].
        intros F name HF. apply Hk. now right.
Qed.

(** After a save the store holds the artifacts under every folder of the
    save (the dated folder, and [latest] when asked for); objects in
    other buckets, and objects whose key is not one of the three names
    under one of those folders, are as before. *)
Theorem save_to_s3_store (self : BacktestResults frame json)
        (s3 : s3_client) (bucket : string) (date : option string)
        (prefix : string) (save_latest : bool) :
  let folders := save_paths
                   match date with None => today | Some d => d end
                   prefix save_latest in
  let s3' := fst (save_to_s3 frame json to_csv json_dumps format_date today
                             self s3 bucket date prefix save_latest) in
  (forall F, In F folders ->
             holds_run frame json to_csv json_dumps format_date
                       self s3' bucket F)
  /\ (forall bucket' key',
         bucket' <> bucket
         \/ (forall F name, In F folders -> In name artifact_names ->
                            key' <> F ++ name) ->
         s3' bucket' key' = s3 bucket' key').
Proof.
  intros folders s3'.
  exact (save_folders_store self bucket folders (s3, [])).
Qed.

(** Which folders a load finds after a save: the folder of the date of
    the save when that date is not the empty string, and [latest] when
    the save was asked to write it; without that, and with another date,
    [latest] is not among the folders written. *)
Theorem saved_folders_loadable (d prefix : string) (save_latest : bool) :
  (d <> "" -> In (run_folder (Some d) prefix)
                 (save_paths d prefix save_latest))
  /\ In (run_folder None prefix) (save_paths d prefix true)
  /\ (d <> "latest" ->
      ~ In (run_folder None prefix) (save_paths d prefix false))
  /\ run_folder (Some "") prefix = run_folder None prefix.
Proof.
  unfold run_folder, save_paths. split; [|split; [|split]].
  - intro Hd. apply String.eqb_neq in Hd. rewrite Hd. now left.
  - simpl. destruct (String.eqb (prefix ++ "/latest") _) eqn:E.
    + apply String.eqb_eq in E. left. now rewrite E.
    + right. simpl. now left.
  - simpl. intros Hd [H|[]]. apply app_inv_prefix in H. inversion H.
    congruence.
  - reflexivity.
Qed.
End Save.


Section RoundTrip.
Variables frame json : Type.
Variable to_csv : frame -> body.
Variable json_dumps : kpi_dict frame json -> body.
Variable format_date : json -> json.
Variable today : string.
Variable read_trades : body -> res frame.
Variable read_kpis : body -> res (list (string * json)).
Variable read_daily : body -> res frame.
Variable empty_params : json.
Variable now_iso : json.
(** What a value of the summary reads back as. *)
Variable to_json : kpi_value frame json -> json.

(** Save followed by load. When the folder asked for is one the save
    wrote, and the two tables and the summary of the container decode
    from their encodings, the load returns the tables, the strategy
    parameters and the timestamp of the container; [daily_data] of the
    loaded KPIs is the daily-metrics table (not the [daily_data] entry the
    container had), and the other KPI entries are those of the
    container. *)
Theorem save_then_load (self : BacktestResults frame json)
        (s3 : s3_client) (bucket : string) (date : option string)
        (prefix : string) (save_latest : bool) (date' : option string) :
  let summary := prepare_kpis_for_json frame json format_date self in
  let s3' := fst (save_to_s3 frame json to_csv json_dumps format_date today
                             self s3 bucket date prefix save_latest) in
  In (run_folder date' prefix)
     (save_paths match date with None => today | Some d => d end
                 prefix save_latest) ->
  read_trades (to_csv (trades frame json self))
  = ret (trades frame json self) ->
  read_daily (to_csv (daily_metrics frame json self))
  = ret (daily_metrics frame json self) ->
  read_kpis (json_dumps summary)
  = ret (map (fun kv => (fst kv, to_json (snd kv))) summary) ->
  exists R,
    load_from_s3 frame json read_trades read_kpis read_daily empty_params
                 now_iso s3' bucket date' prefix = ret R
    /\ trades frame json R = trades frame json self
    /\ daily_metrics frame json R = daily_metrics frame json self
    /\ strategy_params frame json R
       = JsonValue frame json (to_json (strategy_params frame json self))
    /\ generated_at frame json R
       = JsonValue frame json (to_json (generated_at frame json self))
    /\ dict_get "daily_data" (kpis frame json R)
       = Some (FrameValue frame json (daily_metrics frame json self))
    /\ (forall key,
           key <> "daily_data" -> key <> "strategy_params" ->
           key <> "generated_at" -> key <> "date_start" ->
           key <> "date_end" ->
           dict_get key (kpis frame json R)
           = option_map (fun v => JsonValue frame json (to_json v))
                        (dict_get key (kpis frame json self))).
Proof.
  intros summary s3' Hin Ht Hd Hk.
  destruct (save_to_s3_store frame json to_csv json_dumps format_date today
                             self s3 bucket date prefix save_latest)
    as [Hheld _].
  destruct (Hheld _ Hin) as (H1 & H2 & H3). fold s3' in H1, H2, H3.
  fold summary in H2.
  destruct (load_from_s3_success frame json read_trades read_kpis read_daily
              empty_params now_iso s3' bucket date' prefix
              (trades frame json self) (daily_metrics frame json self)
              (map (fun kv => (fst kv, to_json (snd kv))) summary))
    as (R & HR & Rt & Rd & Rsp & Rga & Rdd & Rother).
  { unfold get_object. rewrite H1. exact Ht. }
  { unfold get_object. rewrite H2. exact Hk. }
  { unfold get_object. rewrite H3. exact Hd. }
  destruct (prepare_kpis_for_json_entries frame json format_date self)
    as (Pga & Psp & _ & _ & _ & Pother).
  fold summary in Pga, Psp, Pother.
  exists R. split; [exact HR|]. split; [exact Rt|]. split; [exact Rd|].
  split; [|split; [|split]].
  - rewrite Rsp, (get_map to_json), Psp. reflexivity.
  - rewrite Rga, (get_map to_json), Pga. reflexivity.
  - exact Rdd.
  - intros key K1 K2 K3 K4 K5.
    rewrite (Rother key K1 K2 K3), (get_map to_json), Pother by assumption.
    destruct (dict_get key (kpis frame json self)); reflexivity.
Qed.

Variable path_join : string -> string -> string.
Variable no_such_file : string -> string.

(** [load_local] passes every failure on as it is: a file that does not
    exist gives the [FileNotFoundError] of the file system, and a file
    that does not decode gives the exception of the decoder, for the first
    of the three files (trades, KPIs, daily metrics) that fails. *)
Theorem load_local_passes_errors (fs : files) (input_dir : string)
        (e : exn) :
  let load := load_local frame json read_trades read_kpis read_daily
                         empty_params now_iso path_join no_such_file
                         fs input_dir in
  let fetch (name : string) {A} (read : body -> res A) :=
    obj <- read_file no_such_file fs (path_join input_dir name) ;;
    read obj in
  (forall path,
      read_file no_such_file fs path = raise e <->
      fs path = None /\ e = FileNotFoundError (no_such_file path))
  /\ (fetch "trades.csv" read_trades = raise e -> load = raise e)
  /\ (forall t,
         fetch "trades.csv" read_trades = ret t ->
         fetch "kpi_summary.json" read_kpis = raise e -> load = raise e)
  /\ (forall t k,
         fetch "trades.csv" read_trades = ret t ->
         fetch "kpi_summary.json" read_kpis = ret k ->
         fetch "daily_metrics.csv" read_daily = raise e -> load = raise e).
Proof.
  intros load fetch. unfold load, load_local, fetch.
  split; [|split; [|split]].
  - intro path. unfold read_file. destruct (fs path).
    + split; [discriminate|]. intros [H _]. discriminate.
    + split.
      * intro H. inversion H. auto.
      * intros [_ ->]. reflexivity.
  - intros ->. reflexivity.
  - intros t -> ->. reflexivity.
  - intros t k -> -> ->. reflexivity.
Qed.
End RoundTrip.

End RoundTripFacts.


(** ** kpi_html_generator.py: what the dashboard is given *)

Module DashboardFacts.
Import Dashboard.

Open Scope string_scope.

Section Render.
Variable template : Type.
Variable get_template : string -> string -> res template.
Variable render : template -> context -> res string.
Variable default_template_dir : string.
Variable dumps_strings : list string -> string.
Variable dumps_floats : list Q -> string.
Variable round2 : Q -> Q.
Variable strftime_iso : Z -> string.
Variable strftime_long : Z -> string.
Variable now_str : string.

Lemma half_le (w t : Z) :
  (1 # 2) * inject_Z t <= inject_Z w <-> (t <= 2 * w)%Z.
Proof. unfold Qle, Qmult, inject_Z. cbn [Qnum Qden]. lia. Qed.

Lemma css_class_positive (b : bool) : css_class b = "positive" <-> b = true.
Proof. destruct b; simpl; split; intro H; auto; discriminate. Qed.

(** The dashboard of the KPIs of a trade set. A template that cannot be
    loaded ends the call with the loader's exception. Otherwise the
    template is rendered once, and what it is given says: the win rate is
    [positive] exactly when at least half of a non-empty trade set are
    wins, the net pnl is [positive] exactly when the gross pnl covers the
    commissions, and for the empty trade set the three chart series are
    [[]] and both dates [N/A]. *)
Theorem dashboard_of_kpis (trades : list Kpi.trade) (c display_c : Q)
        (template_name : string) (template_dir : option string) :
  let dir := match template_dir with
             | None => default_template_dir
             | Some d => d
             end in
  let html := generate_html_dashboard
                template get_template render default_template_dir
                dumps_strings dumps_floats round2 strftime_iso strftime_long
                now_str (Kpi.calculate_kpis trades c) display_c template_name
                template_dir in
  (forall e, get_template dir template_name = raise e -> html = raise e)
  /\ (forall tpl,
         get_template dir template_name = ret tpl ->
         exists ctx,
           html = render tpl ctx
           /\ (win_rate_class ctx = "positive" <->
               trades <> []
               /\ (length trades
                   <= 2 * length (filter (fun t => Qltb 0 (Kpi.pnl t)) trades))
                  %nat)
           /\ (net_pnl_class ctx = "positive" <->
               inject_Z (Z.of_nat (length trades)) * c
               <= series_sum (map Kpi.pnl trades))
           /\ (gross_pnl_class ctx = "positive" <->
               0 <= series_sum (map Kpi.pnl trades))
           /\ commission_per_contract ctx = display_c
           /\ (trades = [] ->
               dates_json ctx = "[]" /\ cumulative_pnl_json ctx = "[]"
               /\ drawdown_json ctx = "[]"
               /\ date_start ctx = "N/A" /\ date_end ctx = "N/A")).
Proof.
  intros dir html. unfold html, generate_html_dashboard. fold dir.
  split; [intros e ->; reflexivity|].
  intros tpl ->. cbn [bind]. eexists. split; [reflexivity|].
  cbn [win_rate_class net_pnl_class gross_pnl_class commission_per_contract
       dates_json cumulative_pnl_json drawdown_json date_start date_end].
  rewrite !css_class_positive, !Qle_bool_iff.
  destruct trades as [|t0 rest].
  - simpl. unfold series_sum. simpl. change (inject_Z 0) with 0.
    split; [|split; [|split; [|split]]].
    + split; [intro H; exfalso; revert H; now apply Qlt_not_le|].
      intros [H _]. congruence.
    + split; intro; lra.
    + tauto.
    + reflexivity.
    + intros _. repeat split.
  - set (trades := t0 :: rest).
    change (Kpi.gross_pnl (Kpi.calculate_kpis trades c))
      with (series_sum (map Kpi.pnl trades)).
    change (Kpi.net_pnl (Kpi.calculate_kpis trades c))
      with (series_sum (map Kpi.pnl trades)
            - inject_Z (Z.of_nat (length trades)) * c).
    change (Kpi.win_rate (Kpi.calculate_kpis trades c))
      with (inject_Z (Z.of_nat (length (filter (fun t => Qltb 0 (Kpi.pnl t))
                                                trades)))
            / inject_Z (Z.of_nat (length trades))).
    assert (Hpos : 0 < inject_Z (Z.of_nat (length trades))).
    { change 0 with (inject_Z 0). rewrite <- Zlt_Qlt. simpl. lia. }
    split; [|split; [|split; [|split]]].
    + split.
      * intro H. split; [discriminate|].
        apply (Qmult_le_compat_r _ _ (inject_Z (Z.of_nat (length trades))))
          in H; [|now apply Qlt_le_weak].
        assert (Hw : inject_Z (Z.of_nat (length (filter
                                 (fun t => Qltb 0 (Kpi.pnl t)) trades)))
                     / inject_Z (Z.of_nat (length trades))
                     * inject_Z (Z.of_nat (length trades))
                     == inject_Z (Z.of_nat (length (filter
                                   (fun t => Qltb 0 (Kpi.pnl t)) trades)))).
        { field. intro H0. rewrite H0 in Hpos. apply (Qlt_irrefl _ Hpos). }
        rewrite Hw in H. apply half_le in H. lia.
      * intros [_ H]. apply Qle_shift_div_l; [exact Hpos|].
        apply half_le. lia.
    + split; intro H; lra.
    + tauto.
    + reflexivity.
    + discriminate.
Qed.
End Render.

End DashboardFacts.


(** ** The further properties at sample inputs *)

Lemma tier_entry_cost_monotone_at_sample :
  99 <= 102
  /\ Kpi.calculate_tier_entry_cost 99 100
     <= Kpi.calculate_tier_entry_cost 102 100.
Proof.
  assert (H : 99 <= 102) by discriminate.
  split; [exact H|].
  exact (proj1 (TierFacts.tier_entry_cost_monotone 99 102 100 H)).
Defined.

Lemma tier_entry_cost_zones_at_sample :
  0 <= 100
  /\ (Kpi.calculate_tier_entry_cost (1005 # 10) 100 = 5
      <-> Qabs ((1005 # 10) - 100) <= 100 * (1 # 100)).
Proof.
  assert (H : 0 <= 100) by discriminate.
  split; [exact H|].
  exact (proj2 (proj2 (TierFacts.tier_entry_cost_zones (1005 # 10) 100 H))).
Defined.

Lemma tier_entry_cost_negative_strike_at_sample :
  -100 < 0 /\ Kpi.calculate_tier_entry_cost (-100) (-100) = 75 # 10.
Proof.
  assert (H : -100 < 0) by reflexivity.
  split; [exact H|].
  exact (proj2 (TierFacts.tier_entry_cost_negative_strike 0 (-100) H)).
Defined.

Lemma cumulative_pnl_running_sum_at_sample :
  exists r,
    nth_error (Kpi.daily_data (Kpi.calculate_kpis Samples.trades 1)) 1
    = Some r
    /\ Kpi.cumulative_pnl r
       == Kpi.gross_pnl (Kpi.calculate_kpis Samples.trades 1).
Proof.
  eexists. split; [reflexivity|].
  refine (proj2 (KpiTableFacts.cumulative_pnl_running_sum
                   Samples.trades 1 1 _ eq_refl) eq_refl).
Defined.

Lemma date_range_spans_trades_at_sample :
  Samples.trades <> []
  /\ exists lo hi,
      Kpi.date_start (Kpi.calculate_kpis Samples.trades 1) = Some lo
      /\ Kpi.date_end (Kpi.calculate_kpis Samples.trades 1) = Some hi
      /\ In lo (map Kpi.Date Samples.trades).
Proof.
  assert (H : Samples.trades <> []) by discriminate.
  split; [exact H|].
  destruct (KpiRangeFacts.date_range_spans_trades Samples.trades 1 H)
    as (lo & hi & H1 & H2 & H3 & _).
  exists lo, hi. auto.
Defined.

Lemma calculate_rsi_range_at_sample :
  exists x,
    nth_error (Simplified.calculate_rsi [100; 101; 100; 103] 2) 2 = Some x
    /\ (x = NaN \/ exists q, x = Fin q /\ 0 <= q <= 100).
Proof.
  eexists. split; [reflexivity|].
  exact (proj1 (IndicatorRangeFacts.calculate_rsi_range
                  [100; 101; 100; 103] 2 2 _ eq_refl)).
Defined.

Lemma rising_sample_rises :
  rising (map Simplified.ExpValue MoreSamples.rising_data).
Proof.
  intros [|[|[|j]]] a b Ha Hb; simpl in Ha, Hb;
    try discriminate; inversion Ha; inversion Hb; subst; reflexivity.
Qed.

Lemma falling_sample_falls :
  falling (map Simplified.ExpValue MoreSamples.falling_data).
Proof.
  intros [|[|[|j]]] a b Ha Hb; simpl in Ha, Hb;
    try discriminate; inversion Ha; inversion Hb; subst; reflexivity.
Qed.

Lemma rising_series_sells_at_sample :
  exists b,
    nth_error (Simplified.generate_rsi_signals MoreSamples.rising_data
                                               2 30 70) 1 = Some b
    /\ Simplified.rsi b = Fin 100 /\ Simplified.signal b = (-1)%Z.
Proof.
  eexists. split; [reflexivity|].
  destruct (proj2 (TrendFacts.rising_series_sells
                     MoreSamples.rising_data 2 30 70 1 _
                     rising_sample_rises (le_S _ _ (le_n 1)) eq_refl)
                  (le_n 2) (le_n 1)) as [Hr Hs].
  split; [exact Hr|]. apply Hs. reflexivity.
Defined.

Lemma falling_series_buys_at_sample :
  exists b,
    nth_error (Simplified.generate_rsi_signals MoreSamples.falling_data
                                               2 30 70) 1 = Some b
    /\ Simplified.signal b = 1%Z.
Proof.
  eexists. split; [reflexivity|].
  destruct (proj2 (TrendFacts.falling_series_buys
                     MoreSamples.falling_data 2 30 70 1 _
                     falling_sample_falls (le_S _ _ (le_n 1)) eq_refl)
                  (le_n 2) (le_n 1)) as [_ Hs].
  apply Hs; [reflexivity|discriminate].
Defined.

Lemma price_row_pnl_at_sample :
  Simplified.signal MoreSamples.signalled <> 0%Z
  /\ exists r',
      Simplified.price_row Simplified.cdf_line true (1 # 100)
                           MoreSamples.signalled = ret r'
      /\ exists p, Simplified.probability_itm r' = Fin p
                   /\ 5 # 100 <= p <= 95 # 100.
Proof.
  assert (H : Simplified.signal MoreSamples.signalled <> 0%Z)
    by discriminate.
  split; [exact H|]. eexists. split; [reflexivity|].
  destruct (EngineFacts.price_row_pnl Simplified.cdf_line true (1 # 100)
              MoreSamples.signalled _ H eq_refl) as (p & Hp & Hr & _).
  exists p. split; assumption.
Defined.

Lemma backtest_strategy_frame_at_sample :
  exists out,
    Simplified.backtest_strategy Simplified.cdf_line true
                                 MoreSamples.rising_data 2 30 70 (1 # 100)
    = ret out
    /\ length out = length MoreSamples.rising_data.
Proof.
  eexists. split; [reflexivity|].
  exact (proj1 (proj2 (RunFacts.backtest_strategy_frame
                         Simplified.cdf_line true MoreSamples.rising_data
                         2 30 70 (1 # 100) _ eq_refl))).
Defined.


Lemma metrics_of_run_at_sample :
  exists out,
    Simplified.backtest_strategy Simplified.cdf_line true
                                 MoreSamples.rising_data 2 30 70 (1 # 100)
    = ret out
    /\ exists m,
        Simplified.calculate_metrics out = Simplified.Metrics m
        /\ (Simplified.winning_trades m + Simplified.losing_trades m
            = Simplified.total_trades m)%nat.
Proof.
  eexists. split; [reflexivity|].
  destruct (RunFacts.metrics_of_run
              Simplified.cdf_line true MoreSamples.rising_data
              2 30 70 (1 # 100) _ eq_refl)
    as [[H _]|(m & Hm & _ & Hsum & _)]; [discriminate H|].
  exists m. split; assumption.
Defined.


Open Scope string_scope.

Lemma load_from_s3_first_failure_at_sample :
  (obj <- Results.get_object Samples.store "bucket"
            (Results.run_folder None "backtest/results" ++ "/trades.csv") ;;
   Samples.read_csv obj) = ret "Date,pnl"
  /\ (obj <- Results.get_object Samples.store "bucket"
               (Results.run_folder None "backtest/results"
                ++ "/kpi_summary.json") ;;
      Samples.read_json obj) = raise Results.no_such_key
  /\ Results.load_from_s3 string string Samples.read_csv Samples.read_json
                          Samples.read_csv "{}" "now"
                          Samples.store "bucket" None "backtest/results"
     = raise (FileNotFoundError
                "Could not load KPIs from backtest/results/latest/kpi_summary.json: An error occurred (NoSuchKey) when calling the GetObject operation: The specified key does not exist.").
Proof.
  split; [reflexivity|]. split; [reflexivity|].
  exact (proj1 (proj2 (LoadFacts.load_from_s3_first_failure
                         string string Samples.read_csv Samples.read_json
                         Samples.read_csv "{}" "now" Samples.store "bucket"
                         None "backtest/results"))
               Results.no_such_key "Date,pnl" eq_refl eq_refl).
Defined.

Lemma load_from_s3_success_at_sample :
  exists R,
    Results.load_from_s3 string string Samples.read_csv Samples.read_json
                         Samples.read_csv "{}" "now"
                         MoreSamples.full_store "bucket" None
                         "backtest/results" = ret R
    /\ Results.strategy_params string string R
       = Results.JsonValue string string "{}".
Proof.
  destruct (RoundTripFacts.load_from_s3_success
              string string Samples.read_csv Samples.read_json
              Samples.read_csv "{}" "now" MoreSamples.full_store "bucket"
              None "backtest/results" "body" "body" []
              eq_refl eq_refl eq_refl)
    as (R & HR & _ & _ & Hsp & _).
  exists R. split; assumption.
Defined.

Lemma save_then_load_at_sample :
  exists R,
    Results.load_from_s3
      string string MoreSamples.read_table MoreSamples.read_summary
      MoreSamples.read_table "{}" "now"
      (fst (Persist.save_to_s3 string string (fun f => f)
                               (fun _ => "summary") (fun j => j)
                               "2024-01-02" MoreSamples.container
                               Samples.store "bucket" (Some "2024-01-01")
                               "backtest/results" true))
      "bucket" (Some "2024-01-01") "backtest/results" = ret R
    /\ Results.trades string string R
       = Results.trades string string MoreSamples.container.
Proof.
  destruct (RoundTripFacts.save_then_load
              string string (fun f => f) (fun _ => "summary") (fun j => j)
              "2024-01-02" MoreSamples.read_table MoreSamples.read_summary
              MoreSamples.read_table "{}" "now" MoreSamples.text_of
              MoreSamples.container Samples.store "bucket"
              (Some "2024-01-01") "backtest/results" true
              (Some "2024-01-01")
              (or_introl eq_refl) eq_refl eq_refl eq_refl)
    as (R & HR & Ht & _).
  exists R. split; assumption.
Defined.


(** On a directory without files, [load_local] raises the file system's
    error for the trade log. *)
Lemma load_local_passes_errors_at_sample :
  Persist.load_local string string MoreSamples.read_table
                     MoreSamples.read_summary MoreSamples.read_table
                     "{}" "now" (fun d n => d ++ "/" ++ n)
                     (fun p => "No such file or directory: " ++ p)
                     (fun _ => None) "results"
  = raise (FileNotFoundError
             "No such file or directory: results/trades.csv").
Proof.
  apply (proj1 (proj2 (RoundTripFacts.load_local_passes_errors
                         string string MoreSamples.read_table
                         MoreSamples.read_summary MoreSamples.read_table
                         "{}" "now" (fun d n => d ++ "/" ++ n)
                         (fun p => "No such file or directory: " ++ p)
                         (fun _ => None) "results" _))).
  reflexivity.
Defined.
